(** * Google Calendar MCP server: a shallow embedding of [main.py]

    The server is a thin layer of Python over three remote parties: the
    credential vault (reached with [requests.get]), the OAuth token
    endpoint (reached by [creds.refresh]) and the calendar provider
    (reached by the [.execute()] of a request built from the service
    object).  The embedding keeps the program as it is written:

    - Python values that travel through the program (JSON payloads, the
      dictionaries the tools serialise) are terms of [value];
    - exceptions are terms of [exn]; a computation either returns, raises,
      or runs out of the fuel that bounds the one [while True] loop;
    - every remote invocation is appended to a trace of [call]s and its
      reply is read from a [world], which may answer differently depending
      on the calls made so far;
    - [logger.error] writes to the log only and is left out. *)

From Stdlib Require Import ZArith String Ascii List Bool Lia DecimalString.
From stdpp Require Import base option gmap strings list.

Local Open Scope string_scope.
Local Open Scope list_scope.
Local Open Scope Z_scope.

(** ** Python values *)

(** The values of the program: [None], booleans, integers, strings, lists
    and dictionaries.  A dictionary keeps its entries in insertion order,
    as Python's does; a key is looked up from the front. *)
#[warnings="-register-all"]
Inductive value : Type :=
| VNone
| VBool (b : bool)
| VInt (n : Z)
| VStr (s : string)
| VList (items : list value)
| VDict (entries : list (string * value)).

(** Python's truth value of an object, as [if x:] and [not x] test it. *)
Definition truthy (v : value) : bool :=
  match v with
  | VNone => false
  | VBool b => b
  | VInt n => negb (n =? 0)
  | VStr s => match s with EmptyString => false | String _ _ => true end
  | VList items => match items with [] => false | _ :: _ => true end
  | VDict entries => match entries with [] => false | _ :: _ => true end
  end.

(** Truth value of a [str]. *)
Definition truthy_str (s : string) : bool := truthy (VStr s).

(** Truth value of an [Optional[str]]: [None] and the empty string are false. *)
Definition truthy_opt (o : option string) : bool :=
  match o with
  | None => false
  | Some s => truthy_str s
  end.

Definition type_name (v : value) : string :=
  match v with
  | VNone => "NoneType"
  | VBool _ => "bool"
  | VInt _ => "int"
  | VStr _ => "str"
  | VList _ => "list"
  | VDict _ => "dict"
  end.

Fixpoint assoc (k : string) (entries : list (string * value)) : option value :=
  match entries with
  | [] => None
  | (k', v) :: rest => if String.eqb k k' then Some v else assoc k rest
  end.

(** [str(n)] of an [int]. *)
Definition str_int (n : Z) : string := NilZero.string_of_int (Z.to_int n).

(** ** Exceptions and outcomes *)

(** The exceptions the program tells apart: [googleapiclient.errors.HttpError]
    (whose [resp] attribute carries the provider's status; [None] stands for
    an object without the attribute, the case [hasattr(error, 'resp')]
    guards against) and every other subclass of [Exception], kept with its
    class name.  Both carry their [str()]. *)
Inductive exn : Type :=
| HttpError (resp : option Z) (text : string)
| PyError (cls : string) (text : string).

Definition str_exn (e : exn) : string :=
  match e with
  | HttpError _ text => text
  | PyError _ text => text
  end.

Definition ValueError (msg : string) : exn := PyError "ValueError" msg.
Definition AttributeError (msg : string) : exn := PyError "AttributeError" msg.
Definition TypeError (msg : string) : exn := PyError "TypeError" msg.
Definition OverflowError (msg : string) : exn := PyError "OverflowError" msg.
Definition Exception (msg : string) : exn := PyError "Exception" msg.

(** How a computation ends: it returns, it raises, or the bound on the
    number of loop iterations is reached first. *)
Inductive outcome (A : Type) : Type :=
| Return (a : A)
| Raise (e : exn)
| OutOfFuel.
Arguments Return {A} a.
Arguments Raise {A} e.
Arguments OutOfFuel {A}.

(** [obj.get(k, default)]: defined on dictionaries only. *)
Definition py_get (obj : value) (k : string) (dflt : value) : outcome value :=
  match obj with
  | VDict entries => Return (default dflt (assoc k entries))
  | _ => Raise (AttributeError ("'" +:+ type_name obj +:+ "' object has no attribute 'get'"))
  end.

(** Iterating over an object ([for x in obj], [list.extend(obj)]): a list
    yields its items, a dictionary its keys, a string its characters;
    anything else is not iterable. *)
Definition py_iter (obj : value) : outcome (list value) :=
  match obj with
  | VList items => Return items
  | VDict entries => Return (map (fun kv => VStr (fst kv)) entries)
  | VStr s => Return (map (fun c => VStr (String c EmptyString)) (list_ascii_of_string s))
  | _ => Raise (TypeError ("'" +:+ type_name obj +:+ "' object is not iterable"))
  end.

(** ** Naive local date-times *)

(** [datetime.datetime] without time zone, as [datetime.now()] returns it. *)
Record datetime : Type := mk_datetime {
  year : Z; month : Z; day : Z;
  hour : Z; minute : Z; second : Z; microsecond : Z
}.

Definition is_leap (y : Z) : bool :=
  ((y mod 4 =? 0) && negb (y mod 100 =? 0)) || (y mod 400 =? 0).

Definition days_in_month (y m : Z) : Z :=
  if m =? 2 then (if is_leap y then 29 else 28)
  else if (m =? 4) || (m =? 6) || (m =? 9) || (m =? 11) then 30
  else 31.

(** The date-times Python can represent. *)
Definition valid_datetime (d : datetime) : Prop :=
  1 <= year d <= 9999 /\ 1 <= month d <= 12 /\
  1 <= day d <= days_in_month (year d) (month d) /\
  0 <= hour d <= 23 /\ 0 <= minute d <= 59 /\ 0 <= second d <= 59 /\
  0 <= microsecond d <= 999999.

(** [d.replace(hour=h, minute=mi, second=s, microsecond=us)]. *)
Definition replace_time (d : datetime) (h mi s us : Z) : datetime :=
  {| year := year d; month := month d; day := day d;
     hour := h; minute := mi; second := s; microsecond := us |}.

Definition digit (n : Z) : ascii := ascii_of_nat (48 + Z.to_nat (n mod 10)).

(** The [width] lowest decimal digits of [n], most significant first:
    [%0<width>d] for [0 <= n < 10 ^ width]. *)
Fixpoint zpad (width : nat) (n : Z) : string :=
  match width with
  | O => EmptyString
  | S w => zpad w (n / 10) +:+ String (digit n) EmptyString
  end.

(** [d.isoformat()] of a naive date-time: the fraction is printed only when
    the microsecond is not zero. *)
Definition isoformat (d : datetime) : string :=
  zpad 4 (year d) +:+ "-" +:+ zpad 2 (month d) +:+ "-" +:+ zpad 2 (day d) +:+ "T" +:+
  zpad 2 (hour d) +:+ ":" +:+ zpad 2 (minute d) +:+ ":" +:+ zpad 2 (second d) +:+
  (if microsecond d =? 0 then "" else "." +:+ zpad 6 (microsecond d)).

(** [d.strftime('%Y%m%d%H%M%S')]. *)
Definition strftime_compact (d : datetime) : string :=
  zpad 4 (year d) +:+ zpad 2 (month d) +:+ zpad 2 (day d) +:+
  zpad 2 (hour d) +:+ zpad 2 (minute d) +:+ zpad 2 (second d).

(** [date.toordinal()]: day 1 is 0001-01-01 of the proleptic Gregorian
    calendar. *)
Definition toordinal (y m d : Z) : Z :=
  let y' := if m <=? 2 then y - 1 else y in
  let era := y' / 400 in
  let yoe := y' - era * 400 in
  let doy := (153 * (if 2 <? m then m - 3 else m + 9) + 2) / 5 + d - 1 in
  let doe := yoe * 365 + yoe / 4 - yoe / 100 + doy in
  era * 146097 + doe - 305.

(** [date.fromordinal(n)]. *)
Definition fromordinal (n : Z) : Z * Z * Z :=
  let z := n + 305 in
  let era := z / 146097 in
  let doe := z - era * 146097 in
  let yoe := (doe - doe / 1460 + doe / 36524 - doe / 146096) / 365 in
  let doy := doe - (365 * yoe + yoe / 4 - yoe / 100) in
  let mp := (5 * doy + 2) / 153 in
  let d := doy - (153 * mp + 2) / 5 + 1 in
  let m := if mp <? 10 then mp + 3 else mp - 9 in
  (yoe + era * 400 + (if m <=? 2 then 1 else 0), m, d).

Definition MAXORDINAL : Z := 3652059.

(** [d + timedelta(days=n)]: [timedelta] refuses more than 999999999 days,
    and the sum must stay within years 1 to 9999. *)
Definition add_days (d : datetime) (n : Z) : outcome datetime :=
  if 999999999 <? Z.abs n then
    Raise (OverflowError ("days=" +:+ str_int n +:+ "; must have magnitude <= 999999999"))
  else
    let o := toordinal (year d) (month d) (day d) + n in
    if (1 <=? o) && (o <=? MAXORDINAL) then
      let '(y, m, dd) := fromordinal o in
      Return {| year := y; month := m; day := dd; hour := hour d; minute := minute d;
                second := second d; microsecond := microsecond d |}
    else Raise (OverflowError "date value out of range").

(** ** Remote invocations and the world *)

(** [google.oauth2.credentials.Credentials]: the attributes the program
    sets or reads.  [expiry] is the attribute the library consults for
    [expired]; the constructor leaves it at [None] unless it is passed. *)
Record Credentials : Type := mk_Credentials {
  token : value;
  refresh_token : value;
  token_uri : string;
  client_id : value;
  client_secret : value;
  scopes : list string;
  expiry : option Z
}.

(** The invocations that leave the process.  [VaultGet] is the
    [requests.get] of the vault, [TokenRefresh] the [creds.refresh(Request())]
    against the token endpoint; the other four are the [.execute()] of a
    calendar request, with the arguments the request was built from.  A
    call records one invocation made by the program: what the library does
    inside it before it returns or raises (following a redirect, refreshing
    the token and sending the request again after a 401) belongs to the
    world's reply and is not recorded. *)
Inductive call : Type :=
| VaultGet (url : string) (headers params : list (string * string))
| TokenRefresh (creds : Credentials)
| CalendarListList (request_params : list (string * value))
| EventsList (params : list (string * value))
| EventsInsert (calendarId : string) (body : value) (conferenceDataVersion : Z)
    (sendUpdates : string)
| EventsDelete (calendarId eventId sendUpdates : string).

(** The calls that reach the calendar provider. *)
Definition is_calendar_call (c : call) : bool :=
  match c with
  | VaultGet _ _ _ | TokenRefresh _ => false
  | _ => true
  end.

(** What a remote invocation gives back to the program: a result, or an
    exception raised by the library that made the invocation. *)
Inductive reply (A : Type) : Type :=
| Replied (a : A)
| Failed (e : exn).
Arguments Replied {A} a.
Arguments Failed {A} e.

Definition outcome_of_reply {A : Type} (r : reply A) : outcome A :=
  match r with
  | Replied a => Return a
  | Failed e => Raise e
  end.

(** A [requests.Response]: status line, final URL, and the decoded JSON body
    ([None] when the body is not JSON). *)
Record http_response : Type := mk_http_response {
  status_code : Z;
  reason : string;
  response_url : string;
  json_body : option value
}.

(** Everything outside the program: the environment variables (after
    [load_dotenv]), the local clock read by [datetime.now()], the UTC clock
    (in seconds) the credentials library compares [expiry] with, and the
    replies of the remote parties, each of which may depend on the calls
    made before it. *)
Record world : Type := mk_world {
  environ : gmap string string;
  now : datetime;
  utcnow : Z;
  vault_reply : list call -> call -> reply http_response;
  refresh_reply : list call -> call -> reply Credentials;
  execute_reply : list call -> call -> reply value
}.

(** ** Computations *)

(** A computation takes the trace of the calls made so far and gives its
    outcome and the extended trace. *)
Definition M (A : Type) : Type := list call -> outcome A * list call.

Definition ret {A : Type} (a : A) : M A := fun tr => (Return a, tr).

Definition raise {A : Type} (e : exn) : M A := fun tr => (Raise e, tr).

Definition lift {A : Type} (o : outcome A) : M A := fun tr => (o, tr).

Definition bind {A B : Type} (m : M A) (k : A -> M B) : M B :=
  fun tr =>
    match m tr with
    | (Return a, tr') => k a tr'
    | (Raise e, tr') => (Raise e, tr')
    | (OutOfFuel, tr') => (OutOfFuel, tr')
    end.

(** [try: body  except Exception as error: handler(error)].  Running out of
    fuel is not an exception and is not caught. *)
Definition try_except {A : Type} (body : M A) (handler : exn -> M A) : M A :=
  fun tr =>
    match body tr with
    | (Raise e, tr') => handler e tr'
    | r => r
    end.

(** A remote invocation: the reply is the world's, given the calls made
    before this one, and the call is recorded. *)
Definition invoke {A : Type} (c : call) (answer : list call -> call -> reply A) : M A :=
  fun tr => (outcome_of_reply (answer tr c), tr ++ [c]).

Declare Scope prog_scope.
Delimit Scope prog_scope with prog.
Notation "x <- m ;; k" := (bind m (fun x => k))
  (at level 100, m at next level, right associativity) : prog_scope.
Notation "m ;;; k" := (bind m (fun _ => k))
  (at level 100, right associativity) : prog_scope.
Local Open Scope prog_scope.

(** An f-string field holding an [Optional[str]]. *)
Definition fmt_opt (o : option string) : string :=
  match o with
  | Some s => s
  | None => "None"
  end.

Definition SCOPES : list string := ["https://www.googleapis.com/auth/calendar"].

(** The library refreshes a little before the recorded expiry (seconds). *)
Definition REFRESH_THRESHOLD : Z := 225.

(** ** class GoogleCalendarAuth *)

Module GoogleCalendarAuth.
Section WithWorld.

Variable w : world.

(** [response.raise_for_status()]. *)
Definition raise_for_status (response : http_response) : M unit :=
  let s := status_code response in
  if (400 <=? s) && (s <? 500) then
    raise (PyError "HTTPError" (str_int s +:+ " Client Error: " +:+ reason response +:+
                                " for url: " +:+ response_url response))
  else if (500 <=? s) && (s <? 600) then
    raise (PyError "HTTPError" (str_int s +:+ " Server Error: " +:+ reason response +:+
                                " for url: " +:+ response_url response))
  else ret tt.

(** [response.json()]. *)
Definition response_json (response : http_response) : M value :=
  match json_body response with
  | Some v => ret v
  | None => raise (PyError "JSONDecodeError" "Expecting value: line 1 column 1 (char 0)")
  end.

Definition get_connection_credentials (connection_id provider_config_key : string) : M value :=
  let base_url := environ w !! "NANGO_NANGO_BASE_URL" in
  let secret_key := environ w !! "NANGO_NANGO_SECRET_KEY" in
  if negb (truthy_opt base_url) || negb (truthy_opt secret_key) then
    raise (ValueError "NANGO_NANGO_BASE_URL and NANGO_NANGO_SECRET_KEY must be set")
  else
    let url := fmt_opt base_url +:+ "/connection/" +:+ connection_id in
    let params := [("provider_config_key", provider_config_key); ("refresh_token", "true")] in
    let headers := [("Authorization", "Bearer " +:+ fmt_opt secret_key)] in
    response <- invoke (VaultGet url headers params) (vault_reply w) ;;
    raise_for_status response ;;;
    response_json response.

(** [creds.expired], as the credentials library defines it: the recorded
    [expiry], less the threshold, has been reached; a credential without
    [expiry] never reports expired. *)
Definition expired (creds : Credentials) : bool :=
  match expiry creds with
  | None => false
  | Some t => t - REFRESH_THRESHOLD <=? utcnow w
  end.

(** [creds.valid], as the credentials library defines it: a token is held
    and it has not expired. *)
Definition valid (creds : Credentials) : bool :=
  match token creds with
  | VNone => false
  | _ => negb (expired creds)
  end.

(** The service object [build('calendar', 'v3', credentials=creds)] returns. *)
Record service : Type := build { service_credentials : Credentials }.

(** Lines 87 to 92: the "refresh token if needed" step on the credential
    object.  [creds.refresh] replaces token and expiry in place; the world
    supplies the refreshed object. *)
Definition refresh_if_needed (creds : Credentials) : M Credentials :=
  if negb (valid creds) then
    if expired creds && truthy (refresh_token creds) then
      invoke (TokenRefresh creds) (refresh_reply w)
    else
      raise (Exception "Invalid credentials and no refresh token available")
  else ret creds.

(** The [Credentials(...)] the program constructs from the vault's
    [credentials] payload; no [expiry] is passed. *)
Definition make_credentials (credentials_data : value) : M Credentials :=
  access_token <- lift (py_get credentials_data "access_token" VNone) ;;
  refresh_tok <- lift (py_get credentials_data "refresh_token" VNone) ;;
  cid <- lift (py_get credentials_data "client_id" VNone) ;;
  csecret <- lift (py_get credentials_data "client_secret" VNone) ;;
  ret {| token := access_token;
         refresh_token := refresh_tok;
         token_uri := "https://oauth2.googleapis.com/token";
         client_id := cid;
         client_secret := csecret;
         scopes := SCOPES;
         expiry := None |}.

Definition authenticate_google_calendar (connection_id provider_config_key : string)
  : M service :=
  try_except
    (nango_response <- get_connection_credentials connection_id provider_config_key ;;
     credentials_data <- lift (py_get nango_response "credentials" (VDict [])) ;;
     creds <- make_credentials credentials_data ;;
     creds' <- refresh_if_needed creds ;;
     ret (build creds'))
    (fun error => raise error).

End WithWorld.
End GoogleCalendarAuth.

(** ** class GoogleCalendarTools *)

Module GoogleCalendarTools.
Section WithWorld.

Variable w : world.

Definition CALENDAR_FIELDS : string :=
  "nextPageToken,items(id,summary,description,primary,accessRole,backgroundColor,foregroundColor,timeZone)".

(** The [request_params] of one page request. *)
Definition calendar_request_params (page_token : value) : list (string * value) :=
  [("fields", VStr CALENDAR_FIELDS)] ++
  (if truthy page_token then [("pageToken", page_token)] else []).

(** The [while True] loop of [get_all_calendars], one iteration per unit of
    fuel: request a page, extend [calendars] with its items, and stop when
    the page's [nextPageToken] is false. *)
Fixpoint calendar_pages (fuel : nat) (svc : GoogleCalendarAuth.service)
    (page_token : value) (calendars : list value) : M (list value) :=
  match fuel with
  | O => lift OutOfFuel
  | S fuel' =>
      calendar_list <- invoke (CalendarListList (calendar_request_params page_token))
                              (execute_reply w) ;;
      items <- lift (py_get calendar_list "items" (VList [])) ;;
      page_calendars <- lift (py_iter items) ;;
      let calendars := calendars ++ page_calendars in
      page_token <- lift (py_get calendar_list "nextPageToken" VNone) ;;
      if negb (truthy page_token) then ret calendars
      else calendar_pages fuel' svc page_token calendars
  end.

Definition get_all_calendars (fuel : nat) (connection_id provider_config_key : string)
  : M (list value) :=
  try_except
    (svc <- GoogleCalendarAuth.authenticate_google_calendar w connection_id provider_config_key ;;
     calendar_pages fuel svc VNone [])
    (fun error =>
       match error with
       | HttpError _ _ => raise error
       | PyError _ _ => raise error
       end).

(** An optional string argument becomes a request parameter when it is true. *)
Definition optional_param (key : string) (arg : option string) : list (string * value) :=
  match arg with
  | Some s => if truthy_str s then [(key, VStr s)] else []
  | None => []
  end.

Definition events_list_params (calendar_id : string) (time_min time_max : option string)
    (max_results : Z) : list (string * value) :=
  [("calendarId", VStr calendar_id); ("maxResults", VInt max_results);
   ("singleEvents", VBool true); ("orderBy", VStr "startTime")] ++
  optional_param "timeMin" time_min ++ optional_param "timeMax" time_max.

(** The record built for one provider event. *)
Definition format_event (calendar_id : string) (event : value) : M value :=
  id <- lift (py_get event "id" VNone) ;;
  summary <- lift (py_get event "summary" (VStr "No Title")) ;;
  description <- lift (py_get event "description" (VStr "")) ;;
  start <- lift (py_get event "start" (VDict [])) ;;
  end_ <- lift (py_get event "end" (VDict [])) ;;
  location <- lift (py_get event "location" (VStr "")) ;;
  status <- lift (py_get event "status" (VStr "")) ;;
  created <- lift (py_get event "created" VNone) ;;
  updated <- lift (py_get event "updated" VNone) ;;
  html_link <- lift (py_get event "htmlLink" VNone) ;;
  ret (VDict [("id", id); ("summary", summary); ("description", description);
              ("start", start); ("end", end_); ("location", location);
              ("status", status); ("created", created); ("updated", updated);
              ("html_link", html_link); ("calendar_id", VStr calendar_id)]).

(** The [for event in events] loop, appending to [formatted_events]. *)
Fixpoint format_events (calendar_id : string) (events formatted_events : list value)
  : M (list value) :=
  match events with
  | [] => ret formatted_events
  | event :: rest =>
      formatted_event <- format_event calendar_id event ;;
      format_events calendar_id rest (formatted_events ++ [formatted_event])
  end.

(** The [try] block of [get_calendar_events]. *)
Definition get_calendar_events_body (connection_id provider_config_key calendar_id : string)
    (time_min time_max : option string) (max_results : Z) : M value :=
  svc <- GoogleCalendarAuth.authenticate_google_calendar w connection_id provider_config_key ;;
  events_result <- invoke (EventsList (events_list_params calendar_id time_min time_max max_results))
                          (execute_reply w) ;;
  items <- lift (py_get events_result "items" (VList [])) ;;
  events <- lift (py_iter items) ;;
  formatted_events <- format_events calendar_id events [] ;;
  ret (VDict [("success", VBool true);
              ("events", VList formatted_events);
              ("total_events", VInt (Z.of_nat (length formatted_events)));
              ("calendar_id", VStr calendar_id);
              ("message", VStr ("Retrieved " +:+ str_int (Z.of_nat (length formatted_events)) +:+
                                " events successfully"))]).

Definition get_calendar_events (connection_id provider_config_key calendar_id : string)
    (time_min time_max : option string) (max_results : Z) : M value :=
  try_except
    (get_calendar_events_body connection_id provider_config_key calendar_id
       time_min time_max max_results)
    (fun error =>
       match error with
       | HttpError resp _ =>
           ret (VDict [("success", VBool false);
                       ("message", VStr ("HTTP error occurred: " +:+ str_exn error));
                       ("error", VStr ("http_error_" +:+
                                       match resp with
                                       | Some status => str_int status
                                       | None => "unknown"
                                       end));
                       ("calendar_id", VStr calendar_id)])
       | PyError _ _ =>
           ret (VDict [("success", VBool false);
                       ("message", VStr ("Unexpected error occurred: " +:+ str_exn error));
                       ("error", VStr "unexpected_error");
                       ("calendar_id", VStr calendar_id)])
       end).

(** The event body [create_meet_event] sends. *)
Definition meet_event_body (summary start_datetime end_datetime description : string)
    (attendees : option (list string)) (timezone : string) : value :=
  VDict ([("summary", VStr summary);
          ("description", VStr description);
          ("start", VDict [("dateTime", VStr start_datetime); ("timeZone", VStr timezone)]);
          ("end", VDict [("dateTime", VStr end_datetime); ("timeZone", VStr timezone)])] ++
         match attendees with
         | Some (e :: es) =>
             [("attendees", VList (map (fun email => VDict [("email", VStr email)]) (e :: es)))]
         | _ => []
         end ++
         [("conferenceData",
           VDict [("createRequest",
                   VDict [("requestId", VStr ("meet-" +:+ strftime_compact (now w)));
                          ("conferenceSolutionKey", VDict [("type", VStr "hangoutsMeet")])])])]).

(** The [try] block of [create_meet_event]. *)
Definition create_meet_event_body (connection_id provider_config_key summary start_datetime
    end_datetime description : string) (attendees : option (list string))
    (timezone calendar_id : string) : M value :=
  svc <- GoogleCalendarAuth.authenticate_google_calendar w connection_id provider_config_key ;;
  (if negb (truthy_str summary) then raise (ValueError "Event summary (title) is required")
   else ret tt) ;;;
  created_event <- invoke (EventsInsert calendar_id
                             (meet_event_body summary start_datetime end_datetime description
                                attendees timezone) 1 "all")
                          (execute_reply w) ;;
  ret created_event.

(** [create_meet_event]: the created event, or [None] on any exception. *)
Definition create_meet_event (connection_id provider_config_key summary start_datetime
    end_datetime description : string) (attendees : option (list string))
    (timezone calendar_id : string) : M value :=
  try_except
    (create_meet_event_body connection_id provider_config_key summary start_datetime
       end_datetime description attendees timezone calendar_id)
    (fun error =>
       match error with
       | HttpError _ _ => ret VNone
       | PyError _ _ => ret VNone
       end).

(** The [try] block of [cancel_calendar_event]. *)
Definition cancel_calendar_event_body (connection_id provider_config_key calendar_id
    event_id : string) : M value :=
  svc <- GoogleCalendarAuth.authenticate_google_calendar w connection_id provider_config_key ;;
  invoke (EventsDelete calendar_id event_id "all") (execute_reply w) ;;;
  ret (VDict [("success", VBool true);
              ("message", VStr ("Event " +:+ event_id +:+ " successfully cancelled"));
              ("event_id", VStr event_id);
              ("calendar_id", VStr calendar_id)]).

Definition cancel_calendar_event (connection_id provider_config_key calendar_id
    event_id : string) : M value :=
  try_except
    (cancel_calendar_event_body connection_id provider_config_key calendar_id event_id)
    (fun error =>
       match error with
       | HttpError resp _ =>
           let http_error :=
             VDict [("success", VBool false);
                    ("message", VStr ("HTTP error occurred: " +:+ str_exn error));
                    ("error", VStr "http_error");
                    ("event_id", VStr event_id)] in
           match resp with
           | Some status =>
               if status =? 404 then
                 ret (VDict [("success", VBool false);
                             ("message", VStr ("Event not found: " +:+ event_id));
                             ("error", VStr "event_not_found");
                             ("event_id", VStr event_id)])
               else if status =? 403 then
                 ret (VDict [("success", VBool false);
                             ("message", VStr "Insufficient permissions to cancel this event");
                             ("error", VStr "permission_denied");
                             ("event_id", VStr event_id)])
               else ret http_error
           | None => ret http_error
           end
       | PyError _ _ =>
           ret (VDict [("success", VBool false);
                       ("message", VStr ("Unexpected error occurred: " +:+ str_exn error));
                       ("error", VStr "unexpected_error");
                       ("event_id", VStr event_id)])
       end).

End WithWorld.
End GoogleCalendarTools.

(** ** Module start-up *)

(** The two module-level settings, read once when the module is loaded. *)
Record config : Type := mk_config {
  NANGO_CONNECTION_ID : string;
  NANGO_INTEGRATION_ID : string
}.

(** Lines 35 to 41: loading the module reads the two identifiers and raises
    when one of them is unset or empty.  Past the two checks both are
    non-empty strings. *)
Definition module_startup (w : world) : outcome config :=
  let connection_id := environ w !! "NANGO_CONNECTION_ID" in
  let integration_id := environ w !! "NANGO_INTEGRATION_ID" in
  if negb (truthy_opt connection_id) then
    Raise (ValueError "NANGO_CONNECTION_ID environment variable is required")
  else if negb (truthy_opt integration_id) then
    Raise (ValueError "NANGO_INTEGRATION_ID environment variable is required")
  else
    Return {| NANGO_CONNECTION_ID := default "" connection_id;
              NANGO_INTEGRATION_ID := default "" integration_id |}.

(** ** The tools

    Each tool returns [json.dumps(result, indent=2)]; the embedding returns
    [result], the dictionary that is serialised.  Every [value] is
    serialisable, so [json.dumps] itself does not raise. *)

Section Tools.

Variable w : world.
Variable cfg : config.

Definition failure_envelope (e : exn) (message : string) : value :=
  VDict [("success", VBool false); ("error", VStr (str_exn e)); ("message", VStr message)].

Definition get_all_calendars (fuel : nat) : M value :=
  try_except
    (calendars <- GoogleCalendarTools.get_all_calendars w fuel
                    (NANGO_CONNECTION_ID cfg) (NANGO_INTEGRATION_ID cfg) ;;
     ret (VDict [("success", VBool true);
                 ("calendars", VList calendars);
                 ("total_calendars", VInt (Z.of_nat (length calendars)));
                 ("message", VStr ("Retrieved " +:+ str_int (Z.of_nat (length calendars)) +:+
                                   " calendars successfully"))]))
    (fun e => ret (failure_envelope e "Failed to retrieve calendars")).

Definition get_calendar_events (calendar_id : string) (time_min time_max : option string)
    (max_results : Z) : M value :=
  try_except
    (result <- GoogleCalendarTools.get_calendar_events w
                 (NANGO_CONNECTION_ID cfg) (NANGO_INTEGRATION_ID cfg)
                 calendar_id time_min time_max max_results ;;
     ret result)
    (fun e => ret (failure_envelope e "Failed to retrieve calendar events")).

Definition create_meet_event (summary start_datetime end_datetime description : string)
    (attendees : option (list string)) (timezone calendar_id : string) : M value :=
  try_except
    (result <- GoogleCalendarTools.create_meet_event w
                 (NANGO_CONNECTION_ID cfg) (NANGO_INTEGRATION_ID cfg)
                 summary start_datetime end_datetime description attendees timezone
                 calendar_id ;;
     if truthy result then
       ret (VDict [("success", VBool true);
                   ("event", result);
                   ("message", VStr "Event created successfully")])
     else
       ret (VDict [("success", VBool false);
                   ("message", VStr "Failed to create event")]))
    (fun e => ret (failure_envelope e "Failed to create calendar event")).

Definition cancel_calendar_event (calendar_id event_id : string) : M value :=
  try_except
    (result <- GoogleCalendarTools.cancel_calendar_event w
                 (NANGO_CONNECTION_ID cfg) (NANGO_INTEGRATION_ID cfg) calendar_id event_id ;;
     ret result)
    (fun e => ret (failure_envelope e "Failed to cancel calendar event")).

(** The window [get_today_events] computes from [today = datetime.now()]. *)
Definition today_time_min (today : datetime) : string :=
  isoformat (replace_time today 0 0 0 0) +:+ "Z".

Definition today_time_max (today : datetime) : string :=
  isoformat (replace_time today 23 59 59 999999) +:+ "Z".

Definition get_today_events (calendar_id : string) : M value :=
  try_except
    (let today := now w in
     let time_min := today_time_min today in
     let time_max := today_time_max today in
     result <- GoogleCalendarTools.get_calendar_events w
                 (NANGO_CONNECTION_ID cfg) (NANGO_INTEGRATION_ID cfg)
                 calendar_id (Some time_min) (Some time_max) 50 ;;
     ret result)
    (fun e => ret (failure_envelope e "Failed to retrieve today's events")).

Definition get_upcoming_events (days_ahead : Z) (calendar_id : string) : M value :=
  try_except
    (let now_ := now w in
     future <- lift (add_days now_ days_ahead) ;;
     let time_min := isoformat now_ +:+ "Z" in
     let time_max := isoformat future +:+ "Z" in
     result <- GoogleCalendarTools.get_calendar_events w
                 (NANGO_CONNECTION_ID cfg) (NANGO_INTEGRATION_ID cfg)
                 calendar_id (Some time_min) (Some time_max) 50 ;;
     ret result)
    (fun e => ret (failure_envelope e "Failed to retrieve upcoming events")).

End Tools.

(** A request to one of the six registered tools, with its arguments. *)
Inductive tool_call : Type :=
| GetAllCalendars
| GetCalendarEvents (calendar_id : string) (time_min time_max : option string)
    (max_results : Z)
| CreateMeetEvent (summary start_datetime end_datetime description : string)
    (attendees : option (list string)) (timezone calendar_id : string)
| CancelCalendarEvent (calendar_id event_id : string)
| GetTodayEvents (calendar_id : string)
| GetUpcomingEvents (days_ahead : Z) (calendar_id : string).

(** The registry's dispatch of a request to the tool it names. *)
Definition call_tool (w : world) (cfg : config) (fuel : nat) (t : tool_call) : M value :=
  match t with
  | GetAllCalendars => get_all_calendars w cfg fuel
  | GetCalendarEvents calendar_id time_min time_max max_results =>
      get_calendar_events w cfg calendar_id time_min time_max max_results
  | CreateMeetEvent summary start_datetime end_datetime description attendees timezone
      calendar_id =>
      create_meet_event w cfg summary start_datetime end_datetime description attendees
        timezone calendar_id
  | CancelCalendarEvent calendar_id event_id => cancel_calendar_event w cfg calendar_id event_id
  | GetTodayEvents calendar_id => get_today_events w cfg calendar_id
  | GetUpcomingEvents days_ahead calendar_id => get_upcoming_events w cfg days_ahead calendar_id
  end.

(** The process from its start to the answer of one request: the module is
    loaded, and only if that succeeds is the request served. *)
Definition run (w : world) (fuel : nat) (t : tool_call) : outcome value * list call :=
  match module_startup w with
  | Return cfg => call_tool w cfg fuel t []
  | Raise e => (Raise e, [])
  | OutOfFuel => (OutOfFuel, [])
  end.

(** ** Reading envelopes *)

(** The field [k] of a dictionary, if it has one. *)
Definition field (k : string) (v : value) : option value :=
  match v with
  | VDict entries => assoc k entries
  | _ => None
  end.

Definition has_field (k : string) (v : value) : bool :=
  match field k v with
  | Some _ => true
  | None => false
  end.

(** * Vocabulary of the properties

    The predicates, envelopes and sample worlds the statements below are
    written with. *)

(** A computation that never runs out of fuel and whose trace only grows by
    calls satisfying [P]. *)
Definition extends_by {A : Type} (P : call -> Prop) (m : M A) : Prop :=
  forall tr, exists new, snd (m tr) = tr ++ new /\ Forall P new /\ fst (m tr) <> OutOfFuel.

Definition not_calendar (c : call) : Prop := is_calendar_call c = false.

(** What [authenticate_google_calendar] does with the vault's answer. *)
Definition service_of_response (w : world) (nango_response : value)
  : M GoogleCalendarAuth.service :=
  credentials_data <- lift (py_get nango_response "credentials" (VDict [])) ;;
  creds <- GoogleCalendarAuth.make_credentials credentials_data ;;
  creds' <- GoogleCalendarAuth.refresh_if_needed w creds ;;
  ret (GoogleCalendarAuth.build creds').

(** The vault is configured when both of its settings are set and non-empty. *)
Definition vault_configured (w : world) : bool :=
  truthy_opt (environ w !! "NANGO_NANGO_BASE_URL") &&
  truthy_opt (environ w !! "NANGO_NANGO_SECRET_KEY").

(** The one vault request the program makes. *)
Definition vault_request (w : world) (connection_id provider_config_key : string) : call :=
  VaultGet (fmt_opt (environ w !! "NANGO_NANGO_BASE_URL") +:+ "/connection/" +:+ connection_id)
    [("Authorization", "Bearer " +:+ fmt_opt (environ w !! "NANGO_NANGO_SECRET_KEY"))]
    [("provider_config_key", provider_config_key); ("refresh_token", "true")].

(** The record [format_event] builds from the entries of a provider event. *)
Definition format_record (calendar_id : string) (entries : list (string * value)) : value :=
  VDict [("id", default VNone (assoc "id" entries));
         ("summary", default (VStr "No Title") (assoc "summary" entries));
         ("description", default (VStr "") (assoc "description" entries));
         ("start", default (VDict []) (assoc "start" entries));
         ("end", default (VDict []) (assoc "end" entries));
         ("location", default (VStr "") (assoc "location" entries));
         ("status", default (VStr "") (assoc "status" entries));
         ("created", default VNone (assoc "created" entries));
         ("updated", default VNone (assoc "updated" entries));
         ("html_link", default VNone (assoc "htmlLink" entries));
         ("calendar_id", VStr calendar_id)].

(** [formatted] is the record of the provider item [event]. *)
Definition formats (calendar_id : string) (event formatted : value) : Prop :=
  exists entries, event = VDict entries /\ formatted = format_record calendar_id entries.

(** The success envelope of [get_calendar_events]. *)
Definition events_success (calendar_id : string) (formatted_events : list value) : value :=
  VDict [("success", VBool true);
         ("events", VList formatted_events);
         ("total_events", VInt (Z.of_nat (length formatted_events)));
         ("calendar_id", VStr calendar_id);
         ("message", VStr ("Retrieved " +:+ str_int (Z.of_nat (length formatted_events)) +:+
                           " events successfully"))].

(** The envelope its handlers build for an exception. *)
Definition events_failure (calendar_id : string) (error : exn) : value :=
  match error with
  | HttpError resp _ =>
      VDict [("success", VBool false);
             ("message", VStr ("HTTP error occurred: " +:+ str_exn error));
             ("error", VStr ("http_error_" +:+
                             match resp with
                             | Some status => str_int status
                             | None => "unknown"
                             end));
             ("calendar_id", VStr calendar_id)]
  | PyError _ _ =>
      VDict [("success", VBool false);
             ("message", VStr ("Unexpected error occurred: " +:+ str_exn error));
             ("error", VStr "unexpected_error");
             ("calendar_id", VStr calendar_id)]
  end.

Definition sample_environ : gmap string string :=
  list_to_map [("NANGO_CONNECTION_ID", "conn-1");
               ("NANGO_INTEGRATION_ID", "google-calendar");
               ("NANGO_NANGO_BASE_URL", "https://vault.example");
               ("NANGO_NANGO_SECRET_KEY", "sk-1")].

Definition sample_config : config :=
  {| NANGO_CONNECTION_ID := "conn-1"; NANGO_INTEGRATION_ID := "google-calendar" |}.

Definition sample_vault_response : http_response :=
  {| status_code := 200;
     reason := "OK";
     response_url := "https://vault.example/connection/conn-1";
     json_body := Some (VDict [("credentials",
                                VDict [("access_token", VStr "ya29.token");
                                       ("refresh_token", VStr "1//refresh");
                                       ("client_id", VStr "client");
                                       ("client_secret", VStr "secret")])]) |}.

Definition sample_now : datetime := mk_datetime 2024 5 3 9 7 1 123.

(** A world whose vault answers with a usable credential and whose calendar
    provider is [provider]. *)
Definition sample_world (provider : list call -> call -> reply value) : world :=
  {| environ := sample_environ;
     now := sample_now;
     utcnow := 1714727221;
     vault_reply := fun _ _ => Replied sample_vault_response;
     refresh_reply := fun _ _ => Failed (PyError "RefreshError" "invalid_grant");
     execute_reply := provider |}.

(** A provider that fails every request with the given status. *)
Definition failing_provider (status : Z) : list call -> call -> reply value :=
  fun _ _ => Failed (HttpError (Some status) ("<HttpError " +:+ str_int status +:+ ">")).

(** A provider whose event list has a titled and an untitled event. *)
Definition untitled_provider : list call -> call -> reply value :=
  fun _ _ =>
    Replied (VDict [("items", VList [VDict [("id", VStr "e1"); ("summary", VStr "Review")];
                                     VDict [("id", VStr "e2")]])]).

(** The response answers the list request within the cap the request
    carries: it holds a list of items, no longer than the request's
    [maxResults]. *)
Definition honours_cap (request : call) (response : value) : Prop :=
  exists items,
    py_get response "items" (VList []) = Return (VList items) /\
    forall params cap,
      request = EventsList params ->
      assoc "maxResults" params = Some (VInt cap) ->
      Z.of_nat (length items) <= cap.

Definition stocked_events : list value :=
  [VDict [("id", VStr "e1"); ("summary", VStr "Review")]; VDict [("id", VStr "e2")]].

(** A provider that answers a list request with the first [maxResults]
    events of [stock]. *)
Definition capped_provider (stock : list value) : list call -> call -> reply value :=
  fun _ c =>
    match c with
    | EventsList params =>
        match assoc "maxResults" params with
        | Some (VInt cap) => Replied (VDict [("items", VList (take (Z.to_nat cap) stock))])
        | _ => Replied (VDict [("items", VList stock)])
        end
    | _ => Failed (HttpError (Some 404) "<HttpError 404>")
    end.

(** A provider that answers every request with the same value. *)
Definition constant_provider (response : value) : list call -> call -> reply value :=
  fun _ _ => Replied response.

Definition sample_service : GoogleCalendarAuth.service :=
  GoogleCalendarAuth.build
    {| token := VStr "ya29.token";
       refresh_token := VStr "1//refresh";
       token_uri := "https://oauth2.googleapis.com/token";
       client_id := VStr "client";
       client_secret := VStr "secret";
       scopes := SCOPES;
       expiry := None |}.

Definition sample_vault_request : call :=
  VaultGet "https://vault.example/connection/conn-1"
    [("Authorization", "Bearer sk-1")]
    [("provider_config_key", "google-calendar"); ("refresh_token", "true")].

(** The [error] kind its handlers give an exception. *)
Definition cancel_error_kind (error : exn) : string :=
  match error with
  | HttpError (Some status) _ =>
      if status =? 404 then "event_not_found"
      else if status =? 403 then "permission_denied"
      else "http_error"
  | HttpError None _ => "http_error"
  | PyError _ _ => "unexpected_error"
  end.

Definition cancel_success (calendar_id event_id : string) : value :=
  VDict [("success", VBool true);
         ("message", VStr ("Event " +:+ event_id +:+ " successfully cancelled"));
         ("event_id", VStr event_id);
         ("calendar_id", VStr calendar_id)].

(** A failure envelope of [cancel_calendar_event]: four fields, no
    [calendar_id]. *)
Definition cancel_failure (event_id message kind : string) : value :=
  VDict [("success", VBool false); ("message", VStr message);
         ("error", VStr kind); ("event_id", VStr event_id)].

(** A provider response read as a page: its items and its continuation
    token ([None] when it has none). *)
Definition is_page (response : value) (items : list value) (next : value) : Prop :=
  py_get response "items" (VList []) = Return (VList items) /\
  py_get response "nextPageToken" VNone = Return next.

Definition page_request (page_token : value) : call :=
  CalendarListList (GoogleCalendarTools.calendar_request_params page_token).

(** The provider, asked from the trace [tr] with [page_token], serves the
    pages [pages] one after the other: each page but the last carries a
    continuation token (a [nextPageToken] that is true, so neither absent
    nor empty), under which the next page is served, and the last page
    carries none. *)
Fixpoint serves (w : world) (tr : list call) (page_token : value)
    (pages : list (list value * value)) : Prop :=
  match pages with
  | [] => False
  | (items, next) :: rest =>
      (exists response,
         execute_reply w tr (page_request page_token) = Replied response /\
         is_page response items next) /\
      match rest with
      | [] => truthy next = false
      | _ :: _ => truthy next = true /\ serves w (tr ++ [page_request page_token]) next rest
      end
  end.

(** The requests that fetch [pages]: the first under [page_token], each
    later one under the token of the page before it. *)
Fixpoint page_requests (page_token : value) (pages : list (list value * value)) : list call :=
  match pages with
  | [] => []
  | (_, next) :: rest => page_request page_token :: page_requests next rest
  end.

(** Three provider pages: two with items and a token, a last one without
    either. *)
Definition three_pages : list (list value * value) :=
  [([VDict [("id", VStr "work")]], VStr "token-1");
   ([VDict [("id", VStr "home")]; VDict [("id", VStr "holidays")]], VStr "token-2");
   ([], VNone)].

(** A provider that serves [three_pages] by continuation token. *)
Definition paged_provider : list call -> call -> reply value :=
  fun _ c =>
    match c with
    | CalendarListList request_params =>
        match assoc "pageToken" request_params with
        | None =>
            Replied (VDict [("items", VList [VDict [("id", VStr "work")]]);
                            ("nextPageToken", VStr "token-1")])
        | Some (VStr t) =>
            if String.eqb t "token-1" then
              Replied (VDict [("nextPageToken", VStr "token-2");
                              ("items", VList [VDict [("id", VStr "home")];
                                               VDict [("id", VStr "holidays")]])])
            else Replied (VDict [("items", VList [])])
        | Some _ => Failed (HttpError (Some 400) "<HttpError 400>")
        end
    | _ => Failed (HttpError (Some 404) "<HttpError 404>")
    end.

Definition refreshed_credentials : Credentials :=
  {| token := VStr "ya29.fresh";
     refresh_token := VStr "1//refresh";
     token_uri := "https://oauth2.googleapis.com/token";
     client_id := VStr "client";
     client_secret := VStr "secret";
     scopes := SCOPES;
     expiry := Some 1714730821 |}.

(** A world at 2024-05-03 09:07:01 UTC whose vault hands over an access
    token that expired at 08:00:00, with the refresh token [refresh_tok]
    ([None] for none).  Its token endpoint would answer a refresh with
    [refreshed_credentials]. *)
Definition expired_token_world (refresh_tok : value) : world :=
  {| environ := sample_environ;
     now := sample_now;
     utcnow := 1714727221;
     vault_reply := fun _ _ =>
       Replied {| status_code := 200;
                  reason := "OK";
                  response_url := "https://vault.example/connection/conn-1";
                  json_body :=
                    Some (VDict [("credentials",
                                  VDict [("access_token", VStr "ya29.expired");
                                         ("expires_at", VStr "2024-05-03T08:00:00.000Z");
                                         ("refresh_token", refresh_tok);
                                         ("client_id", VStr "client");
                                         ("client_secret", VStr "secret")])]) |};
     refresh_reply := fun _ _ => Replied refreshed_credentials;
     execute_reply := constant_provider (VStr "") |}.

(** The credential the program builds in that world. *)
Definition expired_token_credentials (refresh_tok : value) : Credentials :=
  {| token := VStr "ya29.expired";
     refresh_token := refresh_tok;
     token_uri := "https://oauth2.googleapis.com/token";
     client_id := VStr "client";
     client_secret := VStr "secret";
     scopes := SCOPES;
     expiry := None |}.

(** The date part of [isoformat]: [YYYY-MM-DD]. *)
Definition isoformat_date (d : datetime) : string :=
  zpad 4 (year d) +:+ "-" +:+ zpad 2 (month d) +:+ "-" +:+ zpad 2 (day d).

Definition is_create_meet_event (t : tool_call) : bool :=
  match t with
  | CreateMeetEvent _ _ _ _ _ _ _ => true
  | _ => false
  end.

(** What a tool runs of the Broker and the Client before any handler of the
    Client or of the tool: the [try] block of the Client operation (for
    [listCalendars], the operation itself, which only re-raises), after the
    tool's own computation of its arguments. *)
Definition client_block (w : world) (cfg : config) (fuel : nat) (t : tool_call) : M value :=
  match t with
  | GetAllCalendars =>
      calendars <- GoogleCalendarTools.get_all_calendars w fuel
                     (NANGO_CONNECTION_ID cfg) (NANGO_INTEGRATION_ID cfg) ;;
      ret (VList calendars)
  | GetCalendarEvents calendar_id time_min time_max max_results =>
      GoogleCalendarTools.get_calendar_events_body w
        (NANGO_CONNECTION_ID cfg) (NANGO_INTEGRATION_ID cfg)
        calendar_id time_min time_max max_results
  | CreateMeetEvent summary start_datetime end_datetime description attendees timezone
      calendar_id =>
      GoogleCalendarTools.create_meet_event_body w
        (NANGO_CONNECTION_ID cfg) (NANGO_INTEGRATION_ID cfg)
        summary start_datetime end_datetime description attendees timezone calendar_id
  | CancelCalendarEvent calendar_id event_id =>
      GoogleCalendarTools.cancel_calendar_event_body w
        (NANGO_CONNECTION_ID cfg) (NANGO_INTEGRATION_ID cfg) calendar_id event_id
  | GetTodayEvents calendar_id =>
      GoogleCalendarTools.get_calendar_events_body w
        (NANGO_CONNECTION_ID cfg) (NANGO_INTEGRATION_ID cfg)
        calendar_id (Some (today_time_min (now w))) (Some (today_time_max (now w))) 50
  | GetUpcomingEvents days_ahead calendar_id =>
      future <- lift (add_days (now w) days_ahead) ;;
      GoogleCalendarTools.get_calendar_events_body w
        (NANGO_CONNECTION_ID cfg) (NANGO_INTEGRATION_ID cfg)
        calendar_id (Some (isoformat (now w) +:+ "Z")) (Some (isoformat future +:+ "Z")) 50
  end.

(** What the tool boundary promises of the envelope [envelope] a tool
    returned with trace [tr'], started from [tr]: [success] is a boolean,
    [message] is present, a failure carries [error] unless the tool is
    [createMeetingEvent], and a fault of the Broker or the Client has become
    a failure envelope at the trace where it was raised. *)
Definition boundary_kept (w : world) (cfg : config) (fuel : nat) (t : tool_call)
    (tr : list call) (envelope : value) (tr' : list call) : Prop :=
  (exists b, field "success" envelope = Some (VBool b)) /\
  has_field "message" envelope = true /\
  (field "success" envelope = Some (VBool false) ->
   has_field "error" envelope = true \/ is_create_meet_event t = true) /\
  (forall e tr'',
     client_block w cfg fuel t tr = (Raise e, tr'') ->
     tr' = tr'' /\
     field "success" envelope = Some (VBool false) /\
     has_field "error" envelope = negb (is_create_meet_event t)).

(** The module's two identifiers are set and non-empty. *)
Definition identifiers_configured (w : world) : bool :=
  truthy_opt (environ w !! "NANGO_CONNECTION_ID") &&
  truthy_opt (environ w !! "NANGO_INTEGRATION_ID").

(** A world with the two identifiers set and neither of the vault's
    settings. *)
Definition vaultless_world : world :=
  {| environ := list_to_map [("NANGO_CONNECTION_ID", "conn-1");
                             ("NANGO_INTEGRATION_ID", "google-calendar")];
     now := sample_now;
     utcnow := 1714727221;
     vault_reply := fun _ _ => Replied sample_vault_response;
     refresh_reply := fun _ _ => Failed (PyError "RefreshError" "invalid_grant");
     execute_reply := constant_provider (VDict []) |}.

(** A world with the vault's settings and no connection identifier. *)
Definition anonymous_world : world :=
  {| environ := list_to_map [("NANGO_INTEGRATION_ID", "google-calendar");
                             ("NANGO_NANGO_BASE_URL", "https://vault.example");
                             ("NANGO_NANGO_SECRET_KEY", "sk-1")];
     now := sample_now;
     utcnow := 1714727221;
     vault_reply := fun _ _ => Replied sample_vault_response;
     refresh_reply := fun _ _ => Failed (PyError "RefreshError" "invalid_grant");
     execute_reply := constant_provider (VDict []) |}.

(** * Properties *)

(** ** Computations: basic facts *)

Lemma bind_return {A B : Type} (m : M A) (k : A -> M B) (tr tr' : list call) (a : A) :
  m tr = (Return a, tr') -> bind m k tr = k a tr'.
Proof. intros H. unfold bind. rewrite H. reflexivity. Qed.

Lemma bind_raise {A B : Type} (m : M A) (k : A -> M B) (tr tr' : list call) (e : exn) :
  m tr = (Raise e, tr') -> bind m k tr = (Raise e, tr').
Proof. intros H. unfold bind. rewrite H. reflexivity. Qed.

Lemma bind_out_of_fuel {A B : Type} (m : M A) (k : A -> M B) (tr tr' : list call) :
  m tr = (OutOfFuel, tr') -> bind m k tr = (OutOfFuel, tr').
Proof. intros H. unfold bind. rewrite H. reflexivity. Qed.

Lemma try_except_return {A : Type} (body : M A) (h : exn -> M A) (tr tr' : list call) (a : A) :
  body tr = (Return a, tr') -> try_except body h tr = (Return a, tr').
Proof. intros H. unfold try_except. rewrite H. reflexivity. Qed.

Lemma try_except_raise {A : Type} (body : M A) (h : exn -> M A) (tr tr' : list call) (e : exn) :
  body tr = (Raise e, tr') -> try_except body h tr = h e tr'.
Proof. intros H. unfold try_except. rewrite H. reflexivity. Qed.

Lemma try_except_out_of_fuel {A : Type} (body : M A) (h : exn -> M A) (tr tr' : list call) :
  body tr = (OutOfFuel, tr') -> try_except body h tr = (OutOfFuel, tr').
Proof. intros H. unfold try_except. rewrite H. reflexivity. Qed.

(** A handler that only re-raises leaves the computation as it is. *)
Lemma try_except_reraise {A : Type} (body : M A) (tr : list call) :
  try_except body (fun error => raise error) tr = body tr.
Proof.
  unfold try_except, raise. destruct (body tr) as [[a | e |] tr']; reflexivity.
Qed.

Lemma extends_by_ret {A : Type} (P : call -> Prop) (a : A) : extends_by P (ret a).
Proof. intros tr. exists []. simpl. rewrite app_nil_r. repeat split; [constructor | discriminate]. Qed.

Lemma extends_by_raise {A : Type} (P : call -> Prop) (e : exn) : extends_by P (@raise A e).
Proof. intros tr. exists []. simpl. rewrite app_nil_r. repeat split; [constructor | discriminate]. Qed.

Lemma extends_by_lift {A : Type} (P : call -> Prop) (o : outcome A) :
  o <> OutOfFuel -> extends_by P (lift o).
Proof. intros H tr. exists []. simpl. rewrite app_nil_r. repeat split; [constructor | exact H]. Qed.

Lemma extends_by_invoke {A : Type} (P : call -> Prop) (c : call)
    (answer : list call -> call -> reply A) :
  P c -> extends_by P (invoke c answer).
Proof.
  intros H tr. exists [c]. simpl. repeat split.
  - constructor; [exact H | constructor].
  - destruct (answer tr c); discriminate.
Qed.

Lemma extends_by_bind {A B : Type} (P : call -> Prop) (m : M A) (k : A -> M B) :
  extends_by P m -> (forall a, extends_by P (k a)) -> extends_by P (bind m k).
Proof.
  intros Hm Hk tr. destruct (Hm tr) as (new & Htr & HP & Hfuel).
  unfold bind. destruct (m tr) as [[a | e |] tr1] eqn:E; simpl in *; subst tr1.
  - destruct (Hk a (tr ++ new)) as (new' & Htr' & HP' & Hfuel').
    exists (new ++ new'). rewrite Htr', app_assoc. repeat split; [| exact Hfuel'].
    apply Forall_app; split; assumption.
  - exists new. repeat split; [exact HP | discriminate].
  - exfalso. apply Hfuel. reflexivity.
Qed.

Lemma extends_by_try_except {A : Type} (P : call -> Prop) (body : M A) (h : exn -> M A) :
  extends_by P body -> (forall e, extends_by P (h e)) -> extends_by P (try_except body h).
Proof.
  intros Hb Hh tr. destruct (Hb tr) as (new & Htr & HP & Hfuel).
  unfold try_except. destruct (body tr) as [[a | e |] tr1] eqn:E; simpl in *; subst tr1.
  - exists new. repeat split; [exact HP | discriminate].
  - destruct (Hh e (tr ++ new)) as (new' & Htr' & HP' & Hfuel').
    exists (new ++ new'). rewrite Htr', app_assoc. repeat split; [| exact Hfuel'].
    apply Forall_app; split; assumption.
  - exfalso. apply Hfuel. reflexivity.
Qed.

Lemma py_get_not_out_of_fuel (obj : value) (k : string) (dflt : value) :
  py_get obj k dflt <> OutOfFuel.
Proof. destruct obj; discriminate. Qed.

Lemma py_iter_not_out_of_fuel (obj : value) : py_iter obj <> OutOfFuel.
Proof. destruct obj; discriminate. Qed.

(** ** Credential resolution reaches only the vault and the token endpoint *)

Lemma authenticate_unfold (w : world) (connection_id provider_config_key : string)
    (tr : list call) :
  GoogleCalendarAuth.authenticate_google_calendar w connection_id provider_config_key tr =
  bind (GoogleCalendarAuth.get_connection_credentials w connection_id provider_config_key)
       (service_of_response w) tr.
Proof.
  unfold GoogleCalendarAuth.authenticate_google_calendar.
  rewrite try_except_reraise. reflexivity.
Qed.

Lemma decode_extends (response : http_response) :
  extends_by not_calendar
    (bind (GoogleCalendarAuth.raise_for_status response)
          (fun _ => GoogleCalendarAuth.response_json response)).
Proof.
  apply extends_by_bind.
  - unfold GoogleCalendarAuth.raise_for_status.
    repeat (destruct (_ && _)); first [apply extends_by_raise | apply extends_by_ret].
  - intros _. unfold GoogleCalendarAuth.response_json.
    destruct (json_body response); [apply extends_by_ret | apply extends_by_raise].
Qed.

Lemma service_of_response_extends (w : world) (nango_response : value) :
  extends_by not_calendar (service_of_response w nango_response).
Proof.
  unfold service_of_response.
  apply extends_by_bind; [apply extends_by_lift, py_get_not_out_of_fuel |].
  intros credentials_data. apply extends_by_bind.
  - unfold GoogleCalendarAuth.make_credentials.
    repeat (apply extends_by_bind; [apply extends_by_lift, py_get_not_out_of_fuel | intros ?]).
    apply extends_by_ret.
  - intros creds. apply extends_by_bind; [| intros ?; apply extends_by_ret].
    unfold GoogleCalendarAuth.refresh_if_needed.
    destruct (negb _); [| apply extends_by_ret].
    destruct (_ && _); [apply extends_by_invoke; reflexivity | apply extends_by_raise].
Qed.

Lemma get_connection_credentials_extends (w : world)
    (connection_id provider_config_key : string) :
  extends_by not_calendar
    (GoogleCalendarAuth.get_connection_credentials w connection_id provider_config_key).
Proof.
  unfold GoogleCalendarAuth.get_connection_credentials.
  destruct (_ || _); [apply extends_by_raise |].
  apply extends_by_bind; [apply extends_by_invoke; reflexivity |].
  intros response. apply decode_extends.
Qed.

Lemma authenticate_extends (w : world) (connection_id provider_config_key : string) :
  extends_by not_calendar
    (GoogleCalendarAuth.authenticate_google_calendar w connection_id provider_config_key).
Proof.
  intros tr. rewrite authenticate_unfold. revert tr.
  apply extends_by_bind.
  - apply get_connection_credentials_extends.
  - apply service_of_response_extends.
Qed.

(** Resolution ends by returning a service or by raising. *)
Lemma authenticate_cases (w : world) (connection_id provider_config_key : string)
    (tr : list call) :
  (exists svc tr1,
     GoogleCalendarAuth.authenticate_google_calendar w connection_id provider_config_key tr =
     (Return svc, tr1)) \/
  (exists e tr1,
     GoogleCalendarAuth.authenticate_google_calendar w connection_id provider_config_key tr =
     (Raise e, tr1)).
Proof.
  destruct (authenticate_extends w connection_id provider_config_key tr) as (new & _ & _ & Hf).
  destruct (GoogleCalendarAuth.authenticate_google_calendar _ _ _ _) as [[svc | e |] tr1].
  - left. eauto.
  - right. eauto.
  - exfalso. apply Hf. reflexivity.
Qed.

(** Without the vault's settings, resolution raises before any call. *)
Lemma authenticate_unconfigured (w : world) (connection_id provider_config_key : string)
    (tr : list call) :
  vault_configured w = false ->
  GoogleCalendarAuth.authenticate_google_calendar w connection_id provider_config_key tr =
  (Raise (ValueError "NANGO_NANGO_BASE_URL and NANGO_NANGO_SECRET_KEY must be set"), tr).
Proof.
  unfold vault_configured. intros H.
  rewrite authenticate_unfold.
  apply bind_raise.
  unfold GoogleCalendarAuth.get_connection_credentials.
  replace (negb _ || negb _) with true; [reflexivity |].
  destruct (truthy_opt _); simpl in *; [rewrite H |]; reflexivity.
Qed.

(** With the vault's settings, the first thing resolution does is ask the
    vault; whatever follows is not a calendar call. *)
Lemma authenticate_configured (w : world) (connection_id provider_config_key : string)
    (tr : list call) :
  vault_configured w = true ->
  exists rest,
    snd (GoogleCalendarAuth.authenticate_google_calendar w connection_id provider_config_key tr) =
    tr ++ vault_request w connection_id provider_config_key :: rest /\
    Forall not_calendar rest.
Proof.
  unfold vault_configured. intros H. apply andb_prop in H as [Hb Hs].
  rewrite authenticate_unfold.
  unfold GoogleCalendarAuth.get_connection_credentials. rewrite Hb, Hs. simpl negb. simpl orb.
  cbv iota.
  fold (vault_request w connection_id provider_config_key).
  set (c := vault_request w connection_id provider_config_key).
  unfold bind at 1. unfold bind at 1. unfold invoke.
  destruct (outcome_of_reply _) as [response | e |] eqn:E.
  - destruct (extends_by_bind _ _ _ (decode_extends response) (service_of_response_extends w)
                (tr ++ [c])) as (new & Htr & HP & _).
    unfold bind in Htr at 1.
    exists new. split; [| exact HP].
    rewrite Htr. rewrite <- app_assoc. reflexivity.
  - exists []. split; [| constructor]. reflexivity.
  - exists []. split; [| constructor]. reflexivity.
Qed.

(** ** listEvents: [GoogleCalendarTools.get_calendar_events] *)

Lemma format_event_dict (calendar_id : string) (entries : list (string * value))
    (tr : list call) :
  GoogleCalendarTools.format_event calendar_id (VDict entries) tr =
  (Return (format_record calendar_id entries), tr).
Proof. reflexivity. Qed.

Lemma format_event_cases (calendar_id : string) (event : value) (tr : list call) :
  (exists f, GoogleCalendarTools.format_event calendar_id event tr = (Return f, tr) /\
             formats calendar_id event f) \/
  (exists e, GoogleCalendarTools.format_event calendar_id event tr = (Raise e, tr)).
Proof.
  destruct event; try (right; eexists; reflexivity).
  left. eexists. split; [apply format_event_dict |]. eexists. split; reflexivity.
Qed.

Lemma format_events_cases (calendar_id : string) (events : list value) :
  forall (acc : list value) (tr : list call),
    (exists fs, GoogleCalendarTools.format_events calendar_id events acc tr =
                (Return (acc ++ fs), tr) /\
                Forall2 (formats calendar_id) events fs) \/
    (exists e, GoogleCalendarTools.format_events calendar_id events acc tr = (Raise e, tr)).
Proof.
  induction events as [| event rest IH]; intros acc tr; simpl.
  - left. exists []. rewrite app_nil_r. split; [reflexivity | constructor].
  - destruct (format_event_cases calendar_id event tr) as [(f & Hf & Hfmt) | (e & He)].
    + rewrite (bind_return _ _ _ _ _ Hf).
      destruct (IH (acc ++ [f]) tr) as [(fs & Hfs & Hall) | (e & He)].
      * left. exists (f :: fs). rewrite Hfs, <- app_assoc. split; [reflexivity |].
        constructor; assumption.
      * right. exists e. exact He.
    + right. exists e. apply bind_raise. exact He.
Qed.

Section ListEvents.

Variable w : world.
Variables connection_id provider_config_key calendar_id : string.
Variables time_min time_max : option string.
Variable max_results : Z.

Let request : call :=
  EventsList (GoogleCalendarTools.events_list_params calendar_id time_min time_max max_results).

Let body : M value :=
  GoogleCalendarTools.get_calendar_events_body w connection_id provider_config_key calendar_id
    time_min time_max max_results.

Let operation : M value :=
  GoogleCalendarTools.get_calendar_events w connection_id provider_config_key calendar_id
    time_min time_max max_results.

(** The operation is its [try] block with every exception turned into an
    envelope. *)
Lemma get_calendar_events_handled (tr : list call) :
  operation tr =
  match body tr with
  | (Return v, tr') => (Return v, tr')
  | (Raise e, tr') => (Return (events_failure calendar_id e), tr')
  | (OutOfFuel, tr') => (OutOfFuel, tr')
  end.
Proof.
  unfold operation, GoogleCalendarTools.get_calendar_events, try_except. fold body.
  destruct (body tr) as [[v | e |] tr']; try reflexivity.
  destruct e; reflexivity.
Qed.

(** What a run of the [try] block that returns has gone through. *)
Lemma get_calendar_events_body_return (tr tr' : list call) (v : value) :
  body tr = (Return v, tr') ->
  exists svc tr1 response items events formatted,
    GoogleCalendarAuth.authenticate_google_calendar w connection_id provider_config_key tr =
    (Return svc, tr1) /\
    execute_reply w tr1 request = Replied response /\
    py_get response "items" (VList []) = Return items /\
    py_iter items = Return events /\
    Forall2 (formats calendar_id) events formatted /\
    v = events_success calendar_id formatted /\
    tr' = tr1 ++ [request].
Proof.
  unfold body, GoogleCalendarTools.get_calendar_events_body. fold request.
  unfold bind at 1.
  destruct (GoogleCalendarAuth.authenticate_google_calendar _ _ _ _) as [[svc | e |] tr1] eqn:Ea;
    try discriminate.
  unfold bind at 1. unfold invoke at 1.
  destruct (execute_reply w tr1 request) as [response | e] eqn:Er; simpl outcome_of_reply;
    try discriminate.
  unfold bind at 1. unfold lift at 1.
  destruct (py_get response "items" (VList [])) as [items | e |] eqn:Ei; try discriminate.
  unfold bind at 1. unfold lift at 1.
  destruct (py_iter items) as [events | e |] eqn:Ev; try discriminate.
  destruct (format_events_cases calendar_id events [] (tr1 ++ [request]))
    as [(fs & Hfs & Hall) | (e & He)].
  - rewrite (bind_return _ _ _ _ _ Hfs). simpl app. unfold ret. intros H. inversion H; subst.
    exists svc, tr1, response, items, events, fs. repeat split; assumption.
  - rewrite (bind_raise _ _ _ _ _ He). discriminate.
Qed.

(** The [try] block does not run out of fuel: it has no loop of its own. *)
Lemma get_calendar_events_body_fuel (tr : list call) : fst (body tr) <> OutOfFuel.
Proof.
  unfold body, GoogleCalendarTools.get_calendar_events_body. fold request.
  unfold bind at 1.
  destruct (authenticate_cases w connection_id provider_config_key tr)
    as [(svc & tr1 & Ha) | (e & tr1 & Ha)]; rewrite Ha; [| discriminate].
  unfold bind at 1. unfold invoke at 1.
  destruct (execute_reply w tr1 request) as [response | e]; simpl outcome_of_reply;
    [| discriminate].
  unfold bind at 1. unfold lift at 1.
  destruct (py_get response "items" (VList [])) as [items | e |] eqn:Ei;
    [| discriminate | exfalso; eapply py_get_not_out_of_fuel; eassumption].
  unfold bind at 1. unfold lift at 1.
  destruct (py_iter items) as [events | e |] eqn:Ev;
    [| discriminate | exfalso; eapply py_iter_not_out_of_fuel; eassumption].
  destruct (format_events_cases calendar_id events [] (tr1 ++ [request]))
    as [(fs & Hfs & Hall) | (e & He)].
  - rewrite (bind_return _ _ _ _ _ Hfs). discriminate.
  - rewrite (bind_raise _ _ _ _ _ He). discriminate.
Qed.

(** A provider that fails the list request makes the [try] block raise
    what the provider raised. *)
Lemma get_calendar_events_body_provider_failure (tr tr1 : list call)
    (svc : GoogleCalendarAuth.service) (e : exn) :
  GoogleCalendarAuth.authenticate_google_calendar w connection_id provider_config_key tr =
  (Return svc, tr1) ->
  execute_reply w tr1 request = Failed e ->
  body tr = (Raise e, tr1 ++ [request]).
Proof.
  intros Ha Hr.
  unfold body, GoogleCalendarTools.get_calendar_events_body. fold request.
  rewrite (bind_return _ _ _ _ _ Ha).
  apply bind_raise. unfold invoke. rewrite Hr. reflexivity.
Qed.

(** The operation always returns an envelope: the success envelope of a
    run of the [try] block that returned, or the failure envelope of the
    exception it raised. *)
Lemma get_calendar_events_returns (tr : list call) :
  exists envelope tr',
    operation tr = (Return envelope, tr') /\
    ((body tr = (Return envelope, tr') /\
      exists formatted, envelope = events_success calendar_id formatted) \/
     (exists e, body tr = (Raise e, tr') /\ envelope = events_failure calendar_id e)).
Proof.
  rewrite get_calendar_events_handled.
  pose proof (get_calendar_events_body_fuel tr) as Hf.
  destruct (body tr) as [[v | e |] tr'] eqn:E.
  - exists v, tr'. split; [reflexivity |]. left. split; [reflexivity |].
    destruct (get_calendar_events_body_return _ _ _ E)
      as (svc & tr1 & response & items & events & formatted & _ & _ & _ & _ & _ & Hv & _).
    exists formatted. exact Hv.
  - exists (events_failure calendar_id e), tr'. split; [reflexivity |]. right.
    exists e. split; reflexivity.
  - exfalso. apply Hf. reflexivity.
Qed.

End ListEvents.

(** ** A sample run of credential resolution *)

Lemma sample_authenticate (provider : list call -> call -> reply value) :
  GoogleCalendarAuth.authenticate_google_calendar (sample_world provider)
    "conn-1" "google-calendar" [] =
  (Return sample_service, [sample_vault_request]).
Proof. vm_compute. reflexivity. Qed.

(** ** C6 *)

(** C6. Whenever the provider fails the list request of a [listEvents] call,
    the operation returns (it does not raise) an envelope with
    [success: false] whose [error] is ["http_error_<status>"] when the
    provider raised an [HttpError] carrying that status and
    ["unexpected_error"] when it raised anything else. *)
Theorem C6_list_events_remote_failure_enveloped
    (w : world) (connection_id provider_config_key calendar_id : string)
    (time_min time_max : option string) (max_results : Z)
    (tr tr1 : list call) (svc : GoogleCalendarAuth.service) (e : exn) :
  GoogleCalendarAuth.authenticate_google_calendar w connection_id provider_config_key tr =
  (Return svc, tr1) ->
  execute_reply w tr1
    (EventsList (GoogleCalendarTools.events_list_params calendar_id time_min time_max
                   max_results)) = Failed e ->
  exists envelope,
    GoogleCalendarTools.get_calendar_events w connection_id provider_config_key calendar_id
      time_min time_max max_results tr =
    (Return envelope,
     tr1 ++ [EventsList (GoogleCalendarTools.events_list_params calendar_id time_min time_max
                           max_results)]) /\
    field "success" envelope = Some (VBool false) /\
    (forall status text, e = HttpError (Some status) text ->
       field "error" envelope = Some (VStr ("http_error_" +:+ str_int status))) /\
    (forall cls text, e = PyError cls text ->
       field "error" envelope = Some (VStr "unexpected_error")).
Proof.
  intros Ha Hr. exists (events_failure calendar_id e).
  rewrite get_calendar_events_handled.
  rewrite (get_calendar_events_body_provider_failure _ _ _ _ _ _ _ _ _ _ _ Ha Hr).
  split; [reflexivity |].
  split; [destruct e; reflexivity |].
  split; intros; subst e; reflexivity.
Qed.

Lemma C6_witness :
  exists envelope,
    GoogleCalendarTools.get_calendar_events (sample_world (failing_provider 500))
      "conn-1" "google-calendar" "primary" None None 10 [] =
    (Return envelope,
     [sample_vault_request] ++
     [EventsList (GoogleCalendarTools.events_list_params "primary" None None 10)]) /\
    field "success" envelope = Some (VBool false) /\
    (forall status text, HttpError (Some 500) "<HttpError 500>" = HttpError (Some status) text ->
       field "error" envelope = Some (VStr ("http_error_" +:+ str_int status))) /\
    (forall cls text, HttpError (Some 500) "<HttpError 500>" = PyError cls text ->
       field "error" envelope = Some (VStr "unexpected_error")).
Proof.
  apply (C6_list_events_remote_failure_enveloped (sample_world (failing_provider 500))
           "conn-1" "google-calendar" "primary" None None 10 [] [sample_vault_request]
           sample_service (HttpError (Some 500) "<HttpError 500>")).
  - apply sample_authenticate.
  - reflexivity.
Defined.

(** ** C9 *)

(** C9, as the claim states it, fails: a [listEvents] call with
    [maxResults = 0] is answered with [success: false] and an [error] when
    credentials do not resolve, here for want of the vault's settings; the
    provider is never asked, so it breaks no cap. *)
Lemma C9_counterexample_unresolved_credentials :
  exists envelope,
    GoogleCalendarTools.get_calendar_events vaultless_world "conn-1" "google-calendar"
      "primary" None None 0 [] = (Return envelope, []) /\
    field "success" envelope = Some (VBool false) /\
    field "error" envelope = Some (VStr "unexpected_error") /\
    field "events" envelope = None.
Proof. eexists. vm_compute. repeat split; reflexivity. Qed.

(** C9, amended. A [listEvents] call with [maxResults = 0] whose
    credentials resolve and whose provider answers the list request within
    the cap that request carries returns the envelope with [success: true],
    an empty [events] list and [total_events = 0]; it carries no [error]. *)
Theorem C9_list_events_zero_cap_is_empty_success
    (w : world) (connection_id provider_config_key calendar_id : string)
    (time_min time_max : option string)
    (tr tr1 : list call) (svc : GoogleCalendarAuth.service) (response : value) :
  GoogleCalendarAuth.authenticate_google_calendar w connection_id provider_config_key tr =
  (Return svc, tr1) ->
  execute_reply w tr1
    (EventsList (GoogleCalendarTools.events_list_params calendar_id time_min time_max 0)) =
  Replied response ->
  honours_cap
    (EventsList (GoogleCalendarTools.events_list_params calendar_id time_min time_max 0))
    response ->
  exists envelope,
    GoogleCalendarTools.get_calendar_events w connection_id provider_config_key calendar_id
      time_min time_max 0 tr =
    (Return envelope,
     tr1 ++ [EventsList (GoogleCalendarTools.events_list_params calendar_id time_min time_max 0)]) /\
    field "success" envelope = Some (VBool true) /\
    field "events" envelope = Some (VList []) /\
    field "total_events" envelope = Some (VInt 0) /\
    field "error" envelope = None.
Proof.
  intros Ha Hr (items & Hi & Hcap).
  assert (Hlen : Z.of_nat (length items) <= 0).
  { apply (Hcap (GoogleCalendarTools.events_list_params calendar_id time_min time_max 0) 0);
      reflexivity. }
  assert (items = []) as -> by (destruct items; [reflexivity | simpl in Hlen; lia]).
  exists (events_success calendar_id []).
  split; [| repeat split; reflexivity].
  rewrite get_calendar_events_handled.
  unfold GoogleCalendarTools.get_calendar_events_body.
  rewrite (bind_return _ _ _ _ _ Ha).
  unfold bind at 1. unfold invoke at 1. rewrite Hr. simpl outcome_of_reply.
  unfold bind at 1. unfold lift at 1. rewrite Hi.
  reflexivity.
Qed.

Lemma C9_witness :
  exists envelope,
    GoogleCalendarTools.get_calendar_events (sample_world (capped_provider stocked_events))
      "conn-1" "google-calendar" "primary" None None 0 [] =
    (Return envelope,
     [sample_vault_request] ++
     [EventsList (GoogleCalendarTools.events_list_params "primary" None None 0)]) /\
    field "success" envelope = Some (VBool true) /\
    field "events" envelope = Some (VList []) /\
    field "total_events" envelope = Some (VInt 0) /\
    field "error" envelope = None.
Proof.
  apply (C9_list_events_zero_cap_is_empty_success
           (sample_world (capped_provider stocked_events))
           "conn-1" "google-calendar" "primary" None None [] [sample_vault_request]
           sample_service (VDict [("items", VList [])])).
  - apply sample_authenticate.
  - reflexivity.
  - exists []. split; [reflexivity |].
    intros params cap Hrequest Hassoc. inversion Hrequest; subst params.
    vm_compute in Hassoc. inversion Hassoc. simpl. lia.
Defined.

(** ** C10 *)

(** C10. Every envelope [listEvents] returns carries [calendar_id] equal to
    the argument.  In a success envelope, [events] holds one record per item
    the provider returned, in the provider's order, each the formatted
    record of the item at the same position (so a missing title reads
    ["No Title"]), and [total_events] is the length of [events]. *)
Theorem C10_list_events_envelope_invariants
    (w : world) (connection_id provider_config_key calendar_id : string)
    (time_min time_max : option string) (max_results : Z) (tr : list call) :
  exists envelope tr',
    GoogleCalendarTools.get_calendar_events w connection_id provider_config_key calendar_id
      time_min time_max max_results tr = (Return envelope, tr') /\
    field "calendar_id" envelope = Some (VStr calendar_id) /\
    (field "success" envelope = Some (VBool true) ->
     exists svc tr1 response items provider_items formatted,
       GoogleCalendarAuth.authenticate_google_calendar w connection_id provider_config_key tr =
       (Return svc, tr1) /\
       execute_reply w tr1
         (EventsList (GoogleCalendarTools.events_list_params calendar_id time_min time_max
                        max_results)) = Replied response /\
       py_get response "items" (VList []) = Return items /\
       py_iter items = Return provider_items /\
       field "events" envelope = Some (VList formatted) /\
       field "total_events" envelope = Some (VInt (Z.of_nat (length formatted))) /\
       length formatted = length provider_items /\
       (forall (i : nat) (item : value),
          provider_items !! i = Some item ->
          exists entries,
            item = VDict entries /\
            formatted !! i = Some (format_record calendar_id entries) /\
            (assoc "summary" entries = None ->
             field "summary" (format_record calendar_id entries) = Some (VStr "No Title")))).
Proof.
  destruct (get_calendar_events_returns w connection_id provider_config_key calendar_id
              time_min time_max max_results tr)
    as (envelope & tr' & Hop & [(Hbody & formatted0 & Henv) | (e & Hbody & Henv)]).
  - exists envelope, tr'. split; [exact Hop |].
    split; [rewrite Henv; reflexivity |].
    intros _.
    destruct (get_calendar_events_body_return _ _ _ _ _ _ _ _ _ _ Hbody)
      as (svc & tr1 & response & items & events & formatted & Ha & Hr & Hi & Hev & Hall & Hv & _).
    clear Henv formatted0. subst envelope.
    exists svc, tr1, response, items, events, formatted.
    do 4 (split; [assumption |]).
    do 2 (split; [reflexivity |]).
    split; [symmetry; eapply Forall2_length; exact Hall |].
    intros i item Hitem.
    destruct (Forall2_lookup_l _ _ _ _ _ Hall Hitem) as (f & Hf & entries & -> & ->).
    exists entries. repeat split; [exact Hf |].
    intros Hnone. simpl. rewrite Hnone. reflexivity.
  - exists envelope, tr'. split; [exact Hop |].
    split; [subst envelope; destruct e; reflexivity |].
    subst envelope. destruct e; simpl; discriminate.
Qed.

Lemma C10_witness :
  exists envelope formatted record,
    fst (GoogleCalendarTools.get_calendar_events (sample_world untitled_provider)
           "conn-1" "google-calendar" "team" None None 10 []) = Return envelope /\
    field "calendar_id" envelope = Some (VStr "team") /\
    field "events" envelope = Some (VList formatted) /\
    field "total_events" envelope = Some (VInt (Z.of_nat (length formatted))) /\
    formatted !! 1%nat = Some record /\
    field "summary" record = Some (VStr "No Title").
Proof.
  destruct (C10_list_events_envelope_invariants (sample_world untitled_provider)
              "conn-1" "google-calendar" "team" None None 10 [])
    as (envelope & tr' & Hop & Hcal & Hsuccess).
  assert (Hs : field "success" envelope = Some (VBool true)).
  { vm_compute in Hop. inversion Hop. reflexivity. }
  destruct (Hsuccess Hs)
    as (svc & tr1 & response & items & provider_items & formatted
        & Ha & Hr & Hi & Hev & Hevents & Htotal & _ & Hitems).
  rewrite sample_authenticate in Ha. inversion Ha; subst svc tr1.
  vm_compute in Hr. inversion Hr; subst response.
  vm_compute in Hi. inversion Hi; subst items.
  vm_compute in Hev. inversion Hev; subst provider_items.
  destruct (Hitems 1%nat (VDict [("id", VStr "e2")]) eq_refl)
    as (entries & Hentries & Hrecord & Htitle).
  inversion Hentries; subst entries.
  exists envelope, formatted, (format_record "team" [("id", VStr "e2")]).
  rewrite Hop. split; [reflexivity |]. split; [exact Hcal |]. split; [exact Hevents |].
  split; [exact Htotal |]. split; [exact Hrecord |]. apply Htitle. reflexivity.
Defined.

(** ** C1 *)

(** C1, as the claim states it, fails: with the vault configured, a call
    with an empty summary has already asked the vault for the credential
    when the summary is checked.  Here the trace of the call, started from
    no call at all, holds the vault request. *)
Lemma C1_counterexample_vault_is_called :
  GoogleCalendarTools.create_meet_event (sample_world (constant_provider VNone))
    "conn-1" "google-calendar" "" "2024-12-25T10:00:00" "2024-12-25T11:00:00" ""
    None "UTC" "primary" [] =
  (Return VNone, [sample_vault_request]).
Proof. vm_compute. reflexivity. Qed.

(** C1, amended. A [createMeetingEvent] call with an empty summary returns
    [None], and the calls it makes first are those of credential resolution
    only: none of them reaches the calendar provider.  When the vault is
    configured the first of them is the vault request; when it is not, no
    call is made at all. *)
Theorem C1_empty_summary_makes_no_calendar_call
    (w : world) (connection_id provider_config_key start_datetime end_datetime
     description : string) (attendees : option (list string))
    (timezone calendar_id : string) (tr : list call) :
  exists new,
    GoogleCalendarTools.create_meet_event w connection_id provider_config_key ""
      start_datetime end_datetime description attendees timezone calendar_id tr =
    (Return VNone, tr ++ new) /\
    Forall not_calendar new /\
    (vault_configured w = true ->
     exists rest, new = vault_request w connection_id provider_config_key :: rest) /\
    (vault_configured w = false -> new = []).
Proof.
  destruct (authenticate_extends w connection_id provider_config_key tr)
    as (new & Htr & HP & _).
  exists new.
  assert (Hrun :
    GoogleCalendarTools.create_meet_event w connection_id provider_config_key ""
      start_datetime end_datetime description attendees timezone calendar_id tr =
    (Return VNone, tr ++ new)).
  { unfold GoogleCalendarTools.create_meet_event,
      GoogleCalendarTools.create_meet_event_body, try_except.
    unfold bind at 1.
    destruct (authenticate_cases w connection_id provider_config_key tr)
      as [(svc & tr1 & Ha) | (e & tr1 & Ha)]; rewrite Ha in *; simpl in Htr; subst tr1.
    - reflexivity.
    - destruct e; reflexivity. }
  split; [exact Hrun |]. split; [exact HP |]. split.
  - intros Hc.
    destruct (authenticate_configured w connection_id provider_config_key tr Hc)
      as (rest & Hrest & _).
    exists rest. rewrite Htr in Hrest. apply app_inv_head in Hrest. exact Hrest.
  - intros Hc.
    rewrite (authenticate_unconfigured w connection_id provider_config_key tr Hc) in Htr.
    simpl in Htr. rewrite <- (app_nil_r tr) in Htr at 1.
    apply app_inv_head in Htr. symmetry. exact Htr.
Qed.

Lemma C1_witness :
  exists new,
    GoogleCalendarTools.create_meet_event (sample_world (constant_provider VNone))
      "conn-1" "google-calendar" "" "2024-12-25T10:00:00" "2024-12-25T11:00:00" ""
      None "UTC" "primary" [] = (Return VNone, [] ++ new) /\
    Forall not_calendar new /\
    exists rest,
      new = vault_request (sample_world (constant_provider VNone)) "conn-1" "google-calendar"
            :: rest.
Proof.
  destruct (C1_empty_summary_makes_no_calendar_call (sample_world (constant_provider VNone))
              "conn-1" "google-calendar" "2024-12-25T10:00:00" "2024-12-25T11:00:00" ""
              None "UTC" "primary" [])
    as (new & Hrun & Hnew & Hconfigured & _).
  exists new. split; [exact Hrun |]. split; [exact Hnew |].
  apply Hconfigured. vm_compute. reflexivity.
Defined.

(** ** cancelEvent: [GoogleCalendarTools.cancel_calendar_event] *)

(** The operation is its [try] block with every exception turned into an
    envelope; the block returns the success envelope when it returns. *)
Lemma cancel_calendar_event_returns (w : world)
    (connection_id provider_config_key calendar_id event_id : string) (tr : list call) :
  exists envelope tr',
    GoogleCalendarTools.cancel_calendar_event w connection_id provider_config_key
      calendar_id event_id tr = (Return envelope, tr') /\
    ((GoogleCalendarTools.cancel_calendar_event_body w connection_id provider_config_key
        calendar_id event_id tr = (Return envelope, tr') /\
      envelope = cancel_success calendar_id event_id) \/
     (exists e message,
        GoogleCalendarTools.cancel_calendar_event_body w connection_id provider_config_key
          calendar_id event_id tr = (Raise e, tr') /\
        envelope = cancel_failure event_id message (cancel_error_kind e))).
Proof.
  assert (Hh : forall e tr', exists message,
    (fun error =>
       match error with
       | HttpError resp _ =>
           let http_error :=
             VDict [("success", VBool false);
                    ("message", VStr ("HTTP error occurred: " +:+ str_exn error));
                    ("error", VStr "http_error");
                    ("event_id", VStr event_id)] in
           match resp with
           | Some status =>
               if status =? 404 then
                 ret (VDict [("success", VBool false);
                             ("message", VStr ("Event not found: " +:+ event_id));
                             ("error", VStr "event_not_found");
                             ("event_id", VStr event_id)])
               else if status =? 403 then
                 ret (VDict [("success", VBool false);
                             ("message", VStr "Insufficient permissions to cancel this event");
                             ("error", VStr "permission_denied");
                             ("event_id", VStr event_id)])
               else ret http_error
           | None => ret http_error
           end
       | PyError _ _ =>
           ret (VDict [("success", VBool false);
                       ("message", VStr ("Unexpected error occurred: " +:+ str_exn error));
                       ("error", VStr "unexpected_error");
                       ("event_id", VStr event_id)])
       end) e tr' = (Return (cancel_failure event_id message (cancel_error_kind e)), tr')).
  { intros [[status |] text | cls text] tr'; cbv beta iota zeta; unfold cancel_error_kind.
    - destruct (status =? 404); [eexists; reflexivity |].
      destruct (status =? 403); eexists; reflexivity.
    - eexists; reflexivity.
    - eexists; reflexivity. }
  unfold GoogleCalendarTools.cancel_calendar_event, try_except.
  destruct (GoogleCalendarTools.cancel_calendar_event_body _ _ _ _ _ _) as [[v | e |] tr'] eqn:Eb.
  - exists v, tr'. split; [reflexivity |]. left. split; [reflexivity |].
    revert Eb. unfold GoogleCalendarTools.cancel_calendar_event_body, bind, invoke.
    destruct (GoogleCalendarAuth.authenticate_google_calendar _ _ _ _) as [[svc | e |] tr1];
      try discriminate.
    destruct (execute_reply w tr1 _); simpl; [| discriminate].
    unfold ret. intros H. inversion H. reflexivity.
  - destruct (Hh e tr') as (message & Hm).
    exists (cancel_failure event_id message (cancel_error_kind e)), tr'.
    split; [exact Hm |]. right. exists e, message. split; reflexivity.
  - exfalso. revert Eb.
    unfold GoogleCalendarTools.cancel_calendar_event_body. unfold bind at 1.
    destruct (authenticate_cases w connection_id provider_config_key tr)
      as [(svc & tr1 & Ha) | (e & tr1 & Ha)]; rewrite Ha; [| discriminate].
    unfold bind, invoke. destruct (execute_reply w tr1 _); simpl; discriminate.
Qed.

(** ** C3 *)

(** C3, as the claim states it, fails: the envelope of a cancellation the
    provider refuses with status 404 has no [calendar_id]. *)
Lemma C3_counterexample_failure_lacks_calendar_id :
  exists envelope,
    GoogleCalendarTools.cancel_calendar_event (sample_world (failing_provider 404))
      "conn-1" "google-calendar" "primary" "evt-1" [] =
    (Return envelope, [sample_vault_request; EventsDelete "primary" "evt-1" "all"]) /\
    field "success" envelope = Some (VBool false) /\
    field "error" envelope = Some (VStr "event_not_found") /\
    field "event_id" envelope = Some (VStr "evt-1") /\
    field "calendar_id" envelope = None.
Proof. eexists. vm_compute. repeat split; reflexivity. Qed.

(** C3, amended. [cancelEvent] always returns an envelope (it does not
    raise) that carries [success], [message] and [event_id].  The success
    envelope also carries [calendar_id] and no [error]; a failure envelope
    carries [error] and no [calendar_id].  When the provider refuses the
    delete request with an [HttpError] of some status, the envelope has
    [success: false] and its [error] is ["event_not_found"] for 404,
    ["permission_denied"] for 403 and ["http_error"] for any other status. *)
Theorem C3_cancel_event_envelopes
    (w : world) (connection_id provider_config_key calendar_id event_id : string)
    (tr : list call) :
  exists envelope tr',
    GoogleCalendarTools.cancel_calendar_event w connection_id provider_config_key
      calendar_id event_id tr = (Return envelope, tr') /\
    field "event_id" envelope = Some (VStr event_id) /\
    has_field "message" envelope = true /\
    ((field "success" envelope = Some (VBool true) /\
      field "calendar_id" envelope = Some (VStr calendar_id) /\
      field "error" envelope = None) \/
     (field "success" envelope = Some (VBool false) /\
      field "calendar_id" envelope = None /\
      has_field "error" envelope = true)) /\
    (forall svc tr1 status text,
       GoogleCalendarAuth.authenticate_google_calendar w connection_id provider_config_key tr =
       (Return svc, tr1) ->
       execute_reply w tr1 (EventsDelete calendar_id event_id "all") =
       Failed (HttpError (Some status) text) ->
       tr' = tr1 ++ [EventsDelete calendar_id event_id "all"] /\
       field "success" envelope = Some (VBool false) /\
       field "error" envelope =
       Some (VStr (if status =? 404 then "event_not_found"
                   else if status =? 403 then "permission_denied"
                   else "http_error"))).
Proof.
  destruct (cancel_calendar_event_returns w connection_id provider_config_key calendar_id
              event_id tr)
    as (envelope & tr' & Hop & [(Hbody & ->) | (e & message & Hbody & ->)]);
    eexists; exists tr'; (split; [exact Hop |]).
  - split; [reflexivity |]. split; [reflexivity |]. split.
    + left. repeat split; reflexivity.
    + intros svc tr1 status text Ha Hr. exfalso. revert Hbody.
      unfold GoogleCalendarTools.cancel_calendar_event_body.
      rewrite (bind_return _ _ _ _ _ Ha). unfold bind, invoke. rewrite Hr. discriminate.
  - split; [reflexivity |]. split; [reflexivity |]. split.
    + right. repeat split; reflexivity.
    + intros svc tr1 status text Ha Hr. revert Hbody.
      unfold GoogleCalendarTools.cancel_calendar_event_body.
      rewrite (bind_return _ _ _ _ _ Ha). unfold bind, invoke. rewrite Hr. simpl.
      intros H. inversion H; subst. repeat split; reflexivity.
Qed.

Lemma C3_witness :
  exists envelope tr',
    GoogleCalendarTools.cancel_calendar_event (sample_world (failing_provider 403))
      "conn-1" "google-calendar" "primary" "evt-1" [] = (Return envelope, tr') /\
    tr' = [sample_vault_request] ++ [EventsDelete "primary" "evt-1" "all"] /\
    field "success" envelope = Some (VBool false) /\
    field "error" envelope = Some (VStr "permission_denied").
Proof.
  destruct (C3_cancel_event_envelopes (sample_world (failing_provider 403))
              "conn-1" "google-calendar" "primary" "evt-1" [])
    as (envelope & tr' & Hop & _ & _ & _ & Hfail).
  exists envelope, tr'. split; [exact Hop |].
  apply (Hfail sample_service [sample_vault_request] 403 "<HttpError 403>").
  - apply sample_authenticate.
  - reflexivity.
Defined.

(** ** listCalendars: the pagination loop *)

Lemma page_requests_length (page_token : value) (pages : list (list value * value)) :
  length (page_requests page_token pages) = length pages.
Proof.
  revert page_token. induction pages as [| [items next] rest IH]; intros page_token; simpl.
  - reflexivity.
  - rewrite IH. reflexivity.
Qed.

Lemma calendar_pages_serves (w : world) (svc : GoogleCalendarAuth.service)
    (pages : list (list value * value)) :
  forall (fuel : nat) (page_token : value) (calendars : list value) (tr : list call),
    serves w tr page_token pages ->
    (length pages <= fuel)%nat ->
    GoogleCalendarTools.calendar_pages w fuel svc page_token calendars tr =
    (Return (calendars ++ concat (map fst pages)), tr ++ page_requests page_token pages).
Proof.
  induction pages as [| [items next] rest IH]; intros fuel page_token calendars tr Hs Hfuel.
  - destruct Hs.
  - destruct fuel as [| fuel]; [simpl in Hfuel; lia |].
    destruct Hs as [(response & Hr & Hitems & Hnext) Hrest].
    simpl GoogleCalendarTools.calendar_pages. fold (page_request page_token).
    unfold bind at 1. unfold invoke at 1. rewrite Hr. simpl outcome_of_reply.
    unfold bind at 1. unfold lift at 1. rewrite Hitems.
    unfold bind at 1. unfold lift at 1. simpl py_iter.
    unfold bind at 1. unfold lift at 1. rewrite Hnext.
    destruct rest as [| page rest'].
    + rewrite Hrest. simpl. rewrite app_nil_r. reflexivity.
    + destruct Hrest as [Htok Hrest]. rewrite Htok.
      change (negb true) with false. cbv iota.
      rewrite (IH fuel next (calendars ++ items) (tr ++ [page_request page_token]) Hrest);
        [| simpl in Hfuel |- *; lia].
      change (map fst ((items, next) :: page :: rest'))
        with (items :: map fst (page :: rest')).
      change (page_requests page_token ((items, next) :: page :: rest'))
        with (page_request page_token :: page_requests next (page :: rest')).
      simpl concat. rewrite <- !app_assoc. reflexivity.
Qed.

(** ** C8 *)

(** C8. When credentials resolve and the provider serves a sequence of
    pages, [listCalendars] returns the concatenation of the pages' items in
    page order, having made exactly one request per page: the first without
    a token, each later one with the token of the page before it, and none
    after the first page that carries no token.  Any bound on the loop that
    is at least the number of pages suffices. *)
Theorem C8_list_calendars_concatenates_pages
    (w : world) (connection_id provider_config_key : string) (fuel : nat)
    (tr tr1 : list call) (svc : GoogleCalendarAuth.service)
    (pages : list (list value * value)) :
  GoogleCalendarAuth.authenticate_google_calendar w connection_id provider_config_key tr =
  (Return svc, tr1) ->
  serves w tr1 VNone pages ->
  (length pages <= fuel)%nat ->
  GoogleCalendarTools.get_all_calendars w fuel connection_id provider_config_key tr =
  (Return (concat (map fst pages)), tr1 ++ page_requests VNone pages) /\
  length (page_requests VNone pages) = length pages.
Proof.
  intros Ha Hs Hfuel. split; [| apply page_requests_length].
  unfold GoogleCalendarTools.get_all_calendars.
  apply try_except_return.
  rewrite (bind_return _ _ _ _ _ Ha).
  apply (calendar_pages_serves w svc pages fuel VNone [] tr1 Hs Hfuel).
Qed.

Lemma C8_witness :
  GoogleCalendarTools.get_all_calendars (sample_world paged_provider) 3
    "conn-1" "google-calendar" [] =
  (Return (concat (map fst three_pages)),
   [sample_vault_request] ++ page_requests VNone three_pages) /\
  length (page_requests VNone three_pages) = length three_pages.
Proof.
  apply (C8_list_calendars_concatenates_pages (sample_world paged_provider)
           "conn-1" "google-calendar" 3 [] [sample_vault_request] sample_service three_pages).
  - apply sample_authenticate.
  - simpl. repeat split; try reflexivity; eexists; repeat split; reflexivity.
  - simpl. lia.
Defined.

(** ** C7 *)

(** The credential the program constructs from a vault payload has no
    [expiry], so the library never reports it expired: through
    [authenticate_google_calendar] the refresh step is reached only with a
    missing access token, and then it raises. *)
Lemma make_credentials_not_expired (w : world) (credentials_data : value)
    (creds : Credentials) (tr tr' : list call) :
  GoogleCalendarAuth.make_credentials credentials_data tr = (Return creds, tr') ->
  GoogleCalendarAuth.expired w creds = false.
Proof.
  unfold GoogleCalendarAuth.make_credentials, bind, lift, ret.
  destruct credentials_data; try discriminate.
  simpl. intros H. inversion H. reflexivity.
Qed.

(** What the "refresh token if needed" step does on a credential object
    the library reports expired: with a refresh token it invokes the
    refresh exchange and gives what that gives; without one it raises and
    makes no call.  No credential the program constructs is such an object
    ([make_credentials_not_expired]). *)
Lemma refresh_step_on_expired_credential
    (w : world) (creds : Credentials) (tr : list call) :
  GoogleCalendarAuth.expired w creds = true ->
  (truthy (refresh_token creds) = true ->
   GoogleCalendarAuth.refresh_if_needed w creds tr =
   (outcome_of_reply (refresh_reply w tr (TokenRefresh creds)), tr ++ [TokenRefresh creds])) /\
  (truthy (refresh_token creds) = false ->
   GoogleCalendarAuth.refresh_if_needed w creds tr =
   (Raise (Exception "Invalid credentials and no refresh token available"), tr)).
Proof.
  intros He.
  assert (Hv : GoogleCalendarAuth.valid w creds = false).
  { unfold GoogleCalendarAuth.valid. rewrite He. destruct (token creds); reflexivity. }
  unfold GoogleCalendarAuth.refresh_if_needed. rewrite Hv, He. simpl negb. cbv iota.
  split; intros Hr; rewrite Hr; reflexivity.
Qed.

(** C7. The code does not do what the claim says.  At 09:07:01 UTC the
    vault hands over an access token that expired at 08:00:00.  The
    credential built from it has no [expiry], so the library does not
    report it expired: resolution returns a service on the expired token
    after the vault request alone, and the Client goes on to the calendar
    request with it.  With a refresh token no refresh exchange is invoked
    before that use (the token endpoint of this world would have answered);
    without one, resolution does not fail and the calendar request is made
    all the same. *)
Lemma C7_expired_token_is_used_without_refresh :
  (GoogleCalendarAuth.authenticate_google_calendar (expired_token_world (VStr "1//refresh"))
     "conn-1" "google-calendar" [] =
   (Return (GoogleCalendarAuth.build (expired_token_credentials (VStr "1//refresh"))),
    [sample_vault_request]) /\
   GoogleCalendarAuth.expired (expired_token_world (VStr "1//refresh"))
     (expired_token_credentials (VStr "1//refresh")) = false /\
   snd (GoogleCalendarTools.cancel_calendar_event (expired_token_world (VStr "1//refresh"))
          "conn-1" "google-calendar" "primary" "evt-1" []) =
   [sample_vault_request; EventsDelete "primary" "evt-1" "all"]) /\
  (GoogleCalendarAuth.authenticate_google_calendar (expired_token_world VNone)
     "conn-1" "google-calendar" [] =
   (Return (GoogleCalendarAuth.build (expired_token_credentials VNone)),
    [sample_vault_request]) /\
   snd (GoogleCalendarTools.cancel_calendar_event (expired_token_world VNone)
          "conn-1" "google-calendar" "primary" "evt-1" []) =
   [sample_vault_request; EventsDelete "primary" "evt-1" "all"]).
Proof. vm_compute. repeat split; reflexivity. Qed.

(** ** C5 *)

Lemma append_assoc (a b c : string) : (a +:+ b) +:+ c = a +:+ b +:+ c.
Proof.
  induction a as [| ch a IH]; [reflexivity |].
  change (String ch ((a +:+ b) +:+ c) = String ch (a +:+ b +:+ c)).
  rewrite IH. reflexivity.
Qed.

Lemma truthy_str_append (a : string) (ch : ascii) (b : string) :
  truthy_str (a +:+ String ch b) = true.
Proof. destruct a; reflexivity. Qed.

Lemma today_time_min_eq (today : datetime) :
  today_time_min today = isoformat_date today +:+ "T00:00:00Z".
Proof.
  unfold today_time_min, isoformat, isoformat_date, replace_time.
  cbn [year month day hour minute second microsecond].
  change (zpad 2 0) with "00". change (0 =? 0) with true. cbv iota.
  rewrite !append_assoc. reflexivity.
Qed.

Lemma today_time_max_eq (today : datetime) :
  today_time_max today = isoformat_date today +:+ "T23:59:59.999999Z".
Proof.
  unfold today_time_max, isoformat, isoformat_date, replace_time.
  cbn [year month day hour minute second microsecond].
  change (zpad 2 23) with "23". change (zpad 2 59) with "59".
  change (zpad 6 999999) with "999999". change (999999 =? 0) with false. cbv iota.
  rewrite !append_assoc. reflexivity.
Qed.

(** C5, as the claim states it, fails: at 2024-05-03 09:07:01.000123 the
    upper bound is 23:59:59.999999 of that day, printed with six decimals,
    and not 23:59:59.999. *)
Lemma C5_counterexample_upper_bound_is_microseconds :
  today_time_max sample_now = "2024-05-03T23:59:59.999999Z" /\
  String.eqb (today_time_max sample_now) "2024-05-03T23:59:59.999Z" = false /\
  microsecond (replace_time sample_now 23 59 59 999999) = 999999.
Proof. vm_compute. repeat split; reflexivity. Qed.

(** A tool that only hands on the envelope of [get_calendar_events] gives
    what the operation gives: the operation does not raise, so the tool's
    own handler is not reached. *)
Lemma events_tool_passthrough (w : world) (connection_id provider_config_key calendar_id : string)
    (time_min time_max : option string) (max_results : Z) (h : exn -> M value)
    (tr : list call) :
  try_except
    (result <- GoogleCalendarTools.get_calendar_events w connection_id provider_config_key
                 calendar_id time_min time_max max_results ;;
     ret result) h tr =
  GoogleCalendarTools.get_calendar_events w connection_id provider_config_key
    calendar_id time_min time_max max_results tr.
Proof.
  destruct (get_calendar_events_returns w connection_id provider_config_key calendar_id
              time_min time_max max_results tr) as (envelope & tr' & Hop & _).
  unfold try_except, bind. rewrite Hop. reflexivity.
Qed.

(** C5, amended. At any instant, [getTodayEvents] computes [timeMin] as
    midnight ([T00:00:00]) and [timeMax] as [T23:59:59.999999] (microsecond
    precision) of the calendar day of the local clock, both printed with
    the suffix [Z], and it gives what [listEvents] gives for that window
    with [maxResults = 50]: the list request carries exactly these
    parameters. *)
Theorem C5_today_window_and_delegation
    (w : world) (cfg : config) (calendar_id : string) (tr : list call) :
  today_time_min (now w) = isoformat_date (now w) +:+ "T00:00:00Z" /\
  today_time_max (now w) = isoformat_date (now w) +:+ "T23:59:59.999999Z" /\
  get_today_events w cfg calendar_id tr =
  GoogleCalendarTools.get_calendar_events w (NANGO_CONNECTION_ID cfg) (NANGO_INTEGRATION_ID cfg)
    calendar_id
    (Some (isoformat_date (now w) +:+ "T00:00:00Z"))
    (Some (isoformat_date (now w) +:+ "T23:59:59.999999Z")) 50 tr /\
  GoogleCalendarTools.events_list_params calendar_id
    (Some (isoformat_date (now w) +:+ "T00:00:00Z"))
    (Some (isoformat_date (now w) +:+ "T23:59:59.999999Z")) 50 =
  [("calendarId", VStr calendar_id); ("maxResults", VInt 50);
   ("singleEvents", VBool true); ("orderBy", VStr "startTime");
   ("timeMin", VStr (isoformat_date (now w) +:+ "T00:00:00Z"));
   ("timeMax", VStr (isoformat_date (now w) +:+ "T23:59:59.999999Z"))].
Proof.
  split; [apply today_time_min_eq |]. split; [apply today_time_max_eq |]. split.
  - unfold get_today_events. cbv zeta.
    rewrite events_tool_passthrough, today_time_min_eq, today_time_max_eq. reflexivity.
  - unfold GoogleCalendarTools.events_list_params, GoogleCalendarTools.optional_param.
    rewrite !truthy_str_append. reflexivity.
Qed.

(** ** The tool boundary *)

Lemma events_envelope_kept (w : world) (cfg : config) (fuel : nat) (t : tool_call)
    (calendar_id : string) (time_min time_max : option string) (max_results : Z)
    (tr : list call) :
  is_create_meet_event t = false ->
  client_block w cfg fuel t tr =
  GoogleCalendarTools.get_calendar_events_body w
    (NANGO_CONNECTION_ID cfg) (NANGO_INTEGRATION_ID cfg)
    calendar_id time_min time_max max_results tr ->
  exists envelope tr',
    GoogleCalendarTools.get_calendar_events w
      (NANGO_CONNECTION_ID cfg) (NANGO_INTEGRATION_ID cfg)
      calendar_id time_min time_max max_results tr = (Return envelope, tr') /\
    boundary_kept w cfg fuel t tr envelope tr'.
Proof.
  intros Hc Hblock.
  destruct (get_calendar_events_returns w (NANGO_CONNECTION_ID cfg) (NANGO_INTEGRATION_ID cfg)
              calendar_id time_min time_max max_results tr)
    as (envelope & tr' & Hop & [(Hbody & formatted & ->) | (e & Hbody & ->)]);
    eexists; exists tr'; (split; [exact Hop |]); unfold boundary_kept; rewrite Hblock, Hbody.
  - split; [exists true; reflexivity |]. split; [reflexivity |].
    split; [discriminate |]. intros e tr'' H. discriminate.
  - split; [exists false; destruct e; reflexivity |].
    split; [destruct e; reflexivity |].
    split; [intros _; left; destruct e; reflexivity |].
    intros e' tr'' H. inversion H; subst. rewrite Hc.
    repeat split; destruct e'; reflexivity.
Qed.

Lemma add_days_not_out_of_fuel (d : datetime) (n : Z) : add_days d n <> OutOfFuel.
Proof.
  unfold add_days. destruct (_ <? _); [discriminate |].
  destruct (_ && _); [| discriminate].
  destruct (fromordinal _) as [[y m] dd]. discriminate.
Qed.

(** Every tool either returns an envelope that keeps the boundary, or (only
    [listCalendars]) has not finished paginating within the bound. *)
Lemma call_tool_boundary (w : world) (cfg : config) (fuel : nat) (t : tool_call)
    (tr : list call) :
  (exists envelope tr',
     call_tool w cfg fuel t tr = (Return envelope, tr') /\
     boundary_kept w cfg fuel t tr envelope tr') \/
  (t = GetAllCalendars /\ exists tr', call_tool w cfg fuel t tr = (OutOfFuel, tr')).
Proof.
  destruct t as [| calendar_id time_min time_max max_results
                 | summary start_datetime end_datetime description attendees timezone calendar_id
                 | calendar_id event_id | calendar_id | days_ahead calendar_id];
    simpl call_tool.
  - (* listCalendars *)
    unfold get_all_calendars, try_except, bind.
    destruct (GoogleCalendarTools.get_all_calendars _ _ _ _ _) as [[calendars | e |] tr'] eqn:E.
    + left. do 2 eexists. split; [reflexivity |]. unfold boundary_kept, client_block, bind.
      rewrite E. split; [exists true; reflexivity |]. split; [reflexivity |].
      split; [discriminate |]. intros e tr'' H. discriminate.
    + left. do 2 eexists. split; [reflexivity |]. unfold boundary_kept, client_block, bind.
      rewrite E. split; [exists false; reflexivity |]. split; [reflexivity |].
      split; [intros _; left; reflexivity |].
      intros e' tr'' H. inversion H; subst. repeat split; reflexivity.
    + right. split; [reflexivity |]. eexists. reflexivity.
  - (* listEvents *)
    left. unfold get_calendar_events. rewrite events_tool_passthrough.
    eapply events_envelope_kept; reflexivity.
  - (* createMeetingEvent *)
    left. unfold create_meet_event, GoogleCalendarTools.create_meet_event.
    unfold boundary_kept, client_block.
    set (body := GoogleCalendarTools.create_meet_event_body _ _ _ _ _ _ _ _ _ _).
    assert (Hfuel : fst (body tr) <> OutOfFuel).
    { subst body. unfold GoogleCalendarTools.create_meet_event_body. unfold bind at 1.
      destruct (authenticate_cases w (NANGO_CONNECTION_ID cfg) (NANGO_INTEGRATION_ID cfg) tr)
        as [(svc & tr1 & Ha) | (e & tr1 & Ha)]; rewrite Ha; [| discriminate].
      unfold bind at 1. destruct (negb _); [discriminate |].
      unfold ret at 1. unfold bind, invoke.
      destruct (execute_reply w tr1 _); discriminate. }
    unfold try_except, bind.
    destruct (body tr) as [[v | e |] tr'] eqn:E.
    + destruct (truthy v) eqn:Hv; do 2 eexists; (split; [reflexivity |]).
      * split; [exists true; reflexivity |]. split; [reflexivity |].
        split; [discriminate |]. intros e tr'' H. discriminate.
      * split; [exists false; reflexivity |]. split; [reflexivity |].
        split; [intros _; right; reflexivity |]. intros e tr'' H. discriminate.
    + do 2 eexists. split; [destruct e; reflexivity |].
      split; [exists false; reflexivity |]. split; [reflexivity |].
      split; [intros _; right; reflexivity |].
      intros e' tr'' H. inversion H; subst. repeat split; reflexivity.
    + exfalso. apply Hfuel. reflexivity.
  - (* cancelEvent *)
    left. unfold cancel_calendar_event, boundary_kept, client_block.
    destruct (cancel_calendar_event_returns w (NANGO_CONNECTION_ID cfg)
                (NANGO_INTEGRATION_ID cfg) calendar_id event_id tr)
      as (envelope & tr' & Hop & [(Hbody & ->) | (e & message & Hbody & ->)]);
      eexists; exists tr'; unfold try_except, bind; rewrite Hop, Hbody;
      (split; [reflexivity |]).
    + split; [exists true; reflexivity |]. split; [reflexivity |].
      split; [discriminate |]. intros e tr'' H. discriminate.
    + split; [exists false; reflexivity |]. split; [reflexivity |].
      split; [intros _; left; reflexivity |].
      intros e' tr'' H. inversion H; subst. repeat split; reflexivity.
  - (* getTodayEvents *)
    left. unfold get_today_events. cbv zeta. rewrite events_tool_passthrough.
    eapply events_envelope_kept; reflexivity.
  - (* getUpcomingEvents *)
    left. unfold get_upcoming_events. cbv zeta.
    pose proof (add_days_not_out_of_fuel (now w) days_ahead) as Hfuel.
    destruct (add_days (now w) days_ahead) as [future | e |] eqn:E.
    + assert (Hstep : forall h,
        try_except
          (future0 <- lift (Return future) ;;
           result <- GoogleCalendarTools.get_calendar_events w
                       (NANGO_CONNECTION_ID cfg) (NANGO_INTEGRATION_ID cfg) calendar_id
                       (Some (isoformat (now w) +:+ "Z"))
                       (Some (isoformat future0 +:+ "Z")) 50 ;;
           ret result) h tr =
        try_except
          (result <- GoogleCalendarTools.get_calendar_events w
                       (NANGO_CONNECTION_ID cfg) (NANGO_INTEGRATION_ID cfg) calendar_id
                       (Some (isoformat (now w) +:+ "Z"))
                       (Some (isoformat future +:+ "Z")) 50 ;;
           ret result) h tr) by reflexivity.
      rewrite Hstep, events_tool_passthrough.
      eapply events_envelope_kept; [reflexivity |].
      unfold client_block. rewrite E. reflexivity.
    + do 2 eexists. split; [reflexivity |]. unfold boundary_kept, client_block.
      rewrite E. split; [exists false; reflexivity |]. split; [reflexivity |].
      split; [intros _; left; reflexivity |].
      intros e' tr'' H. inversion H; subst. repeat split; reflexivity.
    + exfalso. apply Hfuel. reflexivity.
Qed.

(** ** C2 *)

(** C2, as the claim states it, fails for [createMeetingEvent]: when the
    provider refuses the insert request, the fault is caught and the tool
    returns an envelope with [success: false] and a [message], but without
    an [error] field. *)
Lemma C2_counterexample_create_failure_has_no_error :
  exists tr',
    client_block (sample_world (failing_provider 500)) sample_config 1
      (CreateMeetEvent "Standup" "2024-12-25T10:00:00" "2024-12-25T11:00:00" ""
         None "UTC" "primary") [] =
    (Raise (HttpError (Some 500) "<HttpError 500>"), tr') /\
    call_tool (sample_world (failing_provider 500)) sample_config 1
      (CreateMeetEvent "Standup" "2024-12-25T10:00:00" "2024-12-25T11:00:00" ""
         None "UTC" "primary") [] =
    (Return (VDict [("success", VBool false); ("message", VStr "Failed to create event")]),
     tr') /\
    has_field "error"
      (VDict [("success", VBool false); ("message", VStr "Failed to create event")]) = false.
Proof. eexists. vm_compute. repeat split; reflexivity. Qed.

(** A tool does not finish only when it is [listCalendars] and the
    Client's pagination has not ended within the bound on the loop. *)
Lemma call_tool_unfinished (w : world) (cfg : config) (fuel : nat) (t : tool_call)
    (tr tr' : list call) :
  call_tool w cfg fuel t tr = (OutOfFuel, tr') ->
  t = GetAllCalendars /\ client_block w cfg fuel t tr = (OutOfFuel, tr').
Proof.
  intros Hout.
  destruct (call_tool_boundary w cfg fuel t tr)
    as [(envelope & tr1 & Hcall & _) | [-> _]].
  - rewrite Hcall in Hout. discriminate Hout.
  - split; [reflexivity |]. revert Hout. simpl call_tool.
    unfold get_all_calendars, client_block, try_except, bind.
    destruct (GoogleCalendarTools.get_all_calendars _ _ _ _ _) as [[calendars | e |] tr1];
      try discriminate.
    intros H. exact H.
Qed.

(** C2, amended. Every fault raised by the Broker or the Client during a
    tool invocation is caught: the tool returns, at the trace where the
    fault was raised, an envelope with [success: false] and a [message],
    and with an [error] field for every tool but [createMeetingEvent],
    whose failure envelope holds [success] and [message] only.  No tool
    ever lets an exception cross its boundary; whatever envelope a tool
    returns has a boolean [success] and a [message]; and the only
    invocation that does not return an envelope is a [listCalendars] whose
    pagination has not ended within the bound on the loop. *)
Theorem C2_tool_boundary_converts_faults
    (w : world) (cfg : config) (fuel : nat) (t : tool_call) (tr : list call) :
  (forall e tr'',
     client_block w cfg fuel t tr = (Raise e, tr'') ->
     exists envelope,
       call_tool w cfg fuel t tr = (Return envelope, tr'') /\
       field "success" envelope = Some (VBool false) /\
       has_field "message" envelope = true /\
       has_field "error" envelope = negb (is_create_meet_event t)) /\
  (forall e tr', call_tool w cfg fuel t tr <> (Raise e, tr')) /\
  (forall envelope tr',
     call_tool w cfg fuel t tr = (Return envelope, tr') ->
     (exists b, field "success" envelope = Some (VBool b)) /\
     has_field "message" envelope = true /\
     (field "success" envelope = Some (VBool false) ->
      has_field "error" envelope = true \/ is_create_meet_event t = true)) /\
  (forall tr',
     call_tool w cfg fuel t tr = (OutOfFuel, tr') ->
     t = GetAllCalendars /\ client_block w cfg fuel t tr = (OutOfFuel, tr')).
Proof.
  split; [| split; [| split]].
  - intros e tr'' Hblock.
    destruct (call_tool_boundary w cfg fuel t tr)
      as [(envelope & tr' & Hcall & _ & Hmessage & _ & Hfault) | [_ (tr' & Hout)]].
    + destruct (Hfault e tr'' Hblock) as (-> & Hsuccess & Herror).
      exists envelope. split; [exact Hcall |]. split; [exact Hsuccess |].
      split; [exact Hmessage | exact Herror].
    + destruct (call_tool_unfinished w cfg fuel t tr tr' Hout) as [_ Hunfinished].
      rewrite Hblock in Hunfinished. discriminate Hunfinished.
  - intros e tr' Hraise.
    destruct (call_tool_boundary w cfg fuel t tr)
      as [(envelope & tr1 & Hcall & _) | [_ (tr1 & Hout)]].
    + rewrite Hcall in Hraise. discriminate Hraise.
    + rewrite Hout in Hraise. discriminate Hraise.
  - intros envelope tr' Hreturn.
    destruct (call_tool_boundary w cfg fuel t tr)
      as [(envelope1 & tr1 & Hcall & Hsuccess & Hmessage & Herror & _) | [_ (tr1 & Hout)]].
    + rewrite Hcall in Hreturn. inversion Hreturn; subst envelope1 tr1.
      split; [exact Hsuccess |]. split; [exact Hmessage | exact Herror].
    + rewrite Hout in Hreturn. discriminate Hreturn.
  - intros tr'. apply call_tool_unfinished.
Qed.

Lemma C2_witness :
  exists envelope,
    call_tool (sample_world (failing_provider 500)) sample_config 1 GetAllCalendars [] =
    (Return envelope, [sample_vault_request; page_request VNone]) /\
    field "success" envelope = Some (VBool false) /\
    has_field "message" envelope = true /\
    has_field "error" envelope = negb (is_create_meet_event GetAllCalendars).
Proof.
  destruct (C2_tool_boundary_converts_faults (sample_world (failing_provider 500))
              sample_config 1 GetAllCalendars []) as [Hfault _].
  apply (Hfault (HttpError (Some 500) "<HttpError 500>")).
  vm_compute. reflexivity.
Defined.

(** ** C4 *)

Lemma client_block_unconfigured (w : world) (cfg : config) (fuel : nat) (t : tool_call)
    (tr : list call) :
  vault_configured w = false ->
  exists e, client_block w cfg fuel t tr = (Raise e, tr).
Proof.
  intros Hc.
  pose proof (authenticate_unconfigured w (NANGO_CONNECTION_ID cfg) (NANGO_INTEGRATION_ID cfg))
    as Ha.
  destruct t; unfold client_block.
  - eexists. apply bind_raise. unfold GoogleCalendarTools.get_all_calendars.
    rewrite (try_except_raise _ _ tr tr
               (ValueError "NANGO_NANGO_BASE_URL and NANGO_NANGO_SECRET_KEY must be set"));
      [reflexivity |].
    apply bind_raise. apply Ha, Hc.
  - eexists. apply bind_raise. apply Ha, Hc.
  - eexists. apply bind_raise. apply Ha, Hc.
  - eexists. apply bind_raise. apply Ha, Hc.
  - eexists. apply bind_raise. apply Ha, Hc.
  - destruct (add_days (now w) days_ahead) as [future | e |] eqn:E.
    + eexists. unfold bind at 1, lift at 1. apply bind_raise. apply Ha, Hc.
    + exists e. reflexivity.
    + exfalso. eapply add_days_not_out_of_fuel, E.
Qed.

(** Without the vault's settings every tool answers with a failure
    envelope and makes no call. *)
Lemma call_tool_unconfigured (w : world) (cfg : config) (fuel : nat) (t : tool_call)
    (tr : list call) :
  vault_configured w = false ->
  exists envelope,
    call_tool w cfg fuel t tr = (Return envelope, tr) /\
    field "success" envelope = Some (VBool false).
Proof.
  intros Hc.
  destruct (client_block_unconfigured w cfg fuel t tr Hc) as (e & Hblock).
  destruct (call_tool_boundary w cfg fuel t tr)
    as [(envelope & tr' & Hcall & _ & _ & _ & Hfault) | (-> & tr' & Hout)].
  - destruct (Hfault e tr Hblock) as (-> & Hs & _).
    exists envelope. split; assumption.
  - exfalso. revert Hout. simpl call_tool. unfold get_all_calendars.
    unfold client_block in Hblock. unfold bind in Hblock. unfold try_except, bind.
    destruct (GoogleCalendarTools.get_all_calendars _ _ _ _ _) as [[calendars | e' |] tr1];
      discriminate.
Qed.

(** C4, as the claim states it, fails: with both vault settings absent the
    module loads, and a tool call is served (it is answered with a failure
    envelope, no call having been made). *)
Lemma C4_counterexample_vault_settings_not_checked_at_startup :
  environ vaultless_world !! "NANGO_NANGO_BASE_URL" = None /\
  environ vaultless_world !! "NANGO_NANGO_SECRET_KEY" = None /\
  module_startup vaultless_world = Return sample_config /\
  run vaultless_world 1 GetAllCalendars =
  (Return (VDict [("success", VBool false);
                  ("error", VStr "NANGO_NANGO_BASE_URL and NANGO_NANGO_SECRET_KEY must be set");
                  ("message", VStr "Failed to retrieve calendars")]),
   []).
Proof. vm_compute. repeat split; reflexivity. Qed.

(** C4, amended. If the connection identifier or the integration
    identifier is absent (or empty), loading the module raises and no tool
    call is served.  If both are present and the vault base URL or the
    vault secret key is absent (or empty), the module loads all the same;
    every tool call is then served and answered with a failure envelope,
    without any remote call. *)
Theorem C4_startup_checks_identifiers_only (w : world) :
  (identifiers_configured w = false ->
   (exists message, module_startup w = Raise (ValueError message)) /\
   (forall fuel t, exists e, run w fuel t = (Raise e, []))) /\
  (identifiers_configured w = true ->
   vault_configured w = false ->
   (exists cfg, module_startup w = Return cfg) /\
   (forall fuel t,
      exists envelope,
        run w fuel t = (Return envelope, []) /\
        field "success" envelope = Some (VBool false))).
Proof.
  unfold identifiers_configured, run, module_startup. split.
  - intros H.
    destruct (truthy_opt (environ w !! "NANGO_CONNECTION_ID")); simpl in H |- *.
    + rewrite H. simpl. split; [eexists; reflexivity |]. intros; eexists; reflexivity.
    + split; [eexists; reflexivity |]. intros; eexists; reflexivity.
  - intros H Hv. apply andb_prop in H as [Hc Hi]. rewrite Hc, Hi. simpl.
    split; [eexists; reflexivity |].
    intros fuel t. apply call_tool_unconfigured. exact Hv.
Qed.

Lemma C4_witness :
  ((exists message, module_startup anonymous_world = Raise (ValueError message)) /\
   (exists e, run anonymous_world 1 GetAllCalendars = (Raise e, []))) /\
  ((exists cfg, module_startup vaultless_world = Return cfg) /\
   (exists envelope,
      run vaultless_world 1 (CancelCalendarEvent "primary" "evt-1") = (Return envelope, []) /\
      field "success" envelope = Some (VBool false))).
Proof.
  split.
  - destruct (C4_startup_checks_identifiers_only anonymous_world) as [Hid _].
    destruct (Hid eq_refl) as [Hstart Hrun].
    split; [exact Hstart | exact (Hrun 1%nat GetAllCalendars)].
  - destruct (C4_startup_checks_identifiers_only vaultless_world) as [_ Hvault].
    destruct (Hvault eq_refl eq_refl) as [Hstart Hrun].
    split; [exact Hstart | exact (Hrun 1%nat (CancelCalendarEvent "primary" "evt-1"))].
Defined.

(** * Further properties

    The rest of the program, beyond the claims above: what credential
    resolution asks and gives, how each Client operation uses it, the calls
    each tool makes and never makes, and the window of the upcoming-events
    tool. *)

(** ** Vocabulary *)

(** A computation that makes no call. *)
Definition silent {A : Type} (m : M A) : Prop := forall tr, snd (m tr) = tr.

(** The credential the program builds from the entries of the vault's
    [credentials] payload. *)
Definition credentials_of_entries (data : list (string * value)) : Credentials :=
  {| token := default VNone (assoc "access_token" data);
     refresh_token := default VNone (assoc "refresh_token" data);
     token_uri := "https://oauth2.googleapis.com/token";
     client_id := default VNone (assoc "client_id" data);
     client_secret := default VNone (assoc "client_secret" data);
     scopes := SCOPES;
     expiry := None |}.

(** A vault whose answer carries the given JSON body under the given
    status. *)
Definition vault_answering (status : Z) (phrase : string) (payload : option value) : world :=
  {| environ := sample_environ;
     now := sample_now;
     utcnow := 1714727221;
     vault_reply := fun _ _ =>
       Replied {| status_code := status; reason := phrase;
                  response_url := "https://vault.example/connection/conn-1";
                  json_body := payload |};
     refresh_reply := fun _ _ => Replied refreshed_credentials;
     execute_reply := constant_provider (VDict []) |}.

(** Whether a value is a dictionary. *)
Definition is_dict (v : value) : bool :=
  match v with
  | VDict _ => true
  | _ => false
  end.

(** The [requestId] of the conference request in an event body. *)
Definition request_id (body : value) : option value :=
  match field "conferenceData" body with
  | Some conference_data =>
      match field "createRequest" conference_data with
      | Some create_request => field "requestId" create_request
      | None => None
      end
  | None => None
  end.

(** Two clock readings within the same second. *)
Definition same_second (d1 d2 : datetime) : Prop :=
  year d1 = year d2 /\ month d1 = month d2 /\ day d1 = day d2 /\
  hour d1 = hour d2 /\ minute d1 = minute d2 /\ second d1 = second d2.

(** The sample world with its clock set to [d]. *)
Definition sample_world_at (d : datetime) (provider : list call -> call -> reply value)
  : world :=
  {| environ := sample_environ;
     now := d;
     utcnow := 1714727221;
     vault_reply := fun _ _ => Replied sample_vault_response;
     refresh_reply := fun _ _ => Failed (PyError "RefreshError" "invalid_grant");
     execute_reply := provider |}.

(** The envelopes of the [create_meet_event] tool. *)
Definition create_success (event : value) : value :=
  VDict [("success", VBool true); ("event", event);
         ("message", VStr "Event created successfully")].

Definition create_failure : value :=
  VDict [("success", VBool false); ("message", VStr "Failed to create event")].

(** The provider, asked from the trace [tr] with [page_token], serves the
    pages [pages], each with a continuation token, and then fails the
    request that follows the last of them, raising [e]. *)
Fixpoint serves_then_fails (w : world) (tr : list call) (page_token : value)
    (pages : list (list value * value)) (e : exn) : Prop :=
  match pages with
  | [] => execute_reply w tr (page_request page_token) = Failed e
  | (items, next) :: rest =>
      (exists response,
         execute_reply w tr (page_request page_token) = Replied response /\
         is_page response items next) /\
      truthy next = true /\
      serves_then_fails w (tr ++ [page_request page_token]) next rest e
  end.

(** The requests made for [pages] and the one that fails after them. *)
Fixpoint requests_until_failure (page_token : value) (pages : list (list value * value))
  : list call :=
  match pages with
  | [] => [page_request page_token]
  | (_, next) :: rest => page_request page_token :: requests_until_failure next rest
  end.

(** A provider that serves one page of calendars and is unavailable when
    asked for the page after it. *)
Definition breaking_provider : list call -> call -> reply value :=
  fun _ c =>
    match c with
    | CalendarListList request_params =>
        match assoc "pageToken" request_params with
        | None =>
            Replied (VDict [("items", VList [VDict [("id", VStr "work")]]);
                            ("nextPageToken", VStr "token-1")])
        | Some _ => Failed (HttpError (Some 503) "<HttpError 503>")
        end
    | _ => Failed (HttpError (Some 404) "<HttpError 404>")
    end.

(** The success envelope of the [get_all_calendars] tool. *)
Definition calendars_success (calendars : list value) : value :=
  VDict [("success", VBool true);
         ("calendars", VList calendars);
         ("total_calendars", VInt (Z.of_nat (length calendars)));
         ("message", VStr ("Retrieved " +:+ str_int (Z.of_nat (length calendars)) +:+
                           " calendars successfully"))].

(** Whether a call is a page request of [get_all_calendars]. *)
Definition is_page_request (c : call) : bool :=
  match c with
  | CalendarListList _ => true
  | _ => false
  end.

(** The requests to the calendar provider that belong to a tool: page
    requests for [listCalendars], the events list for the three query tools
    on events, the insert for [createMeetingEvent], and for [cancelEvent]
    the delete of the event it was asked to cancel. *)
Definition own_request (t : tool_call) (c : call) : bool :=
  match t, c with
  | GetAllCalendars, CalendarListList _ => true
  | GetCalendarEvents _ _ _ _, EventsList _ => true
  | GetTodayEvents _, EventsList _ => true
  | GetUpcomingEvents _ _, EventsList _ => true
  | CreateMeetEvent _ _ _ _ _ _ _, EventsInsert _ _ _ _ => true
  | CancelCalendarEvent calendar_id event_id, EventsDelete calendar_id' event_id' _ =>
      String.eqb calendar_id calendar_id' && String.eqb event_id event_id'
  | _, _ => false
  end.

Definition is_list_calendars (t : tool_call) : bool :=
  match t with
  | GetAllCalendars => true
  | _ => false
  end.

(** A tool invocation gets as far as credential resolution: all do, but for
    an upcoming-events request whose date arithmetic overflows. *)
Definition reaches_resolution (w : world) (t : tool_call) : Prop :=
  match t with
  | GetUpcomingEvents days_ahead _ => exists future, add_days (now w) days_ahead = Return future
  | _ => True
  end.

(** ** Computations that make no call *)

Lemma silent_ret {A : Type} (a : A) : silent (ret a).
Proof. intros tr. reflexivity. Qed.

Lemma silent_raise {A : Type} (e : exn) : silent (@raise A e).
Proof. intros tr. reflexivity. Qed.

Lemma silent_lift {A : Type} (o : outcome A) : silent (lift o).
Proof. intros tr. reflexivity. Qed.

Lemma silent_bind {A B : Type} (m : M A) (k : A -> M B) :
  silent m -> (forall a, silent (k a)) -> silent (bind m k).
Proof.
  intros Hm Hk tr. unfold bind. specialize (Hm tr).
  destruct (m tr) as [[a | e |] tr1]; simpl in Hm; subst tr1; [apply Hk | |]; reflexivity.
Qed.

Lemma silent_try_except {A : Type} (body : M A) (h : exn -> M A) :
  silent body -> (forall e, silent (h e)) -> silent (try_except body h).
Proof.
  intros Hb Hh tr. unfold try_except. specialize (Hb tr).
  destruct (body tr) as [[a | e |] tr1]; simpl in Hb; subst tr1; [| apply Hh |]; reflexivity.
Qed.

(** A handler that makes no call leaves the trace of the block as it is. *)
Lemma try_except_trace {A : Type} (body : M A) (h : exn -> M A) (tr : list call) :
  (forall e, silent (h e)) -> snd (try_except body h tr) = snd (body tr).
Proof.
  intros Hh. unfold try_except.
  destruct (body tr) as [[a | e |] tr1]; [| apply Hh |]; reflexivity.
Qed.

Lemma decode_silent (response : http_response) :
  silent (bind (GoogleCalendarAuth.raise_for_status response)
               (fun _ => GoogleCalendarAuth.response_json response)).
Proof.
  apply silent_bind.
  - unfold GoogleCalendarAuth.raise_for_status.
    repeat (destruct (_ && _)); first [apply silent_raise | apply silent_ret].
  - intros _. unfold GoogleCalendarAuth.response_json.
    destruct (json_body response); [apply silent_ret | apply silent_raise].
Qed.

Lemma make_credentials_silent (credentials_data : value) :
  silent (GoogleCalendarAuth.make_credentials credentials_data).
Proof.
  unfold GoogleCalendarAuth.make_credentials.
  repeat (apply silent_bind; [apply silent_lift | intros ?]). apply silent_ret.
Qed.

(** On the credential the program constructs, the refresh step makes no
    call: it hands the credential on, or raises for want of a token. *)
Lemma refresh_of_constructed (w : world) (credentials_data : value) (creds : Credentials)
    (tr tr1 tr2 : list call) :
  GoogleCalendarAuth.make_credentials credentials_data tr = (Return creds, tr1) ->
  GoogleCalendarAuth.refresh_if_needed w creds tr2 =
  (match token creds with
   | VNone => Raise (Exception "Invalid credentials and no refresh token available")
   | _ => Return creds
   end, tr2).
Proof.
  intros Hm. pose proof (make_credentials_not_expired w _ _ _ _ Hm) as He.
  unfold GoogleCalendarAuth.refresh_if_needed, GoogleCalendarAuth.valid. rewrite He.
  destruct (token creds); reflexivity.
Qed.

Lemma service_of_response_silent (w : world) (nango_response : value) :
  silent (service_of_response w nango_response).
Proof.
  intros tr. unfold service_of_response.
  unfold bind at 1. unfold lift at 1.
  destruct (py_get nango_response "credentials" (VDict [])) as [data | e |]; try reflexivity.
  unfold bind at 1.
  pose proof (make_credentials_silent data tr) as Hs.
  destruct (GoogleCalendarAuth.make_credentials data tr) as [[creds | e |] tr1] eqn:Em;
    simpl in Hs; subst tr1; try reflexivity.
  unfold bind. rewrite (refresh_of_constructed w data creds tr tr tr Em).
  destruct (token creds); reflexivity.
Qed.

(** ** Credential resolution *)

(** The calls of credential resolution. *)
Lemma authenticate_trace
    (w : world) (connection_id provider_config_key : string) (tr : list call) :
  snd (GoogleCalendarAuth.authenticate_google_calendar w connection_id provider_config_key tr) =
  tr ++ (if vault_configured w then [vault_request w connection_id provider_config_key]
         else []).
Proof.
  destruct (vault_configured w) eqn:Hc.
  - rewrite authenticate_unfold.
    unfold vault_configured in Hc. apply andb_prop in Hc as [Hb Hs].
    unfold GoogleCalendarAuth.get_connection_credentials. rewrite Hb, Hs.
    simpl negb. simpl orb. cbv iota.
    fold (vault_request w connection_id provider_config_key).
    set (c := vault_request w connection_id provider_config_key).
    unfold bind at 1. unfold bind at 1. unfold invoke.
    destruct (outcome_of_reply _) as [response | e |]; try reflexivity.
    pose proof (silent_bind _ _ (decode_silent response) (service_of_response_silent w)
                  (tr ++ [c])) as Hs'.
    unfold bind in Hs' at 1. exact Hs'.
  - rewrite (authenticate_unconfigured w connection_id provider_config_key tr Hc).
    simpl. rewrite app_nil_r. reflexivity.
Qed.

(** X1. Credential resolution asks the vault once when the vault is
    configured and makes no call when it is not: whatever the vault
    answers, it never invokes the refresh exchange and never reaches the
    calendar provider. *)
Theorem X1_resolution_asks_the_vault_once
    (w : world) (connection_id provider_config_key : string) (tr : list call) :
  snd (GoogleCalendarAuth.authenticate_google_calendar w connection_id provider_config_key tr) =
  tr ++ (if vault_configured w then [vault_request w connection_id provider_config_key]
         else []).
Proof. apply authenticate_trace. Qed.

Lemma raise_for_status_passes (w : world) (response : http_response) (tr : list call) :
  status_code response < 400 \/ 600 <= status_code response ->
  GoogleCalendarAuth.raise_for_status response tr = (Return tt, tr).
Proof.
  intros H. unfold GoogleCalendarAuth.raise_for_status. cbv zeta.
  replace ((400 <=? status_code response) && (status_code response <? 500)) with false
    by (symmetry; apply andb_false_iff; destruct H; [left; lia | right; lia]).
  replace ((500 <=? status_code response) && (status_code response <? 600)) with false
    by (symmetry; apply andb_false_iff; destruct H; [left; lia | right; lia]).
  reflexivity.
Qed.

Lemma raise_for_status_raises (response : http_response) (tr : list call) :
  400 <= status_code response < 600 ->
  exists text,
    GoogleCalendarAuth.raise_for_status response tr = (Raise (PyError "HTTPError" text), tr).
Proof.
  intros H. unfold GoogleCalendarAuth.raise_for_status. cbv zeta.
  destruct (Z.ltb_spec (status_code response) 500) as [Hlt | Hge].
  - replace (400 <=? status_code response) with true by (symmetry; lia).
    eexists. reflexivity.
  - replace (status_code response <? 500) with false by (symmetry; lia).
    rewrite andb_false_r.
    replace (500 <=? status_code response) with true by (symmetry; lia).
    replace (status_code response <? 600) with true by (symmetry; lia).
    eexists. reflexivity.
Qed.

(** What resolution does once the vault's settings are read: the vault
    request, then the decoding of its answer, then the construction. *)
Lemma authenticate_after_vault (w : world) (connection_id provider_config_key : string)
    (tr : list call) :
  vault_configured w = true ->
  GoogleCalendarAuth.authenticate_google_calendar w connection_id provider_config_key tr =
  bind (invoke (vault_request w connection_id provider_config_key) (vault_reply w))
       (fun response =>
          bind (bind (GoogleCalendarAuth.raise_for_status response)
                     (fun _ => GoogleCalendarAuth.response_json response))
               (service_of_response w)) tr.
Proof.
  intros Hc. rewrite authenticate_unfold.
  unfold vault_configured in Hc. apply andb_prop in Hc as [Hb Hs].
  unfold GoogleCalendarAuth.get_connection_credentials. rewrite Hb, Hs.
  simpl negb. simpl orb. cbv iota.
  fold (vault_request w connection_id provider_config_key).
  unfold bind, invoke.
  destruct (outcome_of_reply _) as [response | e |]; reflexivity.
Qed.

(** X2. When the vault answers outside the 4xx and 5xx statuses with a JSON
    object whose [credentials] is an object, resolution succeeds exactly
    when that object holds an [access_token] other than [None]: it then
    returns a service on the credential made of the vault's four fields,
    the fixed token endpoint and the calendar scope.  Without an access
    token it raises "Invalid credentials and no refresh token available",
    whether or not a refresh token was supplied.  Either way the vault
    request is its only call. *)
Theorem X2_resolution_needs_an_access_token
    (w : world) (connection_id provider_config_key : string) (tr : list call)
    (response : http_response) (payload : value) (data : list (string * value)) :
  vault_configured w = true ->
  vault_reply w tr (vault_request w connection_id provider_config_key) = Replied response ->
  status_code response < 400 \/ 600 <= status_code response ->
  json_body response = Some payload ->
  py_get payload "credentials" (VDict []) = Return (VDict data) ->
  GoogleCalendarAuth.authenticate_google_calendar w connection_id provider_config_key tr =
  (match default VNone (assoc "access_token" data) with
   | VNone => Raise (Exception "Invalid credentials and no refresh token available")
   | _ => Return (GoogleCalendarAuth.build (credentials_of_entries data))
   end,
   tr ++ [vault_request w connection_id provider_config_key]).
Proof.
  intros Hc Hr Hstatus Hbody Hdata.
  rewrite (authenticate_after_vault w connection_id provider_config_key tr Hc).
  unfold bind at 1. unfold invoke. rewrite Hr. simpl outcome_of_reply.
  unfold bind at 1. unfold bind at 1.
  rewrite (raise_for_status_passes w response _ Hstatus).
  unfold GoogleCalendarAuth.response_json. rewrite Hbody. unfold ret at 1.
  unfold service_of_response. unfold bind at 1. unfold lift at 1. rewrite Hdata.
  unfold bind at 1.
  change (GoogleCalendarAuth.make_credentials (VDict data)
            (tr ++ [vault_request w connection_id provider_config_key]))
    with (Return (credentials_of_entries data),
          tr ++ [vault_request w connection_id provider_config_key]).
  unfold bind.
  rewrite (refresh_of_constructed w (VDict data) (credentials_of_entries data) tr tr
             (tr ++ [vault_request w connection_id provider_config_key]) eq_refl).
  change (token (credentials_of_entries data))
    with (default VNone (assoc "access_token" data)).
  destruct (default VNone (assoc "access_token" data)); reflexivity.
Qed.

Lemma X2_witness :
  GoogleCalendarAuth.authenticate_google_calendar
    (vault_answering 200 "OK"
       (Some (VDict [("credentials", VDict [("refresh_token", VStr "1//refresh");
                                            ("client_id", VStr "client");
                                            ("client_secret", VStr "secret")])])))
    "conn-1" "google-calendar" [] =
  (Raise (Exception "Invalid credentials and no refresh token available"),
   [] ++ [sample_vault_request]).
Proof.
  apply (X2_resolution_needs_an_access_token
           (vault_answering 200 "OK"
              (Some (VDict [("credentials", VDict [("refresh_token", VStr "1//refresh");
                                                   ("client_id", VStr "client");
                                                   ("client_secret", VStr "secret")])])))
           "conn-1" "google-calendar" []
           {| status_code := 200; reason := "OK";
              response_url := "https://vault.example/connection/conn-1";
              json_body := Some (VDict [("credentials",
                                         VDict [("refresh_token", VStr "1//refresh");
                                                ("client_id", VStr "client");
                                                ("client_secret", VStr "secret")])]) |}
           (VDict [("credentials", VDict [("refresh_token", VStr "1//refresh");
                                          ("client_id", VStr "client");
                                          ("client_secret", VStr "secret")])])
           [("refresh_token", VStr "1//refresh"); ("client_id", VStr "client");
            ("client_secret", VStr "secret")]).
  - vm_compute. reflexivity.
  - reflexivity.
  - left. simpl. lia.
  - reflexivity.
  - reflexivity.
Defined.

(** X3. When the vault answers with a 4xx or 5xx status, resolution raises
    the [HTTPError] of [raise_for_status] right after the vault request,
    without reading the body. *)
Theorem X3_vault_error_status_raises
    (w : world) (connection_id provider_config_key : string) (tr : list call)
    (response : http_response) :
  vault_configured w = true ->
  vault_reply w tr (vault_request w connection_id provider_config_key) = Replied response ->
  400 <= status_code response < 600 ->
  exists text,
    GoogleCalendarAuth.authenticate_google_calendar w connection_id provider_config_key tr =
    (Raise (PyError "HTTPError" text),
     tr ++ [vault_request w connection_id provider_config_key]).
Proof.
  intros Hc Hr Hstatus.
  destruct (raise_for_status_raises response
              (tr ++ [vault_request w connection_id provider_config_key]) Hstatus)
    as (text & Hraise).
  exists text.
  rewrite (authenticate_after_vault w connection_id provider_config_key tr Hc).
  unfold bind at 1. unfold invoke. rewrite Hr. simpl outcome_of_reply.
  apply bind_raise. apply bind_raise. exact Hraise.
Qed.

Lemma X3_witness :
  exists text,
    GoogleCalendarAuth.authenticate_google_calendar
      (vault_answering 401 "Unauthorized" (Some (VDict []))) "conn-1" "google-calendar" [] =
    (Raise (PyError "HTTPError" text), [] ++ [sample_vault_request]).
Proof.
  apply (X3_vault_error_status_raises
           (vault_answering 401 "Unauthorized" (Some (VDict []))) "conn-1" "google-calendar" []
           {| status_code := 401; reason := "Unauthorized";
              response_url := "https://vault.example/connection/conn-1";
              json_body := Some (VDict []) |}).
  - vm_compute. reflexivity.
  - reflexivity.
  - simpl. lia.
Defined.

(** ** The Client operations after credential resolution *)

(** X4. When credential resolution fails, no Client operation goes on to
    the calendar provider: [get_all_calendars] raises the same exception,
    [get_calendar_events] and [cancel_calendar_event] return their failure
    envelope for it, and [create_meet_event] returns [None], each leaving
    the trace as resolution left it.  An exception that is not the
    provider's [HttpError] is reported as ["unexpected_error"]. *)
Theorem X4_failed_resolution_stops_every_operation
    (w : world) (connection_id provider_config_key : string) (tr tr1 : list call) (e : exn) :
  GoogleCalendarAuth.authenticate_google_calendar w connection_id provider_config_key tr =
  (Raise e, tr1) ->
  (forall fuel,
     GoogleCalendarTools.get_all_calendars w fuel connection_id provider_config_key tr =
     (Raise e, tr1)) /\
  (forall calendar_id time_min time_max max_results,
     GoogleCalendarTools.get_calendar_events w connection_id provider_config_key calendar_id
       time_min time_max max_results tr =
     (Return (events_failure calendar_id e), tr1)) /\
  (forall summary start_datetime end_datetime description attendees timezone calendar_id,
     GoogleCalendarTools.create_meet_event w connection_id provider_config_key summary
       start_datetime end_datetime description attendees timezone calendar_id tr =
     (Return VNone, tr1)) /\
  (forall calendar_id event_id,
     exists message,
       GoogleCalendarTools.cancel_calendar_event w connection_id provider_config_key
         calendar_id event_id tr =
       (Return (cancel_failure event_id message (cancel_error_kind e)), tr1)) /\
  (forall cls text calendar_id,
     e = PyError cls text ->
     field "error" (events_failure calendar_id e) = Some (VStr "unexpected_error") /\
     cancel_error_kind e = "unexpected_error").
Proof.
  intros Ha. split; [| split; [| split; [| split]]].
  - intros fuel. unfold GoogleCalendarTools.get_all_calendars.
    rewrite (try_except_raise _ _ tr tr1 e); [destruct e; reflexivity |].
    apply bind_raise. exact Ha.
  - intros calendar_id time_min time_max max_results.
    rewrite get_calendar_events_handled.
    unfold GoogleCalendarTools.get_calendar_events_body.
    rewrite (bind_raise _ _ _ _ _ Ha). reflexivity.
  - intros summary start_datetime end_datetime description attendees timezone calendar_id.
    unfold GoogleCalendarTools.create_meet_event, GoogleCalendarTools.create_meet_event_body.
    rewrite (try_except_raise _ _ tr tr1 e); [destruct e; reflexivity |].
    apply bind_raise. exact Ha.
  - intros calendar_id event_id.
    destruct (cancel_calendar_event_returns w connection_id provider_config_key calendar_id
                event_id tr)
      as (envelope & tr' & Hop & [(Hbody & _) | (e' & message & Hbody & ->)]);
      unfold GoogleCalendarTools.cancel_calendar_event_body in Hbody;
      rewrite (bind_raise _ _ _ _ _ Ha) in Hbody; inversion Hbody; subst.
    exists message. exact Hop.
  - intros cls text calendar_id ->. split; reflexivity.
Qed.

Lemma X4_witness :
  GoogleCalendarTools.get_calendar_events vaultless_world "conn-1" "google-calendar"
    "primary" None None 10 [] =
  (Return (events_failure "primary"
             (ValueError "NANGO_NANGO_BASE_URL and NANGO_NANGO_SECRET_KEY must be set")),
   []) /\
  GoogleCalendarTools.create_meet_event vaultless_world "conn-1" "google-calendar" "Standup"
    "2024-12-25T10:00:00" "2024-12-25T11:00:00" "" None "UTC" "primary" [] =
  (Return VNone, []).
Proof.
  destruct (X4_failed_resolution_stops_every_operation vaultless_world
              "conn-1" "google-calendar" [] []
              (ValueError "NANGO_NANGO_BASE_URL and NANGO_NANGO_SECRET_KEY must be set")
              eq_refl)
    as (_ & Hevents & Hcreate & _).
  split; [apply Hevents | apply Hcreate].
Defined.

Lemma invoke_then_silent {A B : Type} (c : call) (answer : list call -> call -> reply A)
    (k : A -> M B) (tr : list call) :
  (forall a, silent (k a)) -> snd (bind (invoke c answer) k tr) = tr ++ [c].
Proof.
  intros Hk. unfold bind, invoke.
  destruct (outcome_of_reply (answer tr c)) as [a | e |]; [apply Hk | |]; reflexivity.
Qed.

(** After resolution, a continuation that always adds the calls [post]
    adds them exactly when resolution returned a service. *)
Lemma after_resolution_trace {B : Type} (w : world)
    (connection_id provider_config_key : string)
    (continuation : GoogleCalendarAuth.service -> M B) (post : list call) (tr : list call) :
  (forall svc tr1, snd (continuation svc tr1) = tr1 ++ post) ->
  snd (bind (GoogleCalendarAuth.authenticate_google_calendar w connection_id
               provider_config_key) continuation tr) =
  snd (GoogleCalendarAuth.authenticate_google_calendar w connection_id provider_config_key tr) ++
  match fst (GoogleCalendarAuth.authenticate_google_calendar w connection_id
               provider_config_key tr) with
  | Return _ => post
  | _ => []
  end.
Proof.
  intros Hk. unfold bind.
  destruct (GoogleCalendarAuth.authenticate_google_calendar _ _ _ _) as [[svc | e |] tr1];
    simpl; [apply Hk | |]; rewrite app_nil_r; reflexivity.
Qed.

Lemma format_events_silent (calendar_id : string) (events acc : list value) :
  silent (GoogleCalendarTools.format_events calendar_id events acc).
Proof.
  intros tr.
  destruct (format_events_cases calendar_id events acc tr) as [(fs & H & _) | (e & H)];
    rewrite H; reflexivity.
Qed.

(** The calls of [get_calendar_events]. *)
Lemma get_calendar_events_trace
    (w : world) (connection_id provider_config_key calendar_id : string)
    (time_min time_max : option string) (max_results : Z) (tr : list call) :
  snd (GoogleCalendarTools.get_calendar_events w connection_id provider_config_key
         calendar_id time_min time_max max_results tr) =
  snd (GoogleCalendarAuth.authenticate_google_calendar w connection_id provider_config_key tr) ++
  match fst (GoogleCalendarAuth.authenticate_google_calendar w connection_id
               provider_config_key tr) with
  | Return _ =>
      [EventsList (GoogleCalendarTools.events_list_params calendar_id time_min time_max
                     max_results)]
  | _ => []
  end.
Proof.
  unfold GoogleCalendarTools.get_calendar_events.
  rewrite try_except_trace by (intros e; destruct e; apply silent_ret).
  unfold GoogleCalendarTools.get_calendar_events_body.
  apply after_resolution_trace. intros svc tr1.
  apply invoke_then_silent. intros events_result.
  repeat (apply silent_bind; [apply silent_lift | intros ?]).
  apply silent_bind; [apply format_events_silent | intros ?; apply silent_ret].
Qed.

(** X5. [get_calendar_events] builds one events-list request and invokes
    its [.execute()] exactly once when credentials resolve, and not at all
    otherwise: the program does not invoke it again, whatever it gives (a
    continuation token in the answer is not followed; what the client
    library does inside [.execute()] is not counted).  The request asks for
    expanded single events ordered by start time, passes [max_results] on
    as it is, and carries [timeMin] / [timeMax] only for bounds that are
    given and not empty. *)
Theorem X5_list_events_executes_one_request
    (w : world) (connection_id provider_config_key calendar_id : string)
    (time_min time_max : option string) (max_results : Z) (tr : list call) :
  snd (GoogleCalendarTools.get_calendar_events w connection_id provider_config_key
         calendar_id time_min time_max max_results tr) =
  snd (GoogleCalendarAuth.authenticate_google_calendar w connection_id provider_config_key tr) ++
  match fst (GoogleCalendarAuth.authenticate_google_calendar w connection_id
               provider_config_key tr) with
  | Return _ =>
      [EventsList (GoogleCalendarTools.events_list_params calendar_id time_min time_max
                     max_results)]
  | _ => []
  end /\
  assoc "calendarId"
    (GoogleCalendarTools.events_list_params calendar_id time_min time_max max_results) =
  Some (VStr calendar_id) /\
  assoc "maxResults"
    (GoogleCalendarTools.events_list_params calendar_id time_min time_max max_results) =
  Some (VInt max_results) /\
  assoc "singleEvents"
    (GoogleCalendarTools.events_list_params calendar_id time_min time_max max_results) =
  Some (VBool true) /\
  assoc "orderBy"
    (GoogleCalendarTools.events_list_params calendar_id time_min time_max max_results) =
  Some (VStr "startTime") /\
  assoc "timeMin"
    (GoogleCalendarTools.events_list_params calendar_id time_min time_max max_results) =
  (if truthy_opt time_min then VStr <$> time_min else None) /\
  assoc "timeMax"
    (GoogleCalendarTools.events_list_params calendar_id time_min time_max max_results) =
  (if truthy_opt time_max then VStr <$> time_max else None).
Proof.
  split.
  - apply get_calendar_events_trace.
  - unfold GoogleCalendarTools.events_list_params, GoogleCalendarTools.optional_param.
    repeat split; try reflexivity.
    + destruct time_min as [[| c s] |]; destruct time_max as [[| c' s'] |]; reflexivity.
    + destruct time_min as [[| c s] |]; destruct time_max as [[| c' s'] |]; reflexivity.
Qed.

Lemma format_events_of_dicts (calendar_id : string) (entries : list (list (string * value))) :
  forall (acc : list value) (tr : list call),
    GoogleCalendarTools.format_events calendar_id (map VDict entries) acc tr =
    (Return (acc ++ map (format_record calendar_id) entries), tr).
Proof.
  induction entries as [| item rest IH]; intros acc tr; simpl.
  - rewrite app_nil_r. reflexivity.
  - rewrite (bind_return _ _ _ _ _ (format_event_dict calendar_id item tr)).
    rewrite IH, <- app_assoc. reflexivity.
Qed.

Lemma format_events_of_malformed (calendar_id : string) (events : list value) :
  Exists (fun event => is_dict event = false) events ->
  forall (acc : list value) (tr : list call),
    exists text,
      GoogleCalendarTools.format_events calendar_id events acc tr =
      (Raise (AttributeError text), tr).
Proof.
  induction 1 as [event rest Hbad | event rest Hrest IH]; intros acc tr; simpl.
  - destruct event; try discriminate Hbad; eexists; reflexivity.
  - destruct (format_event_cases calendar_id event tr) as [(f & Hf & _) | (e & He)].
    + rewrite (bind_return _ _ _ _ _ Hf). apply IH.
    + destruct event; try (eexists; reflexivity).
      rewrite format_event_dict in He. discriminate He.
Qed.

(** X6. When credentials resolve and the provider answers the list request
    with items that are all objects, [listEvents] returns the success
    envelope whose [events] are the formatted records of all of them, in
    order, and whose [total_events] is their number, whatever [max_results]
    is: the cap is the provider's to enforce, and an answer without
    [items] gives zero events. *)
Theorem X6_list_events_formats_every_item
    (w : world) (connection_id provider_config_key calendar_id : string)
    (time_min time_max : option string) (max_results : Z)
    (tr tr1 : list call) (svc : GoogleCalendarAuth.service)
    (response : value) (entries : list (list (string * value))) :
  GoogleCalendarAuth.authenticate_google_calendar w connection_id provider_config_key tr =
  (Return svc, tr1) ->
  execute_reply w tr1
    (EventsList (GoogleCalendarTools.events_list_params calendar_id time_min time_max
                   max_results)) = Replied response ->
  py_get response "items" (VList []) = Return (VList (map VDict entries)) ->
  GoogleCalendarTools.get_calendar_events w connection_id provider_config_key calendar_id
    time_min time_max max_results tr =
  (Return (events_success calendar_id (map (format_record calendar_id) entries)),
   tr1 ++ [EventsList (GoogleCalendarTools.events_list_params calendar_id time_min time_max
                         max_results)]) /\
  field "total_events" (events_success calendar_id (map (format_record calendar_id) entries)) =
  Some (VInt (Z.of_nat (length entries))).
Proof.
  intros Ha Hr Hi. split.
  - rewrite get_calendar_events_handled.
    unfold GoogleCalendarTools.get_calendar_events_body.
    rewrite (bind_return _ _ _ _ _ Ha).
    unfold bind at 1. unfold invoke at 1. rewrite Hr. simpl outcome_of_reply.
    unfold bind at 1. unfold lift at 1. rewrite Hi.
    unfold bind at 1. unfold lift at 1. simpl py_iter.
    unfold bind at 1. rewrite format_events_of_dicts. reflexivity.
  - simpl. rewrite length_map. reflexivity.
Qed.

Lemma X6_witness :
  GoogleCalendarTools.get_calendar_events (sample_world untitled_provider)
    "conn-1" "google-calendar" "team" None None 1 [] =
  (Return (events_success "team"
             (map (format_record "team")
                  [[("id", VStr "e1"); ("summary", VStr "Review")]; [("id", VStr "e2")]])),
   [sample_vault_request] ++
   [EventsList (GoogleCalendarTools.events_list_params "team" None None 1)]) /\
  field "total_events"
    (events_success "team"
       (map (format_record "team")
            [[("id", VStr "e1"); ("summary", VStr "Review")]; [("id", VStr "e2")]])) =
  Some (VInt (Z.of_nat (length [[("id", VStr "e1"); ("summary", VStr "Review")];
                                [("id", VStr "e2")]]))).
Proof.
  apply (X6_list_events_formats_every_item (sample_world untitled_provider)
           "conn-1" "google-calendar" "team" None None 1 [] [sample_vault_request]
           sample_service
           (VDict [("items", VList [VDict [("id", VStr "e1"); ("summary", VStr "Review")];
                                    VDict [("id", VStr "e2")]])])
           [[("id", VStr "e1"); ("summary", VStr "Review")]; [("id", VStr "e2")]]).
  - apply sample_authenticate.
  - reflexivity.
  - reflexivity.
Defined.

(** X7. One item that is not an object spoils the whole answer: when the
    provider's item list holds such an item, [listEvents] returns the
    failure envelope with ["unexpected_error"] and no [events], even though
    the other items could be formatted. *)
Theorem X7_list_events_malformed_item_fails_the_call
    (w : world) (connection_id provider_config_key calendar_id : string)
    (time_min time_max : option string) (max_results : Z)
    (tr tr1 : list call) (svc : GoogleCalendarAuth.service)
    (response : value) (items : list value) :
  GoogleCalendarAuth.authenticate_google_calendar w connection_id provider_config_key tr =
  (Return svc, tr1) ->
  execute_reply w tr1
    (EventsList (GoogleCalendarTools.events_list_params calendar_id time_min time_max
                   max_results)) = Replied response ->
  py_get response "items" (VList []) = Return (VList items) ->
  Exists (fun event => is_dict event = false) items ->
  exists envelope,
    GoogleCalendarTools.get_calendar_events w connection_id provider_config_key calendar_id
      time_min time_max max_results tr =
    (Return envelope,
     tr1 ++ [EventsList (GoogleCalendarTools.events_list_params calendar_id time_min time_max
                           max_results)]) /\
    field "success" envelope = Some (VBool false) /\
    field "error" envelope = Some (VStr "unexpected_error") /\
    field "events" envelope = None.
Proof.
  intros Ha Hr Hi Hbad.
  destruct (format_events_of_malformed calendar_id items Hbad []
              (tr1 ++ [EventsList (GoogleCalendarTools.events_list_params calendar_id
                                     time_min time_max max_results)]))
    as (text & Hf).
  exists (events_failure calendar_id (AttributeError text)).
  split; [| repeat split; reflexivity].
  rewrite get_calendar_events_handled.
  unfold GoogleCalendarTools.get_calendar_events_body.
  rewrite (bind_return _ _ _ _ _ Ha).
  unfold bind at 1. unfold invoke at 1. rewrite Hr. simpl outcome_of_reply.
  unfold bind at 1. unfold lift at 1. rewrite Hi.
  unfold bind at 1. unfold lift at 1. simpl py_iter.
  unfold bind at 1. rewrite Hf. reflexivity.
Qed.

Lemma X7_witness :
  exists envelope,
    GoogleCalendarTools.get_calendar_events
      (sample_world (constant_provider
                       (VDict [("items", VList [VDict [("id", VStr "e1")]; VStr "e2"])])))
      "conn-1" "google-calendar" "team" None None 10 [] =
    (Return envelope,
     [sample_vault_request] ++
     [EventsList (GoogleCalendarTools.events_list_params "team" None None 10)]) /\
    field "success" envelope = Some (VBool false) /\
    field "error" envelope = Some (VStr "unexpected_error") /\
    field "events" envelope = None.
Proof.
  apply (X7_list_events_malformed_item_fails_the_call
           (sample_world (constant_provider
                            (VDict [("items", VList [VDict [("id", VStr "e1")]; VStr "e2"])])))
           "conn-1" "google-calendar" "team" None None 10 [] [sample_vault_request]
           sample_service
           (VDict [("items", VList [VDict [("id", VStr "e1")]; VStr "e2"])])
           [VDict [("id", VStr "e1")]; VStr "e2"]).
  - apply sample_authenticate.
  - reflexivity.
  - reflexivity.
  - apply Exists_cons_tl. apply Exists_cons_hd. reflexivity.
Defined.

(** The calls of [cancel_calendar_event]. *)
Lemma cancel_calendar_event_trace
    (w : world) (connection_id provider_config_key calendar_id event_id : string)
    (tr : list call) :
  snd (GoogleCalendarTools.cancel_calendar_event w connection_id provider_config_key
         calendar_id event_id tr) =
  snd (GoogleCalendarAuth.authenticate_google_calendar w connection_id provider_config_key tr) ++
  match fst (GoogleCalendarAuth.authenticate_google_calendar w connection_id
               provider_config_key tr) with
  | Return _ => [EventsDelete calendar_id event_id "all"]
  | _ => []
  end.
Proof.
  unfold GoogleCalendarTools.cancel_calendar_event.
  rewrite try_except_trace.
  - unfold GoogleCalendarTools.cancel_calendar_event_body.
    apply after_resolution_trace. intros svc tr1.
    apply invoke_then_silent. intros _. apply silent_ret.
  - intros [[status |] text | cls text]; cbv zeta.
    + destruct (status =? 404); [apply silent_ret |].
      destruct (status =? 403); apply silent_ret.
    + apply silent_ret.
    + apply silent_ret.
Qed.

(** X8. [cancel_calendar_event] builds one request, the delete of that
    event in that calendar with [sendUpdates='all'], and invokes its
    [.execute()] exactly once when credentials resolve, and not at all
    otherwise (what the client library does inside [.execute()] is not
    counted).  Whatever [.execute()] returns, the result is the success
    envelope; what it raises decides the failure envelope: an [HttpError]
    by its status (404, 403, any other, or none), any other exception as
    ["unexpected_error"]. *)
Theorem X8_cancel_event_executes_one_delete
    (w : world) (connection_id provider_config_key calendar_id event_id : string)
    (tr : list call) :
  snd (GoogleCalendarTools.cancel_calendar_event w connection_id provider_config_key
         calendar_id event_id tr) =
  snd (GoogleCalendarAuth.authenticate_google_calendar w connection_id provider_config_key tr) ++
  match fst (GoogleCalendarAuth.authenticate_google_calendar w connection_id
               provider_config_key tr) with
  | Return _ => [EventsDelete calendar_id event_id "all"]
  | _ => []
  end /\
  (forall svc tr1,
     GoogleCalendarAuth.authenticate_google_calendar w connection_id provider_config_key tr =
     (Return svc, tr1) ->
     fst (GoogleCalendarTools.cancel_calendar_event w connection_id provider_config_key
            calendar_id event_id tr) =
     match execute_reply w tr1 (EventsDelete calendar_id event_id "all") with
     | Replied _ => Return (cancel_success calendar_id event_id)
     | Failed (PyError cls text) =>
         Return (cancel_failure event_id ("Unexpected error occurred: " +:+ text)
                   "unexpected_error")
     | Failed (HttpError None text) =>
         Return (cancel_failure event_id ("HTTP error occurred: " +:+ text) "http_error")
     | Failed (HttpError (Some status) text) =>
         Return
           (if status =? 404 then
              cancel_failure event_id ("Event not found: " +:+ event_id) "event_not_found"
            else if status =? 403 then
              cancel_failure event_id "Insufficient permissions to cancel this event"
                "permission_denied"
            else cancel_failure event_id ("HTTP error occurred: " +:+ text) "http_error")
     end).
Proof.
  split.
  - apply cancel_calendar_event_trace.
  - intros svc tr1 Ha.
    unfold GoogleCalendarTools.cancel_calendar_event,
      GoogleCalendarTools.cancel_calendar_event_body, try_except.
    rewrite (bind_return _ _ _ _ _ Ha). unfold bind, invoke.
    destruct (execute_reply w tr1 (EventsDelete calendar_id event_id "all"))
      as [r | [[status |] text | cls text]]; try reflexivity.
    simpl. destruct (status =? 404); [reflexivity |].
    destruct (status =? 403); reflexivity.
Qed.

Lemma X8_witness :
  fst (GoogleCalendarTools.cancel_calendar_event
         (sample_world (constant_provider (VStr ""))) "conn-1" "google-calendar"
         "primary" "evt-1" []) =
  Return (cancel_success "primary" "evt-1").
Proof.
  destruct (X8_cancel_event_executes_one_delete
              (sample_world (constant_provider (VStr ""))) "conn-1" "google-calendar"
              "primary" "evt-1" []) as [_ Hresult].
  exact (Hresult sample_service [sample_vault_request]
           (sample_authenticate (constant_provider (VStr "")))).
Defined.

(** ** createMeetingEvent *)

(** X9. With a non-empty summary and resolved credentials, the
    [create_meet_event] tool builds one insert request
    ([conferenceDataVersion=1], [sendUpdates='all']), invokes its
    [.execute()] once, and answers by what that gave: the success envelope
    around the created event when it returned a true value, and the
    envelope "Failed to create event" when it raised or returned a false
    value (such as an empty object).  The program does not invoke
    [.execute()] again after a failure; what the client library does inside
    it is not counted. *)
Theorem X9_create_meet_event_outcomes
    (w : world) (cfg : config) (summary start_datetime end_datetime description : string)
    (attendees : option (list string)) (timezone calendar_id : string)
    (tr tr1 : list call) (svc : GoogleCalendarAuth.service) :
  truthy_str summary = true ->
  GoogleCalendarAuth.authenticate_google_calendar w
    (NANGO_CONNECTION_ID cfg) (NANGO_INTEGRATION_ID cfg) tr = (Return svc, tr1) ->
  create_meet_event w cfg summary start_datetime end_datetime description attendees
    timezone calendar_id tr =
  (Return
     match execute_reply w tr1
             (EventsInsert calendar_id
                (GoogleCalendarTools.meet_event_body w summary start_datetime end_datetime
                   description attendees timezone) 1 "all") with
     | Replied created_event =>
         if truthy created_event then create_success created_event else create_failure
     | Failed _ => create_failure
     end,
   tr1 ++ [EventsInsert calendar_id
             (GoogleCalendarTools.meet_event_body w summary start_datetime end_datetime
                description attendees timezone) 1 "all"]).
Proof.
  intros Hs Ha.
  unfold create_meet_event, GoogleCalendarTools.create_meet_event,
    GoogleCalendarTools.create_meet_event_body.
  unfold try_except at 1. unfold bind at 1. unfold try_except at 1.
  rewrite (bind_return _ _ _ _ _ Ha). rewrite Hs. simpl negb. cbv iota.
  unfold bind, ret, invoke.
  destruct (execute_reply w tr1 _) as [created | e]; simpl.
  - destruct (truthy created); reflexivity.
  - destruct e; reflexivity.
Qed.

Lemma X9_witness :
  create_meet_event (sample_world (constant_provider (VDict []))) sample_config
    "Standup" "2024-12-25T10:00:00" "2024-12-25T11:00:00" "" None "UTC" "primary" [] =
  (Return
     match execute_reply (sample_world (constant_provider (VDict []))) [sample_vault_request]
             (EventsInsert "primary"
                (GoogleCalendarTools.meet_event_body
                   (sample_world (constant_provider (VDict [])))
                   "Standup" "2024-12-25T10:00:00" "2024-12-25T11:00:00" "" None "UTC")
                1 "all") with
     | Replied created_event =>
         if truthy created_event then create_success created_event else create_failure
     | Failed _ => create_failure
     end,
   [sample_vault_request] ++
   [EventsInsert "primary"
      (GoogleCalendarTools.meet_event_body (sample_world (constant_provider (VDict [])))
         "Standup" "2024-12-25T10:00:00" "2024-12-25T11:00:00" "" None "UTC") 1 "all"]).
Proof.
  apply (X9_create_meet_event_outcomes (sample_world (constant_provider (VDict [])))
           sample_config "Standup" "2024-12-25T10:00:00" "2024-12-25T11:00:00" "" None
           "UTC" "primary" [] [sample_vault_request] sample_service).
  - reflexivity.
  - apply sample_authenticate.
Defined.

(** X10. The conference request of every event body carries the
    [requestId] "meet-" followed by the local clock reading down to the
    second.  It depends on nothing else: two bodies built within the same
    second carry the same [requestId], whatever their summaries, times and
    attendees. *)
Theorem X10_request_id_is_the_clock_second
    (w w' : world)
    (summary start_datetime end_datetime description : string)
    (attendees : option (list string)) (timezone : string)
    (summary' start_datetime' end_datetime' description' : string)
    (attendees' : option (list string)) (timezone' : string) :
  same_second (now w) (now w') ->
  request_id (GoogleCalendarTools.meet_event_body w summary start_datetime end_datetime
                description attendees timezone) =
  Some (VStr ("meet-" +:+ strftime_compact (now w))) /\
  request_id (GoogleCalendarTools.meet_event_body w' summary' start_datetime' end_datetime'
                description' attendees' timezone') =
  request_id (GoogleCalendarTools.meet_event_body w summary start_datetime end_datetime
                description attendees timezone).
Proof.
  intros (Hy & Hmo & Hd & Hh & Hmi & Hs).
  assert (Hid : forall v s sd ed d a tz,
    request_id (GoogleCalendarTools.meet_event_body v s sd ed d a tz) =
    Some (VStr ("meet-" +:+ strftime_compact (now v)))).
  { intros v s sd ed d a tz. destruct a as [[| e es] |]; reflexivity. }
  split; [apply Hid |].
  rewrite !Hid. unfold strftime_compact.
  rewrite Hy, Hmo, Hd, Hh, Hmi, Hs. reflexivity.
Qed.

Lemma X10_witness :
  request_id (GoogleCalendarTools.meet_event_body
                (sample_world_at (mk_datetime 2024 5 3 9 7 1 123) (constant_provider VNone))
                "Standup" "2024-05-06T10:00:00" "2024-05-06T10:15:00" "" None "UTC") =
  Some (VStr ("meet-" +:+ strftime_compact (mk_datetime 2024 5 3 9 7 1 123))) /\
  request_id (GoogleCalendarTools.meet_event_body
                (sample_world_at (mk_datetime 2024 5 3 9 7 1 999999) (constant_provider VNone))
                "Retrospective" "2024-05-10T15:00:00" "2024-05-10T16:00:00" "Sprint 12"
                (Some ["ada@example.org"]) "Europe/Paris") =
  request_id (GoogleCalendarTools.meet_event_body
                (sample_world_at (mk_datetime 2024 5 3 9 7 1 123) (constant_provider VNone))
                "Standup" "2024-05-06T10:00:00" "2024-05-06T10:15:00" "" None "UTC").
Proof.
  apply (X10_request_id_is_the_clock_second
           (sample_world_at (mk_datetime 2024 5 3 9 7 1 123) (constant_provider VNone))
           (sample_world_at (mk_datetime 2024 5 3 9 7 1 999999) (constant_provider VNone))).
  repeat split.
Defined.

(** X11. An event body lists attendees only when the tool is given a
    non-empty list: each address becomes an [email] entry, in the order
    given; with no list or an empty list the body has no [attendees] key at
    all. *)
Theorem X11_attendees_only_when_given
    (w : world) (summary start_datetime end_datetime description : string)
    (attendees : option (list string)) (timezone : string) :
  field "attendees"
    (GoogleCalendarTools.meet_event_body w summary start_datetime end_datetime description
       attendees timezone) =
  match attendees with
  | Some (first :: others) =>
      Some (VList (map (fun email => VDict [("email", VStr email)]) (first :: others)))
  | _ => None
  end.
Proof. destruct attendees as [[| first others] |]; reflexivity. Qed.

(** ** listCalendars *)

Lemma calendar_pages_serves_then_fails (w : world) (svc : GoogleCalendarAuth.service)
    (e : exn) (pages : list (list value * value)) :
  forall (fuel : nat) (page_token : value) (calendars : list value) (tr : list call),
    serves_then_fails w tr page_token pages e ->
    (length pages < fuel)%nat ->
    GoogleCalendarTools.calendar_pages w fuel svc page_token calendars tr =
    (Raise e, tr ++ requests_until_failure page_token pages).
Proof.
  induction pages as [| [items next] rest IH]; intros fuel page_token calendars tr Hs Hfuel;
    (destruct fuel as [| fuel]; [simpl in Hfuel; lia |]);
    simpl GoogleCalendarTools.calendar_pages; fold (page_request page_token).
  - simpl in Hs. apply bind_raise. unfold invoke. rewrite Hs. reflexivity.
  - destruct Hs as [(response & Hr & Hitems & Hnext) [Htok Hrest]].
    unfold bind at 1. unfold invoke at 1. rewrite Hr. simpl outcome_of_reply.
    unfold bind at 1. unfold lift at 1. rewrite Hitems.
    unfold bind at 1. unfold lift at 1. simpl py_iter.
    unfold bind at 1. unfold lift at 1. rewrite Hnext, Htok.
    change (negb true) with false. cbv iota.
    rewrite (IH fuel next (calendars ++ items) (tr ++ [page_request page_token]) Hrest);
      [| simpl in Hfuel; lia].
    simpl requests_until_failure. rewrite <- app_assoc. reflexivity.
Qed.

(** X12. When the provider fails a page request after having served some
    pages, [listCalendars] raises what the provider raised and keeps
    nothing of the pages already fetched: the tool answers with the failure
    envelope, whose [error] is the text of the exception and which has no
    [calendars].  The failed request is not repeated. *)
Theorem X12_list_calendars_failure_discards_pages
    (w : world) (cfg : config) (fuel : nat) (tr tr1 : list call)
    (svc : GoogleCalendarAuth.service) (pages : list (list value * value)) (e : exn) :
  GoogleCalendarAuth.authenticate_google_calendar w
    (NANGO_CONNECTION_ID cfg) (NANGO_INTEGRATION_ID cfg) tr = (Return svc, tr1) ->
  serves_then_fails w tr1 VNone pages e ->
  (length pages < fuel)%nat ->
  GoogleCalendarTools.get_all_calendars w fuel
    (NANGO_CONNECTION_ID cfg) (NANGO_INTEGRATION_ID cfg) tr =
  (Raise e, tr1 ++ requests_until_failure VNone pages) /\
  get_all_calendars w cfg fuel tr =
  (Return (failure_envelope e "Failed to retrieve calendars"),
   tr1 ++ requests_until_failure VNone pages) /\
  field "error" (failure_envelope e "Failed to retrieve calendars") = Some (VStr (str_exn e)) /\
  field "calendars" (failure_envelope e "Failed to retrieve calendars") = None.
Proof.
  intros Ha Hs Hfuel.
  assert (Hclient :
    GoogleCalendarTools.get_all_calendars w fuel
      (NANGO_CONNECTION_ID cfg) (NANGO_INTEGRATION_ID cfg) tr =
    (Raise e, tr1 ++ requests_until_failure VNone pages)).
  { unfold GoogleCalendarTools.get_all_calendars.
    rewrite (try_except_raise _ _ tr (tr1 ++ requests_until_failure VNone pages) e);
      [destruct e; reflexivity |].
    rewrite (bind_return _ _ _ _ _ Ha).
    apply (calendar_pages_serves_then_fails w svc e pages fuel VNone [] tr1 Hs Hfuel). }
  split; [exact Hclient |]. split; [| split; reflexivity].
  unfold get_all_calendars.
  rewrite (try_except_raise _ _ tr (tr1 ++ requests_until_failure VNone pages) e);
    [reflexivity |].
  apply bind_raise. exact Hclient.
Qed.

Lemma X12_witness :
  GoogleCalendarTools.get_all_calendars (sample_world breaking_provider) 5
    "conn-1" "google-calendar" [] =
  (Raise (HttpError (Some 503) "<HttpError 503>"),
   [sample_vault_request] ++
   requests_until_failure VNone [([VDict [("id", VStr "work")]], VStr "token-1")]) /\
  get_all_calendars (sample_world breaking_provider) sample_config 5 [] =
  (Return (failure_envelope (HttpError (Some 503) "<HttpError 503>")
             "Failed to retrieve calendars"),
   [sample_vault_request] ++
   requests_until_failure VNone [([VDict [("id", VStr "work")]], VStr "token-1")]) /\
  field "error" (failure_envelope (HttpError (Some 503) "<HttpError 503>")
                   "Failed to retrieve calendars") =
  Some (VStr (str_exn (HttpError (Some 503) "<HttpError 503>"))) /\
  field "calendars" (failure_envelope (HttpError (Some 503) "<HttpError 503>")
                       "Failed to retrieve calendars") = None.
Proof.
  apply (X12_list_calendars_failure_discards_pages (sample_world breaking_provider)
           sample_config 5 [] [sample_vault_request] sample_service
           [([VDict [("id", VStr "work")]], VStr "token-1")]
           (HttpError (Some 503) "<HttpError 503>")).
  - apply sample_authenticate.
  - simpl. repeat split; try reflexivity. eexists. repeat split; reflexivity.
  - simpl. lia.
Defined.

(** X13. When credentials resolve and the provider serves a sequence of
    pages, the [get_all_calendars] tool returns the success envelope whose
    [calendars] is the concatenation of the pages' items and whose
    [total_calendars] is their number. *)
Theorem X13_list_calendars_tool_counts_all_pages
    (w : world) (cfg : config) (fuel : nat) (tr tr1 : list call)
    (svc : GoogleCalendarAuth.service) (pages : list (list value * value)) :
  GoogleCalendarAuth.authenticate_google_calendar w
    (NANGO_CONNECTION_ID cfg) (NANGO_INTEGRATION_ID cfg) tr = (Return svc, tr1) ->
  serves w tr1 VNone pages ->
  (length pages <= fuel)%nat ->
  get_all_calendars w cfg fuel tr =
  (Return (calendars_success (concat (map fst pages))), tr1 ++ page_requests VNone pages) /\
  field "total_calendars" (calendars_success (concat (map fst pages))) =
  Some (VInt (Z.of_nat (length (concat (map fst pages))))).
Proof.
  intros Ha Hs Hfuel. split; [| reflexivity].
  unfold get_all_calendars. apply try_except_return.
  unfold GoogleCalendarTools.get_all_calendars.
  erewrite bind_return; [reflexivity |].
  apply try_except_return.
  rewrite (bind_return _ _ _ _ _ Ha).
  apply (calendar_pages_serves w svc pages fuel VNone [] tr1 Hs Hfuel).
Qed.

Lemma X13_witness :
  get_all_calendars (sample_world paged_provider) sample_config 3 [] =
  (Return (calendars_success (concat (map fst three_pages))),
   [sample_vault_request] ++ page_requests VNone three_pages) /\
  field "total_calendars" (calendars_success (concat (map fst three_pages))) =
  Some (VInt (Z.of_nat (length (concat (map fst three_pages))))).
Proof.
  apply (X13_list_calendars_tool_counts_all_pages (sample_world paged_provider)
           sample_config 3 [] [sample_vault_request] sample_service three_pages).
  - apply sample_authenticate.
  - simpl. repeat split; try reflexivity; eexists; repeat split; reflexivity.
  - simpl. lia.
Defined.

(** ** The calls of the tools *)

Lemma bind_silent_trace {A B : Type} (m : M A) (k : A -> M B) (tr : list call) :
  (forall a, silent (k a)) -> snd (bind m k tr) = snd (m tr).
Proof.
  intros Hk. unfold bind. destruct (m tr) as [[a | e |] tr1]; [apply Hk | |]; reflexivity.
Qed.

(** The calls of [create_meet_event]. *)
Lemma create_meet_event_trace
    (w : world) (connection_id provider_config_key summary start_datetime end_datetime
     description : string) (attendees : option (list string))
    (timezone calendar_id : string) (tr : list call) :
  snd (GoogleCalendarTools.create_meet_event w connection_id provider_config_key summary
         start_datetime end_datetime description attendees timezone calendar_id tr) =
  snd (GoogleCalendarAuth.authenticate_google_calendar w connection_id provider_config_key tr) ++
  match fst (GoogleCalendarAuth.authenticate_google_calendar w connection_id
               provider_config_key tr) with
  | Return _ =>
      if truthy_str summary then
        [EventsInsert calendar_id
           (GoogleCalendarTools.meet_event_body w summary start_datetime end_datetime
              description attendees timezone) 1 "all"]
      else []
  | _ => []
  end.
Proof.
  unfold GoogleCalendarTools.create_meet_event.
  rewrite try_except_trace by (intros e; destruct e; apply silent_ret).
  unfold GoogleCalendarTools.create_meet_event_body.
  apply after_resolution_trace. intros svc tr1.
  destruct (truthy_str summary); simpl negb; cbv iota.
  - unfold bind at 1. unfold ret at 1.
    apply invoke_then_silent. intros created. apply silent_ret.
  - rewrite app_nil_r. reflexivity.
Qed.

(** The pagination loop makes page requests only. *)
Lemma calendar_pages_trace (w : world) (svc : GoogleCalendarAuth.service) (fuel : nat) :
  forall (page_token : value) (calendars : list value) (tr : list call),
    exists post,
      snd (GoogleCalendarTools.calendar_pages w fuel svc page_token calendars tr) = tr ++ post /\
      Forall (fun c => is_page_request c = true) post.
Proof.
  induction fuel as [| fuel IH]; intros page_token calendars tr.
  - exists []. simpl. rewrite app_nil_r. split; [reflexivity | constructor].
  - simpl GoogleCalendarTools.calendar_pages. fold (page_request page_token).
    unfold bind at 1. unfold invoke at 1.
    destruct (outcome_of_reply _) as [calendar_list | e |];
      try (exists [page_request page_token]; split; [reflexivity | repeat constructor]).
    unfold bind at 1. unfold lift at 1.
    destruct (py_get calendar_list "items" (VList [])) as [items | e |];
      try (exists [page_request page_token]; split; [reflexivity | repeat constructor]).
    unfold bind at 1. unfold lift at 1.
    destruct (py_iter items) as [page_calendars | e |];
      try (exists [page_request page_token]; split; [reflexivity | repeat constructor]).
    unfold bind at 1. unfold lift at 1.
    destruct (py_get calendar_list "nextPageToken" VNone) as [next | e |];
      try (exists [page_request page_token]; split; [reflexivity | repeat constructor]).
    destruct (negb (truthy next)).
    + exists [page_request page_token]. split; [reflexivity | repeat constructor].
    + destruct (IH next (calendars ++ page_calendars) (tr ++ [page_request page_token]))
        as (post & Hpost & Hall).
      exists (page_request page_token :: post). rewrite Hpost, <- app_assoc.
      split; [reflexivity |]. constructor; [reflexivity | exact Hall].
Qed.

(** The calls of [get_all_calendars]. *)
Lemma get_all_calendars_trace (w : world) (fuel : nat)
    (connection_id provider_config_key : string) (tr : list call) :
  exists post,
    snd (GoogleCalendarTools.get_all_calendars w fuel connection_id provider_config_key tr) =
    snd (GoogleCalendarAuth.authenticate_google_calendar w connection_id provider_config_key tr)
    ++ post /\
    Forall (fun c => is_page_request c = true) post /\
    ((forall svc,
        fst (GoogleCalendarAuth.authenticate_google_calendar w connection_id
               provider_config_key tr) <> Return svc) -> post = []).
Proof.
  unfold GoogleCalendarTools.get_all_calendars.
  rewrite try_except_trace by (intros e; destruct e; apply silent_raise).
  unfold bind.
  destruct (GoogleCalendarAuth.authenticate_google_calendar _ _ _ _) as [[svc | e |] tr1];
    simpl fst; simpl snd.
  - destruct (calendar_pages_trace w svc fuel VNone [] tr1) as (post & Hpost & Hall).
    exists post. split; [exact Hpost |]. split; [exact Hall |].
    intros H. exfalso. apply (H svc). reflexivity.
  - exists []. rewrite app_nil_r. repeat split. constructor.
  - exists []. rewrite app_nil_r. repeat split. constructor.
Qed.

(** How resolution starts a trace: with the vault request, or with nothing
    when it raises for want of the vault's settings. *)
Lemma resolution_prefix (w : world) (connection_id provider_config_key : string)
    (tr : list call) :
  exists pre,
    snd (GoogleCalendarAuth.authenticate_google_calendar w connection_id provider_config_key tr)
    = tr ++ pre /\
    ((pre = [] /\
      forall svc,
        fst (GoogleCalendarAuth.authenticate_google_calendar w connection_id
               provider_config_key tr) <> Return svc) \/
     pre = [vault_request w connection_id provider_config_key]) /\
    (vault_configured w = true -> pre = [vault_request w connection_id provider_config_key]).
Proof.
  rewrite authenticate_trace.
  destruct (vault_configured w) eqn:Hc.
  - eexists. split; [reflexivity |]. split; [right; reflexivity | reflexivity].
  - exists []. split; [reflexivity |]. split; [| discriminate].
    left. split; [reflexivity |]. intros svc.
    rewrite (authenticate_unconfigured w connection_id provider_config_key tr Hc).
    discriminate.
Qed.

(** The shape of a tool's trace: what resolution added, then requests of
    the tool's own. *)
Definition tool_trace_shape (w : world) (cfg : config) (t : tool_call)
    (tr final : list call) : Prop :=
  exists pre post,
    final = tr ++ pre ++ post /\
    ((pre = [] /\ post = []) \/
     pre = [vault_request w (NANGO_CONNECTION_ID cfg) (NANGO_INTEGRATION_ID cfg)]) /\
    Forall (fun c => own_request t c = true) post /\
    (is_list_calendars t = false -> (length post <= 1)%nat) /\
    (vault_configured w = true -> reaches_resolution w t ->
     pre = [vault_request w (NANGO_CONNECTION_ID cfg) (NANGO_INTEGRATION_ID cfg)]).

Lemma assemble_trace (w : world) (cfg : config) (t : tool_call) (tr final post : list call) :
  final =
  snd (GoogleCalendarAuth.authenticate_google_calendar w
         (NANGO_CONNECTION_ID cfg) (NANGO_INTEGRATION_ID cfg) tr) ++ post ->
  Forall (fun c => own_request t c = true) post ->
  (is_list_calendars t = false -> (length post <= 1)%nat) ->
  ((forall svc,
      fst (GoogleCalendarAuth.authenticate_google_calendar w
             (NANGO_CONNECTION_ID cfg) (NANGO_INTEGRATION_ID cfg) tr) <> Return svc) ->
   post = []) ->
  tool_trace_shape w cfg t tr final.
Proof.
  intros Hfinal Hown Hbound Hfail.
  destruct (resolution_prefix w (NANGO_CONNECTION_ID cfg) (NANGO_INTEGRATION_ID cfg) tr)
    as (pre & Hsnd & Hpre & Hcfg).
  rewrite Hsnd in Hfinal. exists pre, post.
  split; [rewrite Hfinal, <- app_assoc; reflexivity |].
  split; [| split; [exact Hown | split; [exact Hbound | intros Hc _; exact (Hcfg Hc)]]].
  destruct Hpre as [[Hnil Hno] | Hvault]; [left | right; exact Hvault].
  split; [exact Hnil | exact (Hfail Hno)].
Qed.

(** A single request after resolution, made only when resolution returned. *)
Lemma assemble_single (w : world) (cfg : config) (t : tool_call) (tr final tail : list call) :
  final =
  snd (GoogleCalendarAuth.authenticate_google_calendar w
         (NANGO_CONNECTION_ID cfg) (NANGO_INTEGRATION_ID cfg) tr) ++
  match fst (GoogleCalendarAuth.authenticate_google_calendar w
               (NANGO_CONNECTION_ID cfg) (NANGO_INTEGRATION_ID cfg) tr) with
  | Return _ => tail
  | _ => []
  end ->
  Forall (fun c => own_request t c = true) tail ->
  (length tail <= 1)%nat ->
  tool_trace_shape w cfg t tr final.
Proof.
  intros Hfinal Hown Hbound.
  eapply assemble_trace; [exact Hfinal | | |].
  - destruct (fst _); [exact Hown | constructor | constructor].
  - intros _. destruct (fst _); [exact Hbound | simpl; lia | simpl; lia].
  - intros Hno. destruct (fst _) as [svc | e |]; [| reflexivity | reflexivity].
    exfalso. apply (Hno svc). reflexivity.
Qed.

Lemma events_tool_trace_shape (w : world) (cfg : config) (t : tool_call)
    (calendar_id : string) (time_min time_max : option string) (max_results : Z)
    (tr : list call) :
  own_request t (EventsList (GoogleCalendarTools.events_list_params calendar_id time_min
                               time_max max_results)) = true ->
  tool_trace_shape w cfg t tr
    (snd (GoogleCalendarTools.get_calendar_events w
            (NANGO_CONNECTION_ID cfg) (NANGO_INTEGRATION_ID cfg)
            calendar_id time_min time_max max_results tr)).
Proof.
  intros Hown.
  eapply assemble_single; [apply get_calendar_events_trace | | simpl; lia].
  constructor; [exact Hown | constructor].
Qed.

(** Every tool's trace has that shape. *)
Lemma call_tool_trace (w : world) (cfg : config) (fuel : nat) (t : tool_call)
    (tr : list call) :
  tool_trace_shape w cfg t tr (snd (call_tool w cfg fuel t tr)).
Proof.
  destruct t as [| calendar_id time_min time_max max_results
                 | summary start_datetime end_datetime description attendees timezone calendar_id
                 | calendar_id event_id | calendar_id | days_ahead calendar_id];
    simpl call_tool.
  - unfold get_all_calendars.
    rewrite try_except_trace by (intros e; apply silent_ret).
    rewrite bind_silent_trace by (intros a; apply silent_ret).
    destruct (get_all_calendars_trace w fuel (NANGO_CONNECTION_ID cfg)
                (NANGO_INTEGRATION_ID cfg) tr) as (post & Hpost & Hall & Hfail).
    eapply assemble_trace; [exact Hpost | | discriminate | exact Hfail].
    eapply Forall_impl; [exact Hall |]. intros c Hc. destruct c; try discriminate Hc.
    reflexivity.
  - unfold get_calendar_events. rewrite events_tool_passthrough.
    apply events_tool_trace_shape. reflexivity.
  - unfold create_meet_event.
    rewrite try_except_trace by (intros e; apply silent_ret).
    rewrite bind_silent_trace by (intros a; destruct (truthy a); apply silent_ret).
    eapply assemble_single; [apply create_meet_event_trace | |].
    + destruct (truthy_str summary); repeat constructor.
    + destruct (truthy_str summary); simpl; lia.
  - unfold cancel_calendar_event.
    rewrite try_except_trace by (intros e; apply silent_ret).
    rewrite bind_silent_trace by (intros a; apply silent_ret).
    eapply assemble_single; [apply cancel_calendar_event_trace | | simpl; lia].
    constructor; [| constructor]. simpl. rewrite !String.eqb_refl. reflexivity.
  - unfold get_today_events. cbv zeta. rewrite events_tool_passthrough.
    apply events_tool_trace_shape. reflexivity.
  - unfold get_upcoming_events. cbv zeta.
    rewrite try_except_trace by (intros e; apply silent_ret).
    unfold bind at 1. unfold lift at 1.
    destruct (add_days (now w) days_ahead) as [future | e |] eqn:E.
    + rewrite bind_silent_trace by (intros a; apply silent_ret).
      apply events_tool_trace_shape. reflexivity.
    + exists [], []. simpl. rewrite app_nil_r.
      split; [reflexivity |]. split; [left; split; reflexivity |].
      split; [constructor |]. split; [simpl; lia |].
      intros _ (future & Hf). rewrite E in Hf. discriminate Hf.
    + exfalso. eapply add_days_not_out_of_fuel, E.
Qed.

(** X14. The calendar requests whose [.execute()] a tool invokes are of
    the tool's own kind, and come only after the vault request of
    credential resolution: the query tools ([listCalendars], [listEvents],
    [getTodayEvents], [getUpcomingEvents]) never execute an insert or a
    delete, [createMeetingEvent] only an insert, [cancelEvent] only the
    delete of the event it was given, and no tool calls [creds.refresh]
    itself.  Every tool but [listCalendars] invokes [.execute()] at most
    once: the program has no retry of its own (what the client library
    does inside [.execute()] is not counted). *)
Theorem X14_tools_execute_only_their_own_requests
    (w : world) (cfg : config) (fuel : nat) (t : tool_call) (tr : list call) :
  exists pre post,
    snd (call_tool w cfg fuel t tr) = tr ++ pre ++ post /\
    ((pre = [] /\ post = []) \/
     pre = [vault_request w (NANGO_CONNECTION_ID cfg) (NANGO_INTEGRATION_ID cfg)]) /\
    Forall (fun c => own_request t c = true) post /\
    (is_list_calendars t = false -> (length post <= 1)%nat).
Proof.
  destruct (call_tool_trace w cfg fuel t tr)
    as (pre & post & Hfinal & Hpre & Hown & Hbound & _).
  exists pre, post. split; [exact Hfinal |]. split; [exact Hpre |].
  split; [exact Hown | exact Hbound].
Qed.

Lemma X14_witness :
  exists pre post,
    snd (call_tool (sample_world (failing_provider 404)) sample_config 1
           (CancelCalendarEvent "primary" "evt-1") []) = [] ++ pre ++ post /\
    pre = [sample_vault_request] /\
    post = [EventsDelete "primary" "evt-1" "all"] /\
    (length post <= 1)%nat.
Proof.
  destruct (X14_tools_execute_only_their_own_requests (sample_world (failing_provider 404))
              sample_config 1 (CancelCalendarEvent "primary" "evt-1") [])
    as (pre & post & Hfinal & Hpre & _ & Hbound).
  exists pre, post. split; [exact Hfinal |].
  vm_compute in Hfinal.
  destruct Hpre as [[-> ->] | ->]; [discriminate Hfinal |].
  vm_compute in Hfinal. inversion Hfinal; subst post.
  split; [reflexivity |]. split; [reflexivity |]. apply Hbound. reflexivity.
Defined.

(** X15. Every tool invocation resolves the credential afresh: with the
    vault configured, the first call of the invocation is the vault request
    for the configured connection, and it is the only one; everything after
    it is a request of the tool's own to the calendar provider.  (An
    upcoming-events request whose date arithmetic overflows is answered
    before resolution and makes no call.) *)
Theorem X15_every_invocation_asks_the_vault_first
    (w : world) (cfg : config) (fuel : nat) (t : tool_call) (tr : list call) :
  vault_configured w = true ->
  reaches_resolution w t ->
  exists post,
    snd (call_tool w cfg fuel t tr) =
    tr ++ vault_request w (NANGO_CONNECTION_ID cfg) (NANGO_INTEGRATION_ID cfg) :: post /\
    Forall (fun c => own_request t c = true) post.
Proof.
  intros Hc Hreach.
  destruct (call_tool_trace w cfg fuel t tr)
    as (pre & post & Hfinal & _ & Hown & _ & Hpre).
  exists post. rewrite Hfinal, (Hpre Hc Hreach). split; [reflexivity | exact Hown].
Qed.

Lemma X15_witness :
  exists post,
    snd (call_tool (sample_world paged_provider) sample_config 3 GetAllCalendars
           [sample_vault_request; EventsDelete "primary" "evt-1" "all"]) =
    [sample_vault_request; EventsDelete "primary" "evt-1" "all"] ++
    vault_request (sample_world paged_provider)
      (NANGO_CONNECTION_ID sample_config) (NANGO_INTEGRATION_ID sample_config) :: post /\
    Forall (fun c => own_request GetAllCalendars c = true) post.
Proof.
  apply (X15_every_invocation_asks_the_vault_first (sample_world paged_provider)
           sample_config 3 GetAllCalendars
           [sample_vault_request; EventsDelete "primary" "evt-1" "all"]).
  - vm_compute. reflexivity.
  - exact I.
Defined.

(** X16. The [get_calendar_events] and [cancel_calendar_event] tools return
    exactly the envelope of the Client operation, in every world: the
    operation has already turned every fault into an envelope, so the
    tools' own handlers are never reached. *)
Theorem X16_tools_hand_on_the_client_envelope (w : world) (cfg : config) (tr : list call) :
  (forall calendar_id time_min time_max max_results,
     get_calendar_events w cfg calendar_id time_min time_max max_results tr =
     GoogleCalendarTools.get_calendar_events w
       (NANGO_CONNECTION_ID cfg) (NANGO_INTEGRATION_ID cfg)
       calendar_id time_min time_max max_results tr) /\
  (forall calendar_id event_id,
     cancel_calendar_event w cfg calendar_id event_id tr =
     GoogleCalendarTools.cancel_calendar_event w
       (NANGO_CONNECTION_ID cfg) (NANGO_INTEGRATION_ID cfg) calendar_id event_id tr).
Proof.
  split.
  - intros calendar_id time_min time_max max_results.
    unfold get_calendar_events. apply events_tool_passthrough.
  - intros calendar_id event_id. unfold cancel_calendar_event.
    destruct (cancel_calendar_event_returns w (NANGO_CONNECTION_ID cfg)
                (NANGO_INTEGRATION_ID cfg) calendar_id event_id tr)
      as (envelope & tr' & Hop & _).
    unfold try_except, bind. rewrite Hop. reflexivity.
Qed.

(** ** getUpcomingEvents *)

Ltac zdiv := Z.to_euclidean_division_equations; lia.

(** The day number of the date of a day number is that number. *)
Lemma toordinal_fromordinal (n : Z) :
  let '(y, m, d) := fromordinal n in toordinal y m d = n.
Proof.
  unfold fromordinal, toordinal. cbv zeta.
  set (z := n + 305).
  set (era := z / 146097).
  set (doe := z - era * 146097).
  set (yoe := (doe - doe / 1460 + doe / 36524 - doe / 146096) / 365).
  set (doy := doe - (365 * yoe + yoe / 4 - yoe / 100)).
  set (mp := (5 * doy + 2) / 153).
  assert (Hdoe : 0 <= doe < 146097) by (subst doe era; zdiv).
  assert (Hyoe : 0 <= yoe <= 399) by (subst yoe; zdiv).
  assert (Hdoy : 0 <= doy <= 365) by (subst doy yoe; zdiv).
  assert (Hmp : 0 <= mp <= 11) by (subst mp; zdiv).
  assert (Hera : (yoe + era * 400) / 400 = era) by zdiv.
  destruct (mp <? 10) eqn:Hlt.
  - replace (mp + 3 <=? 2) with false by (symmetry; lia).
    replace (2 <? mp + 3) with true by (symmetry; lia).
    replace (yoe + era * 400 + 0) with (yoe + era * 400) by lia.
    rewrite Hera.
    replace (mp + 3 - 3) with mp by lia.
    replace (yoe + era * 400 - era * 400) with yoe by lia.
    subst doy doe z. lia.
  - replace (mp - 9 <=? 2) with true by (symmetry; lia).
    replace (2 <? mp - 9) with false by (symmetry; lia).
    replace (yoe + era * 400 + 1 - 1) with (yoe + era * 400) by lia.
    rewrite Hera.
    replace (mp - 9 + 9) with mp by lia.
    replace (yoe + era * 400 - era * 400) with yoe by lia.
    subst doy doe z. lia.
Qed.

(** X17. When [days_ahead] is beyond what the date arithmetic can
    represent (more than 999999999 days either way, or a date outside years
    1 to 9999), [getUpcomingEvents] answers with a failure envelope carrying
    the [OverflowError], and makes no call at all: neither the vault nor
    the calendar provider is asked. *)
Theorem X17_upcoming_overflow_is_answered_locally
    (w : world) (cfg : config) (days_ahead : Z) (calendar_id : string) (tr : list call) :
  999999999 < Z.abs days_ahead \/
  toordinal (year (now w)) (month (now w)) (day (now w)) + days_ahead < 1 \/
  MAXORDINAL < toordinal (year (now w)) (month (now w)) (day (now w)) + days_ahead ->
  exists text,
    get_upcoming_events w cfg days_ahead calendar_id tr =
    (Return (failure_envelope (OverflowError text) "Failed to retrieve upcoming events"), tr).
Proof.
  intros H.
  assert (Hadd : exists text, add_days (now w) days_ahead = Raise (OverflowError text)).
  { unfold add_days. destruct (Z.ltb_spec 999999999 (Z.abs days_ahead)) as [Hbig | Hsmall].
    - eexists. reflexivity.
    - replace ((1 <=? _) && (_ <=? MAXORDINAL)) with false.
      + eexists. reflexivity.
      + symmetry. apply andb_false_iff. destruct H as [H | [H | H]]; [lia | left | right]; lia. }
  destruct Hadd as (text & Hadd). exists text.
  unfold get_upcoming_events. cbv zeta.
  rewrite (try_except_raise _ _ tr tr (OverflowError text)); [reflexivity |].
  apply bind_raise. unfold lift. rewrite Hadd. reflexivity.
Qed.

Lemma X17_witness :
  exists text,
    get_upcoming_events (sample_world (constant_provider (VDict []))) sample_config
      3000000 "primary" [] =
    (Return (failure_envelope (OverflowError text) "Failed to retrieve upcoming events"), []).
Proof.
  apply (X17_upcoming_overflow_is_answered_locally
           (sample_world (constant_provider (VDict []))) sample_config 3000000 "primary" []).
  right. right. vm_compute. reflexivity.
Defined.

(** X18. When the date arithmetic stays in range, [getUpcomingEvents] gives
    what [listEvents] gives with [maxResults = 50] for the window from the
    local clock reading to the same time of day exactly [days_ahead]
    calendar days later.  [days_ahead] is not checked for sign: zero or a
    negative number is passed on as a window that ends at or before its
    start. *)
Theorem X18_upcoming_window_is_days_ahead_long
    (w : world) (cfg : config) (days_ahead : Z) (calendar_id : string) (tr : list call) :
  Z.abs days_ahead <= 999999999 ->
  1 <= toordinal (year (now w)) (month (now w)) (day (now w)) + days_ahead <= MAXORDINAL ->
  exists future,
    add_days (now w) days_ahead = Return future /\
    toordinal (year future) (month future) (day future) =
    toordinal (year (now w)) (month (now w)) (day (now w)) + days_ahead /\
    (hour future, minute future, second future, microsecond future) =
    (hour (now w), minute (now w), second (now w), microsecond (now w)) /\
    get_upcoming_events w cfg days_ahead calendar_id tr =
    GoogleCalendarTools.get_calendar_events w
      (NANGO_CONNECTION_ID cfg) (NANGO_INTEGRATION_ID cfg) calendar_id
      (Some (isoformat (now w) +:+ "Z")) (Some (isoformat future +:+ "Z")) 50 tr.
Proof.
  intros Hdays Hrange.
  pose proof (toordinal_fromordinal
                (toordinal (year (now w)) (month (now w)) (day (now w)) + days_ahead)) as Hrt.
  assert (Hadd : add_days (now w) days_ahead =
    let '(y, m, d) :=
      fromordinal (toordinal (year (now w)) (month (now w)) (day (now w)) + days_ahead) in
    Return {| year := y; month := m; day := d; hour := hour (now w);
              minute := minute (now w); second := second (now w);
              microsecond := microsecond (now w) |}).
  { unfold add_days.
    replace (999999999 <? Z.abs days_ahead) with false by (symmetry; lia).
    replace ((1 <=? _) && (_ <=? MAXORDINAL)) with true; [reflexivity |].
    symmetry. apply andb_true_iff. split; lia. }
  destruct (fromordinal _) as [[y m] d].
  eexists. split; [exact Hadd |]. split; [exact Hrt |]. split; [reflexivity |].
  unfold get_upcoming_events. cbv zeta. rewrite Hadd.
  apply (events_tool_passthrough w (NANGO_CONNECTION_ID cfg) (NANGO_INTEGRATION_ID cfg)
           calendar_id).
Qed.

Lemma X18_witness :
  exists future,
    add_days (now (sample_world untitled_provider)) (-3) = Return future /\
    toordinal (year future) (month future) (day future) =
    toordinal (year (now (sample_world untitled_provider)))
      (month (now (sample_world untitled_provider)))
      (day (now (sample_world untitled_provider))) + -3 /\
    (hour future, minute future, second future, microsecond future) =
    (hour (now (sample_world untitled_provider)),
     minute (now (sample_world untitled_provider)),
     second (now (sample_world untitled_provider)),
     microsecond (now (sample_world untitled_provider))) /\
    get_upcoming_events (sample_world untitled_provider) sample_config (-3) "team" [] =
    GoogleCalendarTools.get_calendar_events (sample_world untitled_provider)
      (NANGO_CONNECTION_ID sample_config) (NANGO_INTEGRATION_ID sample_config) "team"
      (Some (isoformat (now (sample_world untitled_provider)) +:+ "Z"))
      (Some (isoformat future +:+ "Z")) 50 [].
Proof.
  apply (X18_upcoming_window_is_days_ahead_long (sample_world untitled_provider)
           sample_config (-3) "team" []).
  - simpl. lia.
  - vm_compute. split; discriminate.
Defined.

(** ** Malformed vault answers *)

(** X19. A vault answer outside the 4xx and 5xx statuses that is not the
    expected JSON makes resolution raise right after the vault request: a
    body that is not JSON raises the decoding error of [response.json()]; a
    JSON value that is not an object, or an object whose [credentials] is
    present but is not an object (for instance [null]), raises the
    [AttributeError] of the [.get] that was attempted on it. *)
Theorem X19_malformed_vault_answer_raises
    (w : world) (connection_id provider_config_key : string) (tr : list call)
    (response : http_response) :
  vault_configured w = true ->
  vault_reply w tr (vault_request w connection_id provider_config_key) = Replied response ->
  status_code response < 400 \/ 600 <= status_code response ->
  (json_body response = None ->
   exists text,
     GoogleCalendarAuth.authenticate_google_calendar w connection_id provider_config_key tr =
     (Raise (PyError "JSONDecodeError" text),
      tr ++ [vault_request w connection_id provider_config_key])) /\
  (forall payload,
     json_body response = Some payload ->
     is_dict payload = false ->
     exists text,
       GoogleCalendarAuth.authenticate_google_calendar w connection_id provider_config_key tr =
       (Raise (AttributeError text),
        tr ++ [vault_request w connection_id provider_config_key])) /\
  (forall payload credentials_data,
     json_body response = Some payload ->
     py_get payload "credentials" (VDict []) = Return credentials_data ->
     is_dict credentials_data = false ->
     exists text,
       GoogleCalendarAuth.authenticate_google_calendar w connection_id provider_config_key tr =
       (Raise (AttributeError text),
        tr ++ [vault_request w connection_id provider_config_key])).
Proof.
  intros Hc Hr Hstatus.
  assert (Hstart : forall (k : value -> M GoogleCalendarAuth.service),
    bind (invoke (vault_request w connection_id provider_config_key) (vault_reply w))
         (fun response0 =>
            bind (bind (GoogleCalendarAuth.raise_for_status response0)
                       (fun _ => GoogleCalendarAuth.response_json response0)) k) tr =
    bind (GoogleCalendarAuth.response_json response) k
         (tr ++ [vault_request w connection_id provider_config_key])).
  { intros k. unfold bind at 1. unfold invoke. rewrite Hr. simpl outcome_of_reply.
    unfold bind. rewrite (raise_for_status_passes w response _ Hstatus). reflexivity. }
  rewrite (authenticate_after_vault w connection_id provider_config_key tr Hc), Hstart.
  unfold GoogleCalendarAuth.response_json.
  split; [| split].
  - intros Hbody. rewrite Hbody. eexists. reflexivity.
  - intros payload Hbody Hdict. rewrite Hbody.
    destruct payload; try discriminate Hdict; eexists; reflexivity.
  - intros payload credentials_data Hbody Hget Hdict. rewrite Hbody.
    unfold bind at 1. unfold ret at 1. unfold service_of_response.
    unfold bind at 1. unfold lift at 1. rewrite Hget.
    destruct credentials_data; try discriminate Hdict; eexists; reflexivity.
Qed.

Lemma X19_witness :
  exists text,
    GoogleCalendarAuth.authenticate_google_calendar
      (vault_answering 200 "OK" (Some (VDict [("credentials", VNone)])))
      "conn-1" "google-calendar" [] =
    (Raise (AttributeError text), [] ++ [sample_vault_request]).
Proof.
  destruct (X19_malformed_vault_answer_raises
              (vault_answering 200 "OK" (Some (VDict [("credentials", VNone)])))
              "conn-1" "google-calendar" []
              {| status_code := 200; reason := "OK";
                 response_url := "https://vault.example/connection/conn-1";
                 json_body := Some (VDict [("credentials", VNone)]) |})
    as (_ & _ & Hcredentials).
  - vm_compute. reflexivity.
  - reflexivity.
  - left. simpl. lia.
  - apply (Hcredentials (VDict [("credentials", VNone)]) VNone); reflexivity.
Defined.
